(** * Package [profile]: loading and reconstructing Minecraft profiles

    A shallow embedding of [profile/load.go]: the name-history
    reconstruction ([buildHistory]), the textures decoder
    ([populateTextures]), the default model selector ([defaultModel],
    [isEven]), the error classifier ([transformError]), profile assembly
    ([buildProfile]) and the load operations.

    Conventions of the embedding:
    - a decoded JSON value (Go's [interface{}] as produced by
      [encoding/json]) is the inductive [json]; objects are finite maps;
    - a failed type assertion, an index out of range or an explicit
      [panic] is the outcome [Panic]; the deferred [recover] of a load
      operation is written out where the operation has one;
    - a nil pointer, nil slice or nil error is [None];
    - Go integers are [Z]; [int64] arithmetic is wrapped explicitly;
    - the transport ([internal.FetchJSON], [internal.ExchangeJSON]) is
      an oracle; every request issued is appended to a log that is
      threaded through the load operations. *)

From Stdlib Require Import ZArith Ascii String List Bool Lia.
From stdpp Require Import base option list gmap strings.

Local Open Scope string_scope.
Local Open Scope list_scope.
Local Open Scope Z_scope.

(** ** Outcomes of code that may panic *)

Inductive outcome (A : Type) : Type :=
| Ret (a : A)
| Panic.
Arguments Ret {A} a.
Arguments Panic {A}.

#[global] Instance outcome_ret : MRet outcome := fun A a => Ret a.
#[global] Instance outcome_bind : MBind outcome := fun A B k x =>
  match x with
  | Ret a => k a
  | Panic => Panic
  end.

(** ** Decoded JSON documents

    [encoding/json] decodes into [nil], [bool], [float64], [string],
    [[]interface{}] and [map[string]interface{}].  The type of numbers is
    a parameter: only its conversion to [int64] is ever used. *)

#[local] Unset Elimination Schemes.
Inductive json (float64 : Type) : Type :=
| JNull
| JBool (b : bool)
| JNum (f : float64)
| JStr (s : string)
| JArr (a : list (json float64))
| JObj (m : gmap string (json float64)).
#[local] Set Elimination Schemes.
Arguments JNull {float64}.
Arguments JBool {float64} b.
Arguments JNum {float64} f.
Arguments JStr {float64} s.
Arguments JArr {float64} a.
Arguments JObj {float64} m.

(** ** Body models

    Modelled from the spec: the declaration of [Model] lies outside
    [load.go]; it is an enumeration of the two body shapes, of which
    [load.go] names both. *)

Inductive Model : Type := Steve | Alex.

(** ** The default model selector *)

Definition byte_of (c : ascii) : Z := Z.of_N (N_of_ascii c).

(** [uuid[i]]: indexing a string yields a byte and panics out of range. *)
Definition index (s : string) (i : nat) : outcome Z :=
  match String.get i s with
  | Some c => Ret (byte_of c)
  | None => Panic
  end.

Definition isEven (c : Z) : outcome bool :=
  if Z.leb (byte_of "0"%char) c && Z.leb c (byte_of "9"%char) then
    Ret (Z.eqb (Z.land c 1) 0)
  else if Z.leb (byte_of "a"%char) c && Z.leb c (byte_of "f"%char) then
    Ret (Z.eqb (Z.land c 1) 1)
  else Panic.

(** Go evaluates the operands of [!=] from left to right. *)
Definition defaultModel (uuid : string) : outcome Model :=
  c7 ← index uuid 7;
  e7 ← isEven c7;
  c23 ← index uuid (16 + 7);
  e23 ← isEven c23;
  c15 ← index uuid 15;
  e15 ← isEven c15;
  c31 ← index uuid (16 + 15);
  e31 ← isEven c31;
  if xorb (xorb e7 e23) (xorb e15 e31) then Ret Alex else Ret Steve.

(** ** Instants

    Go's [time.Time], seen as an absolute instant: whole seconds since the
    Unix epoch and nanoseconds within the second.  The zero [Time] is
    January 1, year 1, 00:00:00 UTC. *)

Record Time : Type := mkTime { unixSec : Z; nanos : Z }.

Definition Time_zero : Time := mkTime (-62135596800) 0.

Definition wrap64 (z : Z) : Z := (z + 2 ^ 63) mod 2 ^ 64 - 2 ^ 63.

(** [time.Unix(sec, nsec)] of the Go standard library: [nsec] outside
    [0, 999999999] is carried into the seconds. *)
Definition time_Unix (sec nsec : Z) : Time :=
  if (nsec <? 0) || (1000000000 <=? nsec) then
    let n := Z.quot nsec 1000000000 in
    let sec := wrap64 (sec + n) in
    let nsec := wrap64 (nsec - wrap64 (n * 1000000000)) in
    if nsec <? 0 then mkTime (wrap64 (sec - 1)) (wrap64 (nsec + 1000000000))
    else mkTime sec nsec
  else mkTime sec nsec.

(** [t.UnixNano() / 1e6]-style reading of an instant in milliseconds. *)
Definition UnixMilli (t : Time) : Z := unixSec t * 1000 + nanos t / 1000000.

Definition msToTime (ms : Z) : Time :=
  let s := Z.quot ms 1000 in
  let ns := wrap64 (wrap64 (ms - wrap64 (s * 1000)) * 1000000) in
  time_Unix s ns.

(** ** Profiles

    The fields are the ones [load.go] reads and writes.  A nil slice and
    the empty non-nil slice [emptyHist] are told apart: [NameHistory] is
    [None] when not loaded.  A [*Properties] is [None] when nil. *)

Record PastName : Type := mkPastName { PastName_Name : string; Until : Time }.

Definition PastName_zero : PastName := mkPastName "" Time_zero.

Record Properties : Type := mkProperties {
  SkinURL : string;
  CapeURL : string;
  Properties_Model : Model
}.

Record Profile : Type := mkProfile {
  ID : string;
  Name : string;
  NameHistory : option (list PastName);
  Profile_Properties : option Properties
}.

Definition emptyHist : list PastName := [].

Definition LoadManyMaxSize : Z := 100.

(** ** Errors

    [ErrNoSuchProfile] and [ErrTooManyRequests] are the package's sentinel
    errors, [ErrMaxSizeExceeded] carries the requested size.  A transport
    failure carries a status code and the service's error code and
    message; [url.Error] wraps another error; everything else (context
    cancellation, base64 and JSON syntax errors) is [OtherError]. *)

Record ErrFailedRequest : Type := mkFailedRequest {
  StatusCode : Z;
  ErrorCode : string;
  ErrorMessage : string
}.

Inductive error : Type :=
| ErrNoSuchProfile
| ErrTooManyRequests
| ErrMaxSizeExceeded (Size : Z)
| ErrUnknownFormat
| FailedRequest (e : ErrFailedRequest)
| UrlError (Op URL : string) (Err : error)
| OtherError (msg : string).

(** [err == ErrNoSuchProfile] *)
Definition is_ErrNoSuchProfile (e : error) : bool :=
  match e with
  | ErrNoSuchProfile => true
  | _ => false
  end.

(** Modelled from the spec: [internal.UnwrapErrFailedRequest] belongs to
    the transport package, outside [load.go].  The development is
    parametric in it; this instance, which looks through [url.Error]
    wrappers for a transport failure, serves to evaluate the code on
    concrete errors. *)
Fixpoint unwrapFailedRequest (e : error) : option ErrFailedRequest :=
  match e with
  | FailedRequest r => Some r
  | UrlError _ _ e' => unwrapFailedRequest e'
  | _ => None
  end.

(** ** The transport

    Every request issued is recorded, in order. *)

Inductive request : Type :=
| Fetch (endpoint : string)
| Exchange (endpoint : string) (payload : list string).

Definition IO (A : Type) : Type := list request -> A * list request.

#[global] Instance IO_ret : MRet IO := fun A a log => (a, log).
#[global] Instance IO_bind : MBind IO := fun A B k x log =>
  let '(a, log') := x log in k a log'.

(** A deferred [recover()]: [body] runs while the named results are being
    computed; when it panics with the named results standing at [st], the
    deferred function [h] rewrites them. *)
Definition recovering {R : Type} (body : outcome R) (st : R) (h : R -> R) : R :=
  match body with
  | Ret r => r
  | Panic => h st
  end.

(** A Go slice that may be nil, read as the list of its elements. *)
Definition elems {A : Type} (s : option (list A)) : list A := default [] s.

(** [l[i] = f(l[i])] on a slice: panics when [i] is out of range. *)
Definition slice_update {A : Type} (l : list A) (i : Z) (f : A -> A)
  : outcome (list A) :=
  if (0 <=? i) && (i <? Z.of_nat (length l)) then
    match l !! Z.to_nat i with
    | Some x => Ret (<[Z.to_nat i := f x]> l)
    | None => Panic
    end
  else Panic.

Section Package.

(** [float64] and its conversion to [int64] ([int64(v)]). *)
Context {float64 : Type}.
Variable int64_of_float64 : float64 -> Z.

Abbreviation value := (json float64).
Abbreviation object := (gmap string (json float64)).

Definition int64 (f : float64) : Z := wrap64 (int64_of_float64 f).

(** *** Type assertions and map reads *)

(** [m[k]]: the nil interface when the key is absent. *)
Definition at_key (m : object) (k : string) : value := default JNull (m !! k).

Definition assertMap (v : value) : outcome object :=
  match v with JObj m => Ret m | _ => Panic end.

Definition assertSlice (v : value) : outcome (list value) :=
  match v with JArr a => Ret a | _ => Panic end.

Definition assertString (v : value) : outcome string :=
  match v with JStr s => Ret s | _ => Panic end.

Definition assertBool (v : value) : outcome bool :=
  match v with JBool b => Ret b | _ => Panic end.

Definition assertFloat64 (v : value) : outcome float64 :=
  match v with JNum f => Ret f | _ => Panic end.

(** [t, ok := m[k]; ok && t.(bool)] *)
Definition flag (m : object) (k : string) : outcome bool :=
  match m !! k with
  | Some t => assertBool t
  | None => Ret false
  end.

(** *** buildProfile *)

Definition buildProfile (m : object) (demoErr : error)
  : outcome (option Profile * option error) :=
  demo ← flag m "demo";
  if demo : bool then Ret (None, Some demoErr)
  else
    id ← assertString (at_key m "id");
    name ← assertString (at_key m "name");
    legacy ← flag m "legacy";
    Ret (Some (mkProfile id name
                 (if legacy : bool then Some emptyHist else None) None),
         None).

(** *** buildHistory *)

Definition setUntil (t : Time) (p : PastName) : PastName :=
  mkPastName (PastName_Name p) t.

Definition setName (n : string) (p : PastName) : PastName :=
  mkPastName n (Until p).

(** The [for i, v := range arr] loop; [i] is the index of the head of
    [arr], [h] the descending write position. *)
Fixpoint buildHistory_loop (arr : list value) (i h : Z) (name : string)
    (hist : list PastName) : outcome (string * list PastName) :=
  match arr with
  | [] => Ret (name, hist)
  | v :: arr' =>
      m ← assertMap v;
      hist ← match m !! "changedToAt" with
             | Some c =>
                 if 0 <? i then
                   f ← assertFloat64 c;
                   slice_update hist (h + 1) (setUntil (msToTime (int64 f)))
                 else Ret hist
             | None => Ret hist
             end;
      if i =? Z.of_nat (length hist) then
        n ← assertString (at_key m "name");
        Ret (n, hist)
      else
        n ← assertString (at_key m "name");
        hist ← slice_update hist h (setName n);
        buildHistory_loop arr' (i + 1) (h - 1) name hist
  end.

Definition buildHistory (arr : list value)
  : outcome (string * option (list PastName)) :=
  match arr with
  | [] => Ret ("", None)
  | _ :: _ =>
      let hist := replicate (length arr - 1) PastName_zero in
      let h := Z.of_nat (length hist) - 1 in
      '(name, hist) ← buildHistory_loop arr 0 h "" hist;
      Ret (name, Some hist)
  end.

(** *** The textures property *)

(** [base64.StdEncoding.DecodeString] and the decoding of the bytes into a
    [map[string]interface{}] by [encoding/json]. *)
Variable base64_DecodeString : string -> list Byte.byte * option error.
Variable json_Decode : list Byte.byte -> object * option error.

Definition setSkinURL (u : string) (p : Properties) : Properties :=
  mkProperties u (CapeURL p) (Properties_Model p).

Definition setCapeURL (u : string) (p : Properties) : Properties :=
  mkProperties (SkinURL p) u (Properties_Model p).

Definition setModel (m : Model) (p : Properties) : Properties :=
  mkProperties (SkinURL p) (CapeURL p) m.

(** The part of [populateTextures] after the two decoding steps. *)
Definition populateTextures_doc (j : object) (props : Properties)
  : outcome (Properties * option error) :=
  ts ← assertMap (at_key j "textures");
  props ← match ts !! "SKIN" with
          | Some s =>
              skin ← assertMap s;
              url ← assertString (at_key skin "url");
              let props := setModel Steve (setSkinURL url props) in
              match skin !! "metadata" with
              | Some s =>
                  skinMeta ← assertMap s;
                  match skinMeta !! "model" with
                  | Some m =>
                      m ← assertString m;
                      if String.eqb m "slim" then Ret (setModel Alex props)
                      else Ret props
                  | None => Ret props
                  end
              | None => Ret props
              end
          | None =>
              id ← assertString (at_key j "profileId");
              mdl ← defaultModel id;
              Ret (setModel mdl props)
          end;
  props ← match ts !! "CAPE" with
          | Some c =>
              cape ← assertMap c;
              url ← assertString (at_key cape "url");
              Ret (setCapeURL url props)
          | None => Ret props
          end;
  Ret (props, None).

(** [props] is the struct behind the pointer before the call; the result
    is the struct after it and the returned error. *)
Definition populateTextures (enc : string) (props : Properties)
  : outcome (Properties * option error) :=
  let '(bs, err) := base64_DecodeString enc in
  match err with
  | Some e => Ret (props, Some e)
  | None =>
      let '(j, err) := json_Decode bs in
      match err with
      | Some e => Ret (props, Some e)
      | None => populateTextures_doc j props
      end
  end.

Definition propertyPopulators (name : string)
  : option (string -> Properties -> outcome (Properties * option error)) :=
  if String.eqb name "textures" then Some populateTextures else None.

(** The zero value of [Model], for [new(Properties)]. *)
Variable Model_zero : Model.

Definition Properties_zero : Properties := mkProperties "" "" Model_zero.

Fixpoint buildProperties_loop (props : list value) (ps : Properties)
  : outcome (option Properties * option error) :=
  match props with
  | [] => Ret (Some ps, None)
  | p :: props' =>
      prop ← assertMap p;
      name ← assertString (at_key prop "name");
      value ← assertString (at_key prop "value");
      match propertyPopulators name with
      | Some parser =>
          '(ps, err) ← parser value ps;
          match err with
          | Some e => Ret (None, Some e)
          | None => buildProperties_loop props' ps
          end
      | None => buildProperties_loop props' ps
      end
  end.

Definition buildProperties (props : list value)
  : outcome (option Properties * option error) :=
  buildProperties_loop props Properties_zero.

(** *** transformError *)

Variable UnwrapErrFailedRequest : error -> option ErrFailedRequest.

Definition transformError (src : error) : error :=
  match UnwrapErrFailedRequest src with
  | Some e =>
      if StatusCode e =? 204 then ErrNoSuchProfile
      else if String.eqb (ErrorCode e) "TooManyRequestsException"
           then ErrTooManyRequests
           else src
  | None => src
  end.

(** *** The load operations *)

(** The endpoint templates ([fmt.Sprintf(loadURL, username)] and the
    like) and the two transport calls; [ctx] and [client] are part of the
    oracle. *)
Variable loadURL loadWithNameHistoryURL loadWithPropertiesURL : string -> string.
Variable loadAtTimeURL : string -> Z -> string.
Variable loadManyURL : string.
Variable FetchJSON : string -> value * option error.
Variable ExchangeJSON : string -> list string -> value * option error.

Definition fetchJSON (endpoint : string) : IO (value * option error) :=
  fun log => (FetchJSON endpoint, log ++ [Fetch endpoint]).

Definition exchangeJSON (endpoint : string) (payload : list string)
  : IO (value * option error) :=
  fun log => (ExchangeJSON endpoint payload, log ++ [Exchange endpoint payload]).

Definition parseError (endpoint : string) : error :=
  UrlError "Parse" endpoint ErrUnknownFormat.

(** [p] is assigned by the last statement of the protected block only, so
    it is still nil when a panic unwinds; the deferred function sets
    [err] and leaves [p]. *)
Definition loadByName (endpoint : string) : IO (option Profile * option error) :=
  '(j, err) ← fetchJSON endpoint;
  mret (match err with
        | None =>
            recovering
              (m ← assertMap j; buildProfile m ErrNoSuchProfile)
              (None, None)
              (fun '(p, _) => (p, Some (parseError endpoint)))
        | Some e => (None, Some (transformError e))
        end).

Definition Load (username : string) : IO (option Profile * option error) :=
  if String.eqb username "" then mret (None, Some ErrNoSuchProfile)
  else loadByName (loadURL username).

Definition LoadAtTime (username : string) (tm : Time)
  : IO (option Profile * option error) :=
  if String.eqb username "" then mret (None, Some ErrNoSuchProfile)
  else loadByName (loadAtTimeURL username (unixSec tm)).

Definition LoadWithNameHistory (id : string)
  : IO (option Profile * option error) :=
  if String.eqb id "" then mret (None, Some ErrNoSuchProfile)
  else
    let endpoint := loadWithNameHistoryURL id in
    '(j, err) ← fetchJSON endpoint;
    mret (match err with
          | None =>
              recovering
                (a ← assertSlice j;
                 '(name, hist) ← buildHistory a;
                 Ret (Some (mkProfile id name hist None), None))
                (None, None)
                (fun '(p, _) => (p, Some (parseError endpoint)))
          | Some e => (None, Some (transformError e))
          end).

Definition LoadByID (id : string) : IO (option Profile * option error) :=
  LoadWithNameHistory id.

Definition setProperties (ps : option Properties) (p : Profile) : Profile :=
  mkProfile (ID p) (Name p) (NameHistory p) ps.

(** Here the deferred function also resets [p]: the second statement of
    the block can panic after [p] was assigned. *)
Definition LoadWithProperties (id : string)
  : IO (option Profile * option error) :=
  if String.eqb id "" then mret (None, Some ErrNoSuchProfile)
  else
    let endpoint := loadWithPropertiesURL id in
    let h := fun _ : option Profile * option error =>
               (None, Some (parseError endpoint)) in
    '(j, err) ← fetchJSON endpoint;
    mret (match err with
          | None =>
              recovering
                (m ← assertMap j;
                 '(p, err) ← buildProfile m ErrNoSuchProfile;
                 match err with
                 | Some e => Ret (p, Some e)
                 | None =>
                     Ret (recovering
                            (a ← assertSlice (at_key m "properties");
                             '(props, err) ← buildProperties a;
                             match p with
                             | None => Panic
                             | Some pr =>
                                 match err with
                                 | Some e =>
                                     Ret (None, Some (UrlError "Parse" endpoint e))
                                 | None => Ret (Some (setProperties props pr), None)
                                 end
                             end)
                            (p, None) h)
                 end)
                (None, None) h
          | Some e => (None, Some (transformError e))
          end).

(** The first loop of [LoadMany]: [users[c] = u; c++] for every non-empty
    name. *)
Fixpoint LoadMany_collect (username : list string) (users : list string)
    (c : Z) : outcome (list string * Z) :=
  match username with
  | [] => Ret (users, c)
  | u :: username' =>
      if String.eqb u "" then LoadMany_collect username' users c
      else
        users ← slice_update users c (fun _ => u);
        LoadMany_collect username' users (c + 1)
  end.

(** The second loop: [ps] is a slice of pointers. *)
Fixpoint LoadMany_loop (j : list value) (ps : list (option Profile))
  : outcome (option (list (option Profile)) * option error) :=
  match j with
  | [] => Ret (Some ps, None)
  | p :: j' =>
      m ← assertMap p;
      '(pr, err) ← buildProfile m ErrNoSuchProfile;
      match err with
      | Some e =>
          if is_ErrNoSuchProfile e then LoadMany_loop j' ps
          else Ret (None, Some e)
      | None => LoadMany_loop j' (ps ++ [pr])
      end
  end.

(** A panic of the first loop is outside the deferred [recover]: it is the
    outcome of the call. *)
Definition LoadMany (username : list string)
  : IO (outcome (option (list (option Profile)) * option error)) :=
  if LoadManyMaxSize <? Z.of_nat (length username) then
    mret (Ret (None, Some (ErrMaxSizeExceeded (Z.of_nat (length username)))))
  else
    match LoadMany_collect username
            (replicate (Z.to_nat LoadManyMaxSize) "") 0 with
    | Panic => mret Panic
    | Ret (users, c) =>
        if c =? 0 then mret (Ret (None, None))
        else
          '(j, err) ← exchangeJSON loadManyURL (take (Z.to_nat c) users);
          mret (Ret (match err with
                     | None =>
                         recovering
                           (j ← assertSlice j; LoadMany_loop j [])
                           (None, None)
                           (fun _ => (None, Some (parseError loadManyURL)))
                     | Some e => (None, Some (transformError e))
                     end))
    end.

End Package.


(** ** Vocabulary of the statements *)

(** Hexadecimal digits [0-9a-f] and their numeric value. *)
Definition is_decimal (c : Z) : bool :=
  Z.leb (byte_of "0"%char) c && Z.leb c (byte_of "9"%char).

Definition is_letter (c : Z) : bool :=
  Z.leb (byte_of "a"%char) c && Z.leb c (byte_of "f"%char).

Definition is_hex (c : Z) : bool := is_decimal c || is_letter c.

Definition hexval (c : Z) : Z :=
  if is_decimal c then c - byte_of "0"%char
  else c - byte_of "a"%char + 10.

(** A 32-character lowercase hexadecimal identifier. *)
Definition is_hex_id (uuid : string) : bool :=
  Nat.eqb (String.length uuid) 32
  && forallb (fun c => is_hex (byte_of c)) (list_ascii_of_string uuid).

(** The numeric value of the digit at position [i]. *)
Definition nibble (uuid : string) (i : nat) : Z :=
  match String.get i uuid with
  | Some c => hexval (byte_of c)
  | None => 0
  end.

(** The selector as the specification words it: a decimal digit is even
    when its value is even, a letter digit when its value is odd; the
    identifier is read as two halves of 16 digits. *)
Definition spec_even (c : Z) : bool :=
  (is_decimal c && Z.even (hexval c)) || (is_letter c && Z.odd (hexval c)).

Definition spec_evenness_at (half : string) (pos : nat) : bool :=
  match String.get pos half with
  | Some c => spec_even (byte_of c)
  | None => false
  end.

Definition spec_defaultModel (uuid : string) : Model :=
  let half1 := String.substring 0 16 uuid in
  let half2 := String.substring 16 16 uuid in
  let X := xorb (spec_evenness_at half1 7) (spec_evenness_at half2 7) in
  let Y := xorb (spec_evenness_at half1 15) (spec_evenness_at half2 15) in
  if xorb X Y then Alex else Steve.

(** Name-change events: the name of an event, its changed-to instant
    when it carries a numeric one, and the shape [buildHistory] requires
    (an object with a string name; after the first event, a
    ["changedToAt"] that is a number when present). *)
Definition eventName {float64 : Type} (v : json float64) : string :=
  match v with
  | JObj m => match m !! "name" with Some (JStr s) => s | _ => "" end
  | _ => ""
  end.

Definition eventChangedToAt {float64 : Type} (v : json float64)
  : option float64 :=
  match v with
  | JObj m => match m !! "changedToAt" with Some (JNum f) => Some f | _ => None end
  | _ => None
  end.

Definition wf_event {float64 : Type} (first : bool) (v : json float64) : bool :=
  match v with
  | JObj m =>
      match m !! "name" with
      | Some (JStr _) =>
          match m !! "changedToAt" with
          | Some (JNum _) | None => true
          | Some _ => first
          end
      | _ => false
      end
  | _ => false
  end.

Definition wf_events {float64 : Type} (arr : list (json float64)) : bool :=
  match arr with
  | [] => true
  | v :: arr' => wf_event true v && forallb (wf_event false) arr'
  end.

Definition carries_changedToAt {float64 : Type} (v : json float64) : bool :=
  match eventChangedToAt v with Some _ => true | None => false end.

(** The valid-until instant an event hands to its predecessor. *)
Definition untilOf {float64 : Type} (int64_of_float64 : float64 -> Z)
    (v : json float64) : Time :=
  match eventChangedToAt v with
  | Some f => msToTime (int64 int64_of_float64 f)
  | None => Time_zero
  end.

Definition pastNameOf {float64 : Type} (int64_of_float64 : float64 -> Z)
    (n : string) (next : json float64) : PastName :=
  mkPastName n (untilOf int64_of_float64 next).

(** Shapes of a decoded textures document: a well-formed ["CAPE"] entry,
    a well-formed ["metadata"] of a skin, and a skin whose metadata selects
    the slim model. *)
Definition cape_ok {float64 : Type} (ts : gmap string (json float64)) : bool :=
  match ts !! "CAPE" with
  | None => true
  | Some (JObj cape) =>
      match cape !! "url" with Some (JStr _) => true | _ => false end
  | Some _ => false
  end.

Definition skin_meta_ok {float64 : Type} (skin : gmap string (json float64))
  : bool :=
  match skin !! "metadata" with
  | None => true
  | Some (JObj meta) =>
      match meta !! "model" with
      | None | Some (JStr _) => true
      | Some _ => false
      end
  | Some _ => false
  end.

Definition skin_is_slim {float64 : Type} (skin : gmap string (json float64))
  : bool :=
  match skin !! "metadata" with
  | Some (JObj meta) =>
      match meta !! "model" with
      | Some (JStr m) => String.eqb m "slim"
      | _ => false
      end
  | _ => false
  end.

(** The names [LoadMany] sends: the non-empty ones, in order. *)
Definition nonempty_names (username : list string) : list string :=
  List.filter (fun u => negb (String.eqb u "")) username.

(** ** Sample data *)

Definition sample_events : list (json Z) :=
  [JObj {["name" := JStr "A"]};
   JObj (<["changedToAt" := JNum 1500]> {["name" := JStr "B"]});
   JObj (<["changedToAt" := JNum (-2500)]> {["name" := JStr "C"]})].

Definition sample_events_gap : list (json Z) :=
  [JObj {["name" := JStr "A"]};
   JObj {["name" := JStr "B"]};
   JObj (<["changedToAt" := JNum 1500]> {["name" := JStr "C"]})].

Definition sample_id : string := "087cc153c3434ff7ac497de1569affa1".

Definition sample_profile_doc : gmap string (json Z) :=
  <["id" := JStr sample_id]> {["name" := JStr "Nergalic"]}.

Definition sample_demo_doc : gmap string (json Z) :=
  <["demo" := JBool true]> sample_profile_doc.

Definition sample_blank_doc : gmap string (json Z) :=
  <["id" := JStr ""]> {["name" := JStr ""]}.

Definition sample_slim_textures : gmap string (json Z) :=
  <["profileId" := JStr sample_id]>
  {["textures" :=
      JObj {["SKIN" :=
               JObj (<["url" := JStr "http://textures.minecraft.net/texture/5b40"]>
                     {["metadata" := JObj {["model" := JStr "slim"]}]})]}]}.

Definition sample_cape_textures : gmap string (json Z) :=
  <["profileId" := JStr sample_id]>
  {["textures" :=
      JObj {["CAPE" :=
               JObj {["url" := JStr "http://textures.minecraft.net/texture/cape"]}]}]}.

Definition sample_base64 (enc : string) : list Byte.byte * option error :=
  ([], None).

Definition sample_endpoint (prefix : string) (arg : string) : string :=
  String.append prefix arg.

Definition sample_transport_failure : error :=
  UrlError "Get" "https://api.mojang.com/users/profiles/minecraft/x"
    (FailedRequest (mkFailedRequest 204 "TooManyRequestsException" "")).

Definition sample_rate_limited : error :=
  UrlError "Get" "https://api.mojang.com/users/profiles/minecraft/x"
    (FailedRequest (mkFailedRequest 429 "TooManyRequestsException" "")).

Definition sample_loadURL : string -> string :=
  sample_endpoint "https://api.mojang.com/users/profiles/minecraft/".

Definition sample_historyURL : string -> string :=
  sample_endpoint "https://api.mojang.com/user/profiles/names/".

Definition sample_propertiesURL : string -> string :=
  sample_endpoint "https://sessionserver.mojang.com/session/minecraft/profile/".

Definition sample_loadAtTimeURL (username : string) (unix : Z) : string :=
  sample_loadURL username.

Definition sample_loadManyURL : string :=
  "https://api.mojang.com/profiles/minecraft".

(** A transport that answers every request with the same document. *)
Definition sample_fetch (doc : json Z) (endpoint : string)
  : json Z * option error := (doc, None).

Definition sample_exchange (doc : json Z) (endpoint : string)
    (payload : list string) : json Z * option error := (doc, None).

Definition sample_json_Decode (bs : list Byte.byte)
  : gmap string (json Z) * option error := (sample_cape_textures, None).

(** ** Further vocabulary *)

(** A flag of a profile document that [buildProfile] can read: absent or a
    boolean; and its value. *)
Definition flag_ok {float64 : Type} (m : gmap string (json float64))
    (k : string) : bool :=
  match m !! k with
  | None | Some (JBool _) => true
  | Some _ => false
  end.

Definition flag_value {float64 : Type} (m : gmap string (json float64))
    (k : string) : bool :=
  match m !! k with
  | Some (JBool b) => b
  | _ => false
  end.

Definition string_ok {float64 : Type} (m : gmap string (json float64))
    (k : string) : bool :=
  match m !! k with Some (JStr _) => true | _ => false end.

Definition string_value {float64 : Type} (m : gmap string (json float64))
    (k : string) : string :=
  match m !! k with Some (JStr s) => s | _ => "" end.

(** The profile documents [buildProfile] accepts: a readable ["demo"] flag
    and, unless it is true, string ["id"] and ["name"] and a readable
    ["legacy"] flag. *)
Definition profile_doc_ok {float64 : Type} (m : gmap string (json float64))
  : bool :=
  flag_ok m "demo"
  && (flag_value m "demo"
      || (string_ok m "id" && string_ok m "name" && flag_ok m "legacy")).

(** The identifiers [defaultModel] accepts: a digit [0-9a-f] at each of
    the four positions it reads. *)
Definition inspectable (uuid : string) : bool :=
  forallb (fun i => match String.get i uuid with
                    | Some c => is_hex (byte_of c)
                    | None => false
                    end)
          [7; 23; 15; 31]%nat.

(** Java's [UUID.hashCode()], which the comment on [defaultModel] names as
    the function it compacts: the two halves of the identifier are the
    [long]s [mostSigBits] and [leastSigBits];
    [hilo = mostSigBits ^ leastSigBits] and the hash is
    [((int)(hilo >> 32)) ^ (int) hilo]. *)
Definition wrap32 (z : Z) : Z := (z + 2 ^ 31) mod 2 ^ 32 - 2 ^ 31.

Definition hex_digits (s : string) : list Z :=
  map (fun c => hexval (byte_of c)) (list_ascii_of_string s).

Definition parse_hex (s : string) : Z :=
  fold_left (fun acc d => acc * 16 + d) (hex_digits s) 0.

Definition java_long_of_hex (s : string) : Z := wrap64 (parse_hex s).

Definition java_UUID_hashCode (uuid : string) : Z :=
  let mostSigBits := java_long_of_hex (String.substring 0 16 uuid) in
  let leastSigBits := java_long_of_hex (String.substring 16 16 uuid) in
  let hilo := Z.lxor mostSigBits leastSigBits in
  wrap32 (Z.lxor (wrap32 (Z.shiftr hilo 32)) (wrap32 hilo)).

(** The history [buildHistory] reconstructs from well-formed events: nil
    for no events, otherwise one entry per event but the last, latest
    first. *)
Definition expected_history {float64 : Type}
    (int64_of_float64 : float64 -> Z) (arr : list (json float64))
  : option (list PastName) :=
  match arr with
  | [] => None
  | _ :: _ =>
      Some (rev (zip_with
                   (fun a b => pastNameOf int64_of_float64 (eventName a) b)
                   arr (tail arr)))
  end.

(** The profile [buildProfile] assembles from an accepted document that is
    not a demo account. *)
Definition expected_profile {float64 : Type} (m : gmap string (json float64))
  : Profile :=
  mkProfile (string_value m "id") (string_value m "name")
    (if flag_value m "legacy" then Some emptyHist else None) None.

(** Entries of a ["properties"] array: a well-formed entry under a name
    other than ["textures"], and the name and value of an entry. *)
Definition other_property {float64 : Type} (p : json float64) : bool :=
  match p with
  | JObj prop =>
      match prop !! "name", prop !! "value" with
      | Some (JStr n), Some (JStr _) => negb (String.eqb n "textures")
      | _, _ => false
      end
  | _ => false
  end.

Definition textures_entry {float64 : Type} (enc : string) (p : json float64)
  : Prop :=
  exists prop, p = JObj prop /\
    prop !! "name" = Some (JStr "textures") /\
    prop !! "value" = Some (JStr enc).

(** The cape URL after decoding: the ["CAPE"] entry's, or the one held
    before. *)
Definition cape_url {float64 : Type} (ts : gmap string (json float64))
    (before : string) : string :=
  match ts !! "CAPE" with
  | Some (JObj cape) => string_value cape "url"
  | _ => before
  end.

(** Entries of a batch response: the accepted profile documents, and the
    profiles of those that are not demo accounts, in order. *)
Definition batch_doc_ok {float64 : Type} (d : json float64) : bool :=
  match d with
  | JObj m => profile_doc_ok m
  | _ => false
  end.

Fixpoint batch_profiles {float64 : Type} (docs : list (json float64))
  : list (option Profile) :=
  match docs with
  | [] => []
  | JObj m :: docs' =>
      if flag_value m "demo" then batch_profiles docs'
      else Some (expected_profile m) :: batch_profiles docs'
  | _ :: docs' => batch_profiles docs'
  end.

(** ** Further sample data *)

Definition sample_failing_fetch (endpoint : string) : json Z * option error :=
  (JObj sample_profile_doc, Some sample_rate_limited).

Definition sample_failing_exchange (endpoint : string) (payload : list string)
  : json Z * option error :=
  (JArr [], Some sample_rate_limited).

Definition sample_failing_base64 (enc : string)
  : list Byte.byte * option error :=
  ([], Some (OtherError "illegal base64 data at input byte 0")).

Definition sample_other_entry : json Z :=
  JObj (<["name" := JStr "uploadableTextures"]> {["value" := JStr "skin"]}).

Definition sample_textures_entry : json Z :=
  JObj (<["name" := JStr "textures"]> {["value" := JStr "e30="]}).

Definition sample_legacy_doc : gmap string (json Z) :=
  <["legacy" := JBool true]>
  (<["properties" := JArr [sample_other_entry; sample_textures_entry]]>
   sample_profile_doc).

Definition sample_skin_cape_textures : gmap string (json Z) :=
  {["textures" :=
      JObj (<["SKIN" := JObj {["url" := JStr "http://textures.minecraft.net/texture/5b40"]}]>
            {["CAPE" := JObj {["url" := JStr "http://textures.minecraft.net/texture/cape"]}]})]}.

(** * Package [versions]: the listing of Minecraft versions

    [versions.go]: [Load], [Listing.LatestRelease], [Type.String],
    [fetchJSON], [initialize], [buildVersion], [parseTime] and [uerr].
    The package has its own errors. *)

Module versions.

Inductive error : Type :=
| errUnknownFormat
| errHttpStatus (code : Z)
| UrlError (Op URL : string) (Err : error)
| OtherError (msg : string).

(** [Type] is a string type; the four known values. *)
Definition Release : string := "release".
Definition Snapshot : string := "snapshot".
Definition Alpha : string := "old_alpha".
Definition Beta : string := "old_beta".

Definition Type_String (t : string) : string :=
  if String.eqb t Release then "release"
  else if String.eqb t Snapshot then "snapshot"
  else if String.eqb t Alpha then "alpha"
  else if String.eqb t Beta then "beta"
  else if String.eqb t "" then "???"
  else t.

Record Version : Type := mkVersion {
  Version_ID : string;
  Released : Time;
  Version_Type : string
}.

Definition Version_zero : Version := mkVersion "" Time_zero "".

(** [Versions] is a Go map: [None] when nil. *)
Record Listing : Type := mkListing {
  Versions : option (gmap string Version);
  Latest_Snapshot : string;
  Latest_Release : string
}.

Definition Listing_zero : Listing := mkListing None "" "".

(** [l.Versions[k]] with the comma-ok form: reading a nil map finds
    nothing. *)
Definition Versions_get (l : Listing) (k : string) : option Version :=
  match Versions l with
  | Some vm => vm !! k
  | None => None
  end.

Definition LatestRelease (l : Listing) : outcome Version :=
  match Versions_get l (Latest_Release l) with
  | Some v => Ret v
  | None => Panic
  end.

(** An HTTP response, as far as [fetchJSON] reads it. *)
Record response : Type := mkResponse {
  StatusCode : Z;
  Body : list Byte.byte
}.

Section Package.

Context {float64 : Type}.

Abbreviation value := (json float64).
Abbreviation object := (gmap string (json float64)).

(** The URL of the listing, [time.Parse], the HTTP client and the JSON
    decoder. *)
Variable versionsURL : string.
Variable time_Parse : string -> string -> Time * option error.
Variable client_Do : string -> response + error.
Variable json_Decode : list Byte.byte -> object * option error.

Definition uerr (op : string) (err : error) : error :=
  UrlError op versionsURL err.

Definition timeFormat : string := "2006-01-02T15:04:05-07:00".

(** The error of [time.Parse] is dropped. *)
Definition parseTime (t : string) : Time := fst (time_Parse timeFormat t).

(** [v] is the struct behind the pointer; the fields are written one by
    one, each after its type assertion. *)
Definition buildVersion (m : object) (v : Version) : outcome Version :=
  id ← assertString (at_key m "id");
  let v := mkVersion id (Released v) (Version_Type v) in
  t ← assertString (at_key m "releaseTime");
  let v := mkVersion (Version_ID v) (parseTime t) (Version_Type v) in
  ty ← assertString (at_key m "type");
  Ret (mkVersion (Version_ID v) (Released v) ty).

(** [vm[vers.ID] = vers] on the map that [l.Versions] refers to. *)
Definition store (vers : Version) (l : Listing) : Listing :=
  mkListing
    (match Versions l with
     | Some vm => Some (<[Version_ID vers := vers]> vm)
     | None => None
     end)
    (Latest_Snapshot l) (Latest_Release l).

(** The loop of [initialize]; a panic leaves the listing as filled so far
    and the deferred function sets the error. *)
Fixpoint initialize_loop (vs : list value) (l : Listing)
  : Listing * option error :=
  match vs with
  | [] => (l, None)
  | v :: vs' =>
      match (m ← assertMap v; buildVersion m Version_zero) with
      | Panic => (l, Some (uerr "Parse" errUnknownFormat))
      | Ret vers =>
          match Versions l with
          | Some _ => initialize_loop vs' (store vers l)
          | None => (l, Some (uerr "Parse" errUnknownFormat))
          end
      end
  end.

(** [l] is the listing behind the pointer before the call; the result is
    the listing after it and the returned error. *)
Definition initialize (l : Listing) (m : object) : Listing * option error :=
  let failed l := (l, Some (uerr "Parse" errUnknownFormat)) in
  let l := mkListing (Some ∅) (Latest_Snapshot l) (Latest_Release l) in
  match assertMap (at_key m "latest") with
  | Panic => failed l
  | Ret latest =>
      match assertString (at_key latest "snapshot") with
      | Panic => failed l
      | Ret s =>
          let l := mkListing (Versions l) s (Latest_Release l) in
          match assertString (at_key latest "release") with
          | Panic => failed l
          | Ret r =>
              let l := mkListing (Versions l) (Latest_Snapshot l) r in
              match assertSlice (at_key m "versions") with
              | Panic => failed l
              | Ret vs => initialize_loop vs l
              end
          end
      end
  end.

(** A nil map is the empty object for every read. *)
Definition fetchJSON : option object * option error :=
  match client_Do versionsURL with
  | inr err => (None, Some err)
  | inl resp =>
      if negb (StatusCode resp =? 200) then
        (None, Some (uerr "Get" (errHttpStatus (StatusCode resp))))
      else
        let '(j, err) := json_Decode (Body resp) in
        match err with
        | Some e => (None, Some (uerr "Parse" e))
        | None => (Some j, None)
        end
  end.

Definition Load : Listing * option error :=
  let '(m, err) := fetchJSON in
  match err with
  | None =>
      let '(l, err) := initialize Listing_zero (default ∅ m) in
      match err with
      | Some e => (Listing_zero, Some e)
      | None => (l, None)
      end
  | Some e => (Listing_zero, Some e)
  end.

(** Vocabulary: the entries [buildVersion] accepts, the version it makes
    of one, and the map the loop of [initialize] builds from a list of
    them (a later entry replaces an earlier one with the same id). *)
Definition version_entry_ok (v : value) : bool :=
  match v with
  | JObj m => string_ok m "id" && string_ok m "releaseTime" && string_ok m "type"
  | _ => false
  end.

Definition version_of (m : object) : Version :=
  mkVersion (string_value m "id") (parseTime (string_value m "releaseTime"))
    (string_value m "type").

Definition store_entry (vm : gmap string Version) (v : value)
  : gmap string Version :=
  match v with
  | JObj m => <[string_value m "id" := version_of m]> vm
  | _ => vm
  end.

Definition versions_map (vs : list value) : gmap string Version :=
  fold_left store_entry vs ∅.

(** The listing documents [initialize] accepts. *)
Definition listing_doc_ok (m : object) : bool :=
  match m !! "latest", m !! "versions" with
  | Some (JObj latest), Some (JArr vs) =>
      string_ok latest "snapshot" && string_ok latest "release"
      && forallb version_entry_ok vs
  | _, _ => false
  end.

Definition listing_of (m : object) : Listing :=
  match m !! "latest", m !! "versions" with
  | Some (JObj latest), Some (JArr vs) =>
      mkListing (Some (versions_map vs)) (string_value latest "snapshot")
        (string_value latest "release")
  | _, _ => Listing_zero
  end.

End Package.

End versions.

(** * Package [profile]: errors of the first generation

    [getJsonError] of [errors.go]: a Mojang error is a JSON object with
    ["error"] and ["errorMessage"] fields. *)

Module errors.

Inductive error : Type :=
| errTooManyRequests
| errors_New (msg : string).

Definition getJsonError {float64 : Type} (j : json float64)
  : outcome (option error) :=
  match j with
  | JObj m =>
      match m !! "error" with
      | Some e =>
          code ← assertString e;
          if String.eqb code "TooManyRequestsException" then
            Ret (Some errTooManyRequests)
          else
            msg ← assertString (at_key m "errorMessage");
            Ret (Some (errors_New
                         (String.append "Mojang API error: "
                            (String.append code
                               (String.append "; message: " msg)))))
      | None => Ret None
      end
  | _ => Ret None
  end.

End errors.

Definition sample_version (id type : string) : json Z :=
  JObj (<["id" := JStr id]>
        (<["releaseTime" := JStr "2017-08-01T13:00:00+00:00"]>
         {["type" := JStr type]})).

Definition sample_listing_doc : gmap string (json Z) :=
  <["latest" := JObj (<["snapshot" := JStr "17w31a"]>
                      {["release" := JStr "1.12.1"]})]>
  {["versions" := JArr [sample_version "17w31a" "snapshot";
                        sample_version "1.12.1" "old_beta";
                        sample_version "1.12.1" "release"]]}.

Definition sample_time_Parse (layout t : string)
  : Time * option versions.error := (mkTime 1501592400 0, None).

(** * Properties *)

(** ** Worked examples *)

Example buildHistory_ex :
  buildHistory (fun z : Z => z) sample_events
  = Ret ("C", Some [mkPastName "B" (mkTime (-3) 500000000);
                    mkPastName "A" (mkTime 1 500000000)]).
Proof. vm_compute. reflexivity. Qed.

Example defaultModel_ex1 : defaultModel "087cc153c3434ff7ac497de1569affa1" = Ret Steve.
Proof. reflexivity. Qed.

Example populateTextures_slim_ex :
  populateTextures sample_base64 (fun _ => (sample_slim_textures, None))
    "e30=" (mkProperties "" "" Steve)
  = Ret (mkProperties "http://textures.minecraft.net/texture/5b40" "" Alex,
         None).
Proof. vm_compute. reflexivity. Qed.

Example transformError_ex :
  transformError unwrapFailedRequest (OtherError "context canceled")
  = OtherError "context canceled".
Proof. reflexivity. Qed.

(** ** The default model selector *)

Lemma get_lt (s : string) (i : nat) :
  (i < String.length s)%nat -> exists c, String.get i s = Some c.
Proof.
  revert i. induction s as [|a s IH]; intros i Hi; simpl in *; [lia|].
  destruct i as [|i]; [eauto|]. apply IH. lia.
Qed.

Lemma get_forallb (P : ascii -> bool) (s : string) (i : nat) (c : ascii) :
  forallb P (list_ascii_of_string s) = true ->
  String.get i s = Some c -> P c = true.
Proof.
  revert i. induction s as [|a s IH]; intros i Hall Hget; simpl in *;
    [discriminate|].
  apply andb_prop in Hall as [Ha Hs].
  destruct i as [|i]; [congruence|]. eauto.
Qed.

Lemma land_1 (c : Z) : Z.land c 1 = Z.b2z (Z.odd c).
Proof.
  change 1 with (Z.ones 1). rewrite Z.land_ones by lia.
  change (2 ^ 1) with 2. rewrite <- Z.bit0_mod, Z.bit0_odd. reflexivity.
Qed.

Lemma land_1_even (c : Z) : Z.eqb (Z.land c 1) 0 = Z.even c.
Proof.
  rewrite land_1, <- Z.negb_odd. destruct (Z.odd c); reflexivity.
Qed.

Lemma land_1_odd (c : Z) : Z.eqb (Z.land c 1) 1 = Z.odd c.
Proof. rewrite land_1. destruct (Z.odd c); reflexivity. Qed.

Lemma isEven_hex (c : Z) :
  is_hex c = true -> isEven c = Ret (Z.even (hexval c)).
Proof.
  unfold is_hex, isEven, hexval, is_decimal, is_letter. intros H.
  destruct (Z.leb (byte_of "0") c && Z.leb c (byte_of "9")) eqn:Hd.
  - rewrite land_1_even. f_equal.
    rewrite Z.even_sub. change (Z.even (byte_of "0")) with true.
    destruct (Z.even c); reflexivity.
  - simpl in H. rewrite H. rewrite land_1_odd. f_equal.
    rewrite Z.even_add, Z.even_sub.
    change (Z.even (byte_of "a")) with false. change (Z.even 10) with true.
    rewrite <- Z.negb_even. destruct (Z.even c); reflexivity.
Qed.

Lemma index_get (uuid : string) (i : nat) (c : ascii) :
  String.get i uuid = Some c -> index uuid i = Ret (byte_of c).
Proof. unfold index. intros ->. reflexivity. Qed.

(** The code's selector on an identifier whose four inspected positions
    hold hexadecimal digits. *)
Lemma defaultModel_at (uuid : string) (c7 c15 c23 c31 : ascii) :
  String.get 7 uuid = Some c7 -> String.get 15 uuid = Some c15 ->
  String.get 23 uuid = Some c23 -> String.get 31 uuid = Some c31 ->
  is_hex (byte_of c7) = true -> is_hex (byte_of c15) = true ->
  is_hex (byte_of c23) = true -> is_hex (byte_of c31) = true ->
  defaultModel uuid =
  Ret (if xorb (xorb (Z.even (hexval (byte_of c7)))
                     (Z.even (hexval (byte_of c23))))
               (xorb (Z.even (hexval (byte_of c15)))
                     (Z.even (hexval (byte_of c31))))
       then Alex else Steve).
Proof.
  intros G7 G15 G23 G31 H7 H15 H23 H31. unfold defaultModel.
  change (16 + 7)%nat with 23%nat. change (16 + 15)%nat with 31%nat.
  rewrite (index_get _ _ _ G7), (index_get _ _ _ G15),
    (index_get _ _ _ G23), (index_get _ _ _ G31).
  cbn [mbind outcome_bind].
  rewrite (isEven_hex _ H7). cbn [mbind outcome_bind].
  rewrite (isEven_hex _ H23). cbn [mbind outcome_bind].
  rewrite (isEven_hex _ H15). cbn [mbind outcome_bind].
  rewrite (isEven_hex _ H31). cbn [mbind outcome_bind].
  destruct (xorb _ _); reflexivity.
Qed.

Lemma isEven_code (c : Z) :
  (is_decimal c = true -> isEven c = Ret (Z.even c)) /\
  (is_letter c = true -> isEven c = Ret (Z.odd c)).
Proof.
  unfold isEven, is_decimal, is_letter. split; intros H.
  - rewrite H, land_1_even. reflexivity.
  - destruct (Z.leb (byte_of "0") c && Z.leb c (byte_of "9")) eqn:Hd.
    + apply andb_prop in Hd as [_ Hd]. apply andb_prop in H as [H _].
      apply Z.leb_le in Hd, H.
      change (byte_of "9") with 57 in Hd. change (byte_of "a") with 97 in H.
      lia.
    + rewrite H, land_1_odd. reflexivity.
Qed.

(** C3 (as amended): on a 32-character lowercase hexadecimal identifier,
    [isEven] classifies every hexadecimal digit, decimal or letter, as even
    exactly when its numeric value is even (it tests the character code:
    even for a decimal digit, odd for a letter), and [defaultModel] returns
    Alex when [X != Y] and Steve otherwise, where [X] compares the
    evenness of the digits at indices 7 and 23 and [Y] that of the digits
    at indices 15 and 31.  Being a function, the selector is
    deterministic. *)
Theorem defaultModel_nibble_parity (uuid : string) :
  is_hex_id uuid = true ->
  (forall c, is_hex c = true -> isEven c = Ret (Z.even (hexval c))) /\
  (forall c, is_decimal c = true -> isEven c = Ret (Z.even c)) /\
  (forall c, is_letter c = true -> isEven c = Ret (Z.odd c)) /\
  defaultModel uuid =
  Ret (if xorb (xorb (Z.even (nibble uuid 7)) (Z.even (nibble uuid 23)))
               (xorb (Z.even (nibble uuid 15)) (Z.even (nibble uuid 31)))
       then Alex else Steve).
Proof.
  intros Hid. split; [exact isEven_hex|].
  split; [intros c; apply isEven_code|].
  split; [intros c; apply isEven_code|].
  unfold is_hex_id in Hid. apply andb_prop in Hid as [Hlen Hall].
  apply Nat.eqb_eq in Hlen.
  destruct (get_lt uuid 7) as [c7 G7]; [lia|].
  destruct (get_lt uuid 15) as [c15 G15]; [lia|].
  destruct (get_lt uuid 23) as [c23 G23]; [lia|].
  destruct (get_lt uuid 31) as [c31 G31]; [lia|].
  unfold nibble. rewrite G7, G15, G23, G31.
  apply defaultModel_at; try assumption;
    eapply (get_forallb (fun c => is_hex (byte_of c))); eassumption.
Qed.

Lemma defaultModel_nibble_parity_witness :
  is_hex_id "087cc153c3434ff7ac497de1569affa1" = true /\
  defaultModel "087cc153c3434ff7ac497de1569affa1" = Ret Steve.
Proof.
  split; [reflexivity|].
  exact (proj2 (proj2 (proj2 (defaultModel_nibble_parity
                  "087cc153c3434ff7ac497de1569affa1" eq_refl)))).
Defined.

(** C3 as worded fails: the letter digit [a] has the even value 10 and
    [isEven] classifies it as even, where the wording (letters are even
    when their value is odd) makes it odd; the two selectors then differ
    on an identifier with a single letter at an inspected position. *)
Lemma defaultModel_letter_counterexample :
  isEven (byte_of "a"%char) = Ret true /\
  spec_even (byte_of "a"%char) = false /\
  is_hex_id "0000000a000000000000000000000000" = true /\
  defaultModel "0000000a000000000000000000000000" = Ret Steve /\
  spec_defaultModel "0000000a000000000000000000000000" = Alex.
Proof. repeat split; reflexivity. Qed.

(** C10: the selector reads the identifier at indices 7, 15, 23 and 31
    only: two identifiers of length at least 32 that agree there, with
    hexadecimal digits at those positions, get the same model. *)
Theorem defaultModel_four_positions (u1 u2 : string) :
  (32 <= String.length u1)%nat -> (32 <= String.length u2)%nat ->
  (forall i, In i [7; 15; 23; 31]%nat ->
     String.get i u1 = String.get i u2 /\
     forall c, String.get i u1 = Some c -> is_hex (byte_of c) = true) ->
  exists m, defaultModel u1 = Ret m /\ defaultModel u2 = Ret m.
Proof.
  intros L1 L2 H.
  destruct (get_lt u1 7) as [c7 G7]; [lia|].
  destruct (get_lt u1 15) as [c15 G15]; [lia|].
  destruct (get_lt u1 23) as [c23 G23]; [lia|].
  destruct (get_lt u1 31) as [c31 G31]; [lia|].
  destruct (H 7%nat) as [E7 X7]; [simpl; tauto|].
  destruct (H 15%nat) as [E15 X15]; [simpl; tauto|].
  destruct (H 23%nat) as [E23 X23]; [simpl; tauto|].
  destruct (H 31%nat) as [E31 X31]; [simpl; tauto|].
  eexists. split.
  - apply (defaultModel_at u1 c7 c15 c23 c31); auto.
  - apply (defaultModel_at u2 c7 c15 c23 c31); try congruence; auto.
Qed.

Lemma defaultModel_four_positions_witness :
  exists m,
    defaultModel "0000000a0000000b0000000c0000000d" = Ret m /\
    defaultModel "zzzzzzzaZZZZZZZb-------c_______dtail" = Ret m.
Proof.
  apply defaultModel_four_positions.
  - simpl. lia.
  - simpl. lia.
  - intros i Hi. simpl in Hi.
    destruct Hi as [<-|[<-|[<-|[<-|[]]]]]; (split; [reflexivity|]);
      intros c Hc; injection Hc as <-; reflexivity.
Defined.

(** ** Instants *)

Lemma wrap64_id (z : Z) : - 2 ^ 63 <= z < 2 ^ 63 -> wrap64 z = z.
Proof.
  intros H. unfold wrap64. rewrite Z.mod_small; lia.
Qed.

Lemma wrap64_range (z : Z) : - 2 ^ 63 <= wrap64 z < 2 ^ 63.
Proof.
  unfold wrap64. pose proof (Z.mod_pos_bound (z + 2 ^ 63) (2 ^ 64)). lia.
Qed.

(** [msToTime] denotes the instant [ms] milliseconds after the epoch. *)
Lemma UnixMilli_msToTime (ms : Z) :
  - 2 ^ 63 <= ms < 2 ^ 63 -> UnixMilli (msToTime ms) = ms.
Proof.
  intros Hms. unfold msToTime.
  pose proof (Z.quot_rem' ms 1000) as Hqr.
  assert (Hr : -1000 < Z.rem ms 1000 < 1000 /\ (0 <= ms -> 0 <= Z.rem ms 1000)
               /\ (ms <= 0 -> Z.rem ms 1000 <= 0)).
  { destruct (Z.le_ge_cases 0 ms) as [Hp|Hn].
    - pose proof (Z.rem_bound_pos ms 1000 Hp ltac:(lia)). lia.
    - pose proof (Z.rem_bound_pos_neg ms 1000 ltac:(lia) Hn). lia. }
  set (q := Z.quot ms 1000) in *. set (r := Z.rem ms 1000) in *.
  clearbody q r.
  rewrite (wrap64_id (q * 1000)) by lia.
  replace (ms - q * 1000) with r by lia.
  rewrite (wrap64_id r) by lia.
  rewrite (wrap64_id (r * 1000000)) by lia.
  unfold time_Unix, UnixMilli.
  destruct (Z.ltb_spec (r * 1000000) 0) as [Hneg|Hpos]; cbn [orb].
  - assert (Hn : Z.quot (r * 1000000) 1000000000 = 0).
    { pose proof (Z.quot_rem' (r * 1000000) 1000000000) as Hqr'.
      pose proof (Z.rem_bound_pos_neg (r * 1000000) 1000000000
                    ltac:(lia) ltac:(lia)). lia. }
    rewrite Hn. change (0 * 1000000000) with 0.
    rewrite (wrap64_id 0) by lia.
    rewrite Z.add_0_r, Z.sub_0_r.
    rewrite (wrap64_id q) by lia.
    rewrite (wrap64_id (r * 1000000)) by lia.
    destruct (Z.ltb_spec (r * 1000000) 0) as [_|Hc]; [|lia].
    cbn [unixSec nanos].
    rewrite (wrap64_id (q - 1)) by lia.
    rewrite (wrap64_id (r * 1000000 + 1000000000)) by lia.
    replace (r * 1000000 + 1000000000) with ((r + 1000) * 1000000) by lia.
    rewrite Z.div_mul by lia. lia.
  - destruct (Z.leb_spec 1000000000 (r * 1000000)) as [Hc|_]; [lia|].
    cbn [unixSec nanos]. rewrite Z.div_mul by lia. lia.
Qed.

(** ** Name-history reconstruction *)

Lemma slice_update_middle {A : Type} (l1 l2 : list A) (x : A) (f : A -> A)
    (i : Z) :
  i = Z.of_nat (length l1) ->
  slice_update (l1 ++ x :: l2) i f = Ret (l1 ++ f x :: l2).
Proof.
  intros ->. unfold slice_update.
  rewrite length_app, length_cons, Nat2Z.id.
  destruct (Z.leb_spec 0 (Z.of_nat (length l1))) as [_|?]; [|lia].
  destruct (Z.ltb_spec (Z.of_nat (length l1))
              (Z.of_nat (length l1 + S (length l2)))) as [_|?]; [|lia].
  cbn [andb]. rewrite list_lookup_middle by reflexivity.
  f_equal. replace (length l1) with (length l1 + 0)%nat at 1 by lia.
  rewrite insert_app_r. reflexivity.
Qed.

Lemma replicate_snoc {A : Type} (k : nat) (x : A) :
  replicate (S k) x = replicate k x ++ [x].
Proof.
  induction k as [|k IH]; [reflexivity|].
  change (replicate (S (S k)) x) with (x :: replicate (S k) x).
  rewrite IH at 1. reflexivity.
Qed.

Section History.

Context {float64 : Type}.
Variable int64_of_float64 : float64 -> Z.

Abbreviation value := (json float64).

(** One step of the loop on a well-formed later event writes the pending
    entry's valid-until instant. *)
Lemma later_event_inv (v : value) :
  wf_event false v = true ->
  exists m, v = JObj m /\ at_key m "name" = JStr (eventName v) /\
    (m !! "changedToAt" = None \/
     exists f, m !! "changedToAt" = Some (JNum f)).
Proof.
  destruct v as [| | | | |m]; simpl; try discriminate.
  intros H. exists m. split; [reflexivity|]. unfold at_key.
  destruct (m !! "name") as [[| | |s| |]|]; try discriminate.
  split; [reflexivity|].
  destruct (m !! "changedToAt") as [[| |f| | |]|]; try discriminate; eauto.
Qed.

(** The state of the loop before a later event: [k] entries still
    untouched, then the pending entry (name set, instant not yet), then the
    finished entries. *)
Lemma buildHistory_loop_spec (rest : list value) :
  forall (pn : string) (done : list PastName) (i : Z) (name0 : string),
  rest <> [] ->
  forallb (wf_event false) rest = true ->
  i = 1 + Z.of_nat (length done) ->
  buildHistory_loop int64_of_float64 rest i (Z.of_nat (length rest) - 2) name0
    (replicate (length rest - 1) PastName_zero
       ++ mkPastName pn Time_zero :: done)
  = Ret (eventName (List.last rest JNull),
         rev (zip_with (pastNameOf int64_of_float64)
                (pn :: map eventName rest) rest) ++ done).
Proof.
  induction rest as [|v rest IH]; intros pn done i name0 Hne Hwf Hi;
    [contradiction|].
  cbn [forallb] in Hwf. apply andb_prop in Hwf as [Hv Hrest].
  destruct (later_event_inv v Hv) as (m & Hm & Hname & Hc).
  assert (Hassert : assertMap v = Ret m) by (rewrite Hm; reflexivity).
  assert (Hat : eventChangedToAt v =
                match m !! "changedToAt" with
                | Some (JNum f) => Some f
                | _ => None
                end) by (rewrite Hm; reflexivity).
    set (p' := pastNameOf int64_of_float64 pn v).
  assert (Hstep :
    match m !! "changedToAt" with
    | Some c =>
        if 0 <? i then
          f ← assertFloat64 c;
          slice_update
            (replicate (length (v :: rest) - 1) PastName_zero
               ++ mkPastName pn Time_zero :: done)
            (Z.of_nat (length (v :: rest)) - 2 + 1)
            (setUntil (msToTime (int64 int64_of_float64 f)))
        else Ret (replicate (length (v :: rest) - 1) PastName_zero
                    ++ mkPastName pn Time_zero :: done)
    | None => Ret (replicate (length (v :: rest) - 1) PastName_zero
                     ++ mkPastName pn Time_zero :: done)
    end = Ret (replicate (length rest) PastName_zero ++ p' :: done)).
  { cbn [length]. replace (S (length rest) - 1)%nat with (length rest) by lia.
    subst p'. unfold pastNameOf, untilOf. rewrite Hat.
    destruct Hc as [Hc|[f Hc]]; rewrite Hc; [reflexivity|].
    destruct (Z.ltb_spec 0 i) as [_|?]; [|lia].
    cbn [assertFloat64 mbind outcome_bind].
    rewrite slice_update_middle; [reflexivity|].
    rewrite length_replicate. lia. }
  cbn [buildHistory_loop]. rewrite Hassert.
  cbn [mbind outcome_bind].
  rewrite Hstep. cbn [mbind outcome_bind].
  rewrite Hname. cbn [assertString mbind outcome_bind].
  rewrite length_app, length_replicate, length_cons.
  destruct rest as [|v' rest].
  - cbn [length Nat.add].
    destruct (Z.eqb_spec i (Z.of_nat (S (length done)))) as [_|?]; [|lia].
    reflexivity.
  - destruct (Z.eqb_spec i
               (Z.of_nat (length (v' :: rest) + S (length done))))
      as [Heq|_]; [cbn [length] in Heq; lia|].
    remember (v' :: rest) as rest' eqn:Hrest'.
    assert (Hlen : length rest' = S (length rest))
      by (subst rest'; reflexivity).
    rewrite Hlen at 1. rewrite replicate_snoc, <- app_assoc.
    cbn [app]. rewrite slice_update_middle
      by (rewrite length_replicate; cbn [length]; lia).
    cbn [mbind outcome_bind].
    change (setName (eventName v) PastName_zero)
      with (mkPastName (eventName v) Time_zero).
    replace (replicate (length rest) PastName_zero)
      with (replicate (length rest' - 1) PastName_zero)
      by (f_equal; lia).
    replace (Z.of_nat (length (v :: rest')) - 2 - 1)
      with (Z.of_nat (length rest') - 2) by (cbn [length]; lia).
    rewrite (IH (eventName v) (p' :: done) (i + 1) name0);
      [| subst rest'; discriminate | exact Hrest | cbn [length]; lia].
    f_equal. f_equal.
    + subst rest'. reflexivity.
    + cbn [map zip_with rev]. rewrite <- app_assoc. reflexivity.
Qed.

Lemma first_event_inv (v : value) :
  wf_event true v = true ->
  exists m, v = JObj m /\ at_key m "name" = JStr (eventName v).
Proof.
  destruct v as [| | | | |m]; simpl; try discriminate.
  intros H. exists m. split; [reflexivity|]. unfold at_key.
  destruct (m !! "name") as [[| | |s| |]|]; try discriminate. reflexivity.
Qed.

(** At the first event ([i = 0]) a ["changedToAt"] is not even
    inspected. *)
Lemma first_event_step {A : Type} (o : option value)
    (x : value -> outcome A) (y : outcome A) :
  match o with
  | Some c => if 0 <? 0 then x c else y
  | None => y
  end = y.
Proof. destruct o; reflexivity. Qed.

(** The whole reconstruction, in closed form: entry for event [a] followed
    by event [b] is [a]'s name with the instant [b] carries, and the
    entries come in reverse order of the events. *)
Lemma buildHistory_spec (arr : list value) :
  arr <> [] -> wf_events arr = true ->
  buildHistory int64_of_float64 arr =
  Ret (eventName (List.last arr JNull),
       Some (rev (zip_with
                    (fun a b => pastNameOf int64_of_float64 (eventName a) b)
                    arr (tail arr)))).
Proof.
  destruct arr as [|v rest]; intros Hne Hwf; [contradiction|].
  cbn [wf_events] in Hwf. apply andb_prop in Hwf as [Hv Hrest].
  destruct (first_event_inv v Hv) as (m & Hm & Hname).
  assert (Hassert : assertMap v = Ret m) by (rewrite Hm; reflexivity).
  unfold buildHistory. cbn [buildHistory_loop].
  rewrite Hassert. cbn [mbind outcome_bind].
  rewrite first_event_step.
  cbn [mbind outcome_bind]. rewrite Hname.
  cbn [assertString mbind outcome_bind].
  replace (length (v :: rest) - 1)%nat with (length rest)
    by (cbn [length]; lia).
  rewrite !length_replicate.
  destruct rest as [|v' rest].
  - reflexivity.
  - remember (v' :: rest) as rest' eqn:Hrest'.
    assert (Hlen : length rest' = S (length rest))
      by (subst rest'; reflexivity).
    destruct (Z.eqb_spec 0 (Z.of_nat (length rest'))) as [?|_]; [lia|].
    rewrite Hlen at 1. rewrite replicate_snoc.
    rewrite slice_update_middle by (rewrite length_replicate; lia).
    cbn [mbind outcome_bind].
    change (setName (eventName v) PastName_zero)
      with (mkPastName (eventName v) Time_zero).
    replace (replicate (length rest) PastName_zero)
      with (replicate (length rest' - 1) PastName_zero)
      by (f_equal; lia).
    replace (Z.of_nat (length rest') - 1 - 1)
      with (Z.of_nat (length rest') - 2) by lia.
    change (0 + 1) with (1 + Z.of_nat (@length PastName [])).
    rewrite (buildHistory_loop_spec rest' (eventName v) [] _ "");
      [| subst rest'; discriminate | exact Hrest | reflexivity].
    cbn [mbind outcome_bind]. rewrite app_nil_r.
    f_equal. f_equal.
    + subst rest'. reflexivity.
    + f_equal. f_equal. cbn [tail].
      change (eventName v :: map eventName rest')
        with (map eventName (v :: rest')).
      rewrite (zip_with_fmap_l
                 (fun n b => pastNameOf int64_of_float64 n b) eventName).
      reflexivity.
Qed.

Lemma rev_zip_lookup {A B : Type} (f : A -> A -> B) (l : list A) (j : nat)
    (a b : A) :
  l !! j = Some a -> l !! S j = Some b ->
  rev (zip_with f l (tail l)) !! (length l - 2 - j)%nat = Some (f a b).
Proof.
  intros Ha Hb. pose proof (lookup_lt_Some _ _ _ Hb) as Hlt.
  assert (Hlen : length (zip_with f l (tail l)) = (length l - 1)%nat).
  { rewrite length_zip_with. destruct l; cbn [tail length]; lia. }
  rewrite rev_alt. change (rev_append ?x []) with (reverse x).
  rewrite reverse_lookup by lia. rewrite Hlen.
  replace (length l - 1 - S (length l - 2 - j))%nat with j by lia.
  rewrite lookup_zip_with, lookup_tail, Ha, Hb. reflexivity.
Qed.

(** C1: for [n >= 1] well-formed events, [buildHistory] returns the name
    of the last event and a history of exactly [n - 1] entries, most
    recent first: the entry for event [j] sits at index [n - 2 - j], so
    element 0 is the second-to-last event and the last element is the
    first event.  For no events, the name is empty and the history is the
    nil slice. *)
Theorem buildHistory_order (arr : list value) :
  wf_events arr = true ->
  (arr = [] ->
   buildHistory int64_of_float64 arr = Ret ("", None) /\
   elems (A := PastName) None = []) /\
  (arr <> [] ->
   exists hist,
     buildHistory int64_of_float64 arr
     = Ret (eventName (List.last arr JNull), Some hist) /\
     length hist = (length arr - 1)%nat /\
     forall j e, arr !! j = Some e -> (j + 1 < length arr)%nat ->
       PastName_Name <$> hist !! (length arr - 2 - j)%nat
       = Some (eventName e)).
Proof.
  intros Hwf. split.
  - intros ->. split; reflexivity.
  - intros Hne. eexists. split; [apply buildHistory_spec; assumption|].
    split.
    + rewrite length_rev, length_zip_with.
      destruct arr; cbn [tail length]; lia.
    + intros j e He Hj.
      destruct (lookup_lt_is_Some_2 arr (S j)) as [b Hb]; [lia|].
      rewrite (rev_zip_lookup _ arr j e b He Hb). reflexivity.
Qed.

(** C2: when every event after the first carries a changed-to instant,
    every history entry (the one for the first event included) has its
    valid-until instant written, and it is the instant of the event that
    immediately follows: [msToTime] of its ["changedToAt"], the instant
    that many milliseconds after the epoch.  A ["changedToAt"] on the
    first event is never read: whatever it holds, the result is the one
    obtained without it. *)
Theorem buildHistory_until (arr : list value) :
  wf_events arr = true ->
  forallb carries_changedToAt (tail arr) = true ->
  (exists name hist,
     buildHistory int64_of_float64 arr = Ret (name, hist) /\
     length (elems hist) = (length arr - 1)%nat /\
     forall j next, arr !! S j = Some next ->
       exists f,
         eventChangedToAt next = Some f /\
         Until <$> elems hist !! (length arr - 2 - j)%nat
         = Some (msToTime (int64 int64_of_float64 f)) /\
         UnixMilli (msToTime (int64 int64_of_float64 f))
         = int64 int64_of_float64 f) /\
  (forall (m : gmap string value) (c : value) (rest : list value),
     buildHistory int64_of_float64 (JObj (<["changedToAt" := c]> m) :: rest)
     = buildHistory int64_of_float64 (JObj (delete "changedToAt" m) :: rest)).
Proof.
  intros Hwf Hall. split.
  - destruct arr as [|v rest] eqn:Harr.
    { exists "", None. repeat split. intros j next Hj. discriminate. }
    rewrite <- Harr in *. assert (Hne : arr <> []) by (subst; discriminate).
    eexists _, _. split; [apply buildHistory_spec; assumption|].
    unfold elems, default. cbn [from_option id]. split.
    { rewrite length_rev, length_zip_with.
      destruct arr; cbn [tail length]; lia. }
    intros j next Hnext.
    assert (Hc : carries_changedToAt next = true).
    { rewrite forallb_forall in Hall. apply Hall.
      apply list_elem_of_In, list_elem_of_lookup. exists j.
      rewrite lookup_tail. exact Hnext. }
    unfold carries_changedToAt in Hc.
    destruct (eventChangedToAt next) as [f|] eqn:Hf; [|discriminate].
    exists f. split; [reflexivity|].
    destruct (lookup_lt_is_Some_2 arr j) as [a Ha].
    { apply lookup_lt_Some in Hnext. lia. }
    rewrite (rev_zip_lookup _ arr j a next Ha Hnext).
    unfold pastNameOf, untilOf. rewrite Hf. split; [reflexivity|].
    apply UnixMilli_msToTime. apply wrap64_range.
  - intros m c rest. unfold buildHistory.
    cbn [buildHistory_loop assertMap mbind outcome_bind length].
    rewrite !first_event_step. unfold at_key.
    rewrite lookup_insert_ne, lookup_delete_ne by discriminate.
    reflexivity.
Qed.

End History.

Lemma buildHistory_order_witness :
  wf_events sample_events = true /\
  exists hist,
    buildHistory (fun z : Z => z) sample_events
    = Ret (eventName (List.last sample_events JNull), Some hist) /\
    length hist = (length sample_events - 1)%nat /\
    forall j e, sample_events !! j = Some e ->
      (j + 1 < length sample_events)%nat ->
      PastName_Name <$> hist !! (length sample_events - 2 - j)%nat
      = Some (eventName e).
Proof.
  split; [vm_compute; reflexivity|].
  destruct (buildHistory_order (fun z : Z => z) sample_events) as [_ H];
    [vm_compute; reflexivity|].
  apply H. discriminate.
Defined.

Lemma buildHistory_until_witness :
  wf_events sample_events = true /\
  forallb carries_changedToAt (tail sample_events) = true /\
  exists name hist,
    buildHistory (fun z : Z => z) sample_events = Ret (name, hist) /\
    length (elems hist) = (length sample_events - 1)%nat /\
    forall j next, sample_events !! S j = Some next ->
      exists f,
        eventChangedToAt next = Some f /\
        Until <$> elems hist !! (length sample_events - 2 - j)%nat
        = Some (msToTime (int64 (fun z : Z => z) f)) /\
        UnixMilli (msToTime (int64 (fun z : Z => z) f))
        = int64 (fun z : Z => z) f.
Proof.
  split; [vm_compute; reflexivity|].
  split; [vm_compute; reflexivity|].
  destruct (buildHistory_until (fun z : Z => z) sample_events) as [H _];
    [vm_compute; reflexivity | vm_compute; reflexivity |].
  exact H.
Defined.

(** ** The textures decoder *)

Section Textures.

Context {float64 : Type}.
Variable base64_DecodeString : string -> list Byte.byte * option error.
Variable json_Decode :
  list Byte.byte -> gmap string (json float64) * option error.

Abbreviation object := (gmap string (json float64)).

(** The ["CAPE"] step never touches the model. *)
Lemma cape_step (ts : object) (props : Properties) :
  cape_ok ts = true ->
  exists props',
    match ts !! "CAPE" with
    | Some c =>
        cape ← assertMap c;
        url ← assertString (at_key cape "url");
        Ret (setCapeURL url props)
    | None => Ret props
    end = Ret props' /\
    Properties_Model props' = Properties_Model props.
Proof.
  unfold cape_ok. intros H.
  destruct (ts !! "CAPE") as [[| | | | |cape]|]; try discriminate.
  - cbn [assertMap mbind outcome_bind]. unfold at_key.
    destruct (cape !! "url") as [[| | |u| |]|]; try discriminate.
    cbn [default from_option id assertString mbind outcome_bind].
    eexists. split; reflexivity.
  - eexists. split; reflexivity.
Qed.

Lemma skin_step (skin : object) (url : string) (props : Properties) :
  skin !! "url" = Some (JStr url) ->
  skin_meta_ok skin = true ->
  exists props',
    (skin' ← assertMap (JObj skin);
     url ← assertString (at_key skin' "url");
     let props := setModel Steve (setSkinURL url props) in
     match skin' !! "metadata" with
     | Some s =>
         skinMeta ← assertMap s;
         match skinMeta !! "model" with
         | Some m =>
             m ← assertString m;
             if String.eqb m "slim" then Ret (setModel Alex props)
             else Ret props
         | None => Ret props
         end
     | None => Ret props
     end) = Ret props' /\
    Properties_Model props' = (if skin_is_slim skin then Alex else Steve).
Proof.
  unfold skin_meta_ok, skin_is_slim. intros Hurl Hmeta.
  cbn [assertMap mbind outcome_bind]. unfold at_key. rewrite Hurl.
  cbn [default from_option id assertString mbind outcome_bind].
  destruct (skin !! "metadata") as [[| | | | |meta]|]; try discriminate.
  - cbn [assertMap mbind outcome_bind].
    destruct (meta !! "model") as [[| | |m| |]|]; try discriminate.
    + cbn [assertString mbind outcome_bind].
      destruct (String.eqb m "slim"); eexists; split; reflexivity.
    + eexists; split; reflexivity.
  - eexists; split; reflexivity.
Qed.

(** C4: on a decoded textures document, without a ["SKIN"] entry the
    model is the one [defaultModel] gives for the document's
    ["profileId"] (and the selector's panic is the decoder's); with a
    ["SKIN"] entry the model is Alex when [metadata.model] is ["slim"] and
    Steve otherwise.  In both cases the model of the resulting
    [Properties] is assigned, whatever it held before. *)
Theorem populateTextures_model (enc : string) (props : Properties)
    (bs : list Byte.byte) (j ts : object) :
  base64_DecodeString enc = (bs, None) ->
  json_Decode bs = (j, None) ->
  j !! "textures" = Some (JObj ts) ->
  cape_ok ts = true ->
  (ts !! "SKIN" = None ->
   forall id, j !! "profileId" = Some (JStr id) ->
     match defaultModel id with
     | Ret mdl =>
         exists props',
           populateTextures base64_DecodeString json_Decode enc props
           = Ret (props', None) /\
           Properties_Model props' = mdl
     | Panic =>
         populateTextures base64_DecodeString json_Decode enc props = Panic
     end) /\
  (forall skin url,
     ts !! "SKIN" = Some (JObj skin) ->
     skin !! "url" = Some (JStr url) ->
     skin_meta_ok skin = true ->
     exists props',
       populateTextures base64_DecodeString json_Decode enc props
       = Ret (props', None) /\
       Properties_Model props' = (if skin_is_slim skin then Alex else Steve)).
Proof.
  intros Hb Hj Hts Hcape.
  assert (Hdoc : populateTextures base64_DecodeString json_Decode enc props
                 = populateTextures_doc j props).
  { unfold populateTextures. rewrite Hb, Hj. reflexivity. }
  rewrite Hdoc. unfold populateTextures_doc.
  assert (Hat : at_key j "textures" = JObj ts)
    by (unfold at_key; rewrite Hts; reflexivity).
  rewrite Hat. cbn [assertMap mbind outcome_bind]. split.
  - intros Hskin id Hid. rewrite Hskin.
    assert (Hat' : at_key j "profileId" = JStr id)
      by (unfold at_key; rewrite Hid; reflexivity).
    rewrite Hat'. cbn [assertString mbind outcome_bind].
    destruct (defaultModel id) as [mdl|]; [|reflexivity].
    cbn [mbind outcome_bind].
    destruct (cape_step ts (setModel mdl props) Hcape) as (p' & Hc & Hm).
    cbv beta iota zeta in Hc |- *. rewrite Hc.
    cbn [mbind outcome_bind]. exists p'. split; [reflexivity|].
    rewrite Hm. reflexivity.
  - intros skin url Hskin Hurl Hmeta. rewrite Hskin.
    destruct (skin_step skin url props Hurl Hmeta) as (p1 & Hs & Hm1).
    cbv beta iota zeta in Hs |- *. rewrite Hs.
    cbn [mbind outcome_bind].
    destruct (cape_step ts p1 Hcape) as (p' & Hc & Hm).
    cbv beta iota zeta in Hc |- *. rewrite Hc.
    cbn [mbind outcome_bind]. exists p'. split; [reflexivity|].
    rewrite Hm. exact Hm1.
Qed.

End Textures.

Lemma populateTextures_model_witness :
  (match defaultModel sample_id with
   | Ret mdl =>
       exists props',
         populateTextures sample_base64 (fun _ => (sample_cape_textures, None))
           "e30=" (mkProperties "" "" Alex)
         = Ret (props', None) /\
         Properties_Model props' = mdl
   | Panic =>
       populateTextures sample_base64 (fun _ => (sample_cape_textures, None))
         "e30=" (mkProperties "" "" Alex) = Panic
   end) /\
  defaultModel sample_id = Ret Steve.
Proof.
  split; [|reflexivity].
  refine (proj1 (populateTextures_model sample_base64
                   (fun _ => (sample_cape_textures, None))
                   "e30=" (mkProperties "" "" Alex) [] sample_cape_textures
                   {["CAPE" :=
                       JObj {["url" := JStr "http://textures.minecraft.net/texture/cape"]}]}
                   eq_refl eq_refl _ _) _ sample_id _);
    vm_compute; reflexivity.
Defined.

(** ** The error classifier *)

Section Classifier.

Variable UnwrapErrFailedRequest : error -> option ErrFailedRequest.

(** C5 (as amended): a transport failure with status 204 becomes
    [ErrNoSuchProfile]; one with any other status and the error code
    ["TooManyRequestsException"] becomes [ErrTooManyRequests]; every other
    error (not a transport failure, or neither of the two) is returned
    unchanged. *)
Theorem transformError_classes (src : error) :
  (forall e, UnwrapErrFailedRequest src = Some e -> StatusCode e = 204 ->
     transformError UnwrapErrFailedRequest src = ErrNoSuchProfile) /\
  (forall e, UnwrapErrFailedRequest src = Some e -> StatusCode e <> 204 ->
     ErrorCode e = "TooManyRequestsException" ->
     transformError UnwrapErrFailedRequest src = ErrTooManyRequests) /\
  ((forall e, UnwrapErrFailedRequest src = Some e ->
      StatusCode e <> 204 /\ ErrorCode e <> "TooManyRequestsException") ->
   transformError UnwrapErrFailedRequest src = src).
Proof.
  unfold transformError. repeat split.
  - intros e -> Hs. rewrite Hs. reflexivity.
  - intros e -> Hs Hc.
    destruct (Z.eqb_spec (StatusCode e) 204) as [?|_]; [contradiction|].
    rewrite Hc. reflexivity.
  - intros H. destruct (UnwrapErrFailedRequest src) as [e|]; [|reflexivity].
    destruct (H e eq_refl) as [Hs Hc].
    destruct (Z.eqb_spec (StatusCode e) 204) as [?|_]; [contradiction|].
    destruct (String.eqb_spec (ErrorCode e) "TooManyRequestsException")
      as [?|_]; [contradiction|].
    reflexivity.
Qed.

End Classifier.

Lemma transformError_classes_witness :
  transformError unwrapFailedRequest sample_rate_limited = ErrTooManyRequests.
Proof.
  refine (proj1 (proj2 (transformError_classes unwrapFailedRequest
                          sample_rate_limited))
            (mkFailedRequest 429 "TooManyRequestsException" "")
            eq_refl _ eq_refl).
  simpl. lia.
Defined.

(** C5 as worded fails: a transport failure that carries the
    rate-exhaustion code together with status 204 is classified as
    [ErrNoSuchProfile], not as rate limited. *)
Lemma transformError_204_counterexample :
  unwrapFailedRequest sample_transport_failure
  = Some (mkFailedRequest 204 "TooManyRequestsException" "") /\
  transformError unwrapFailedRequest sample_transport_failure
  = ErrNoSuchProfile /\
  transformError unwrapFailedRequest sample_transport_failure
  <> ErrTooManyRequests.
Proof.
  split; [reflexivity|]. split; [reflexivity|]. discriminate.
Qed.

(** ** Profile assembly *)

Section Assembly.

Context {float64 : Type}.

Abbreviation object := (gmap string (json float64)).

Lemma flag_cases (m : object) (k : string) :
  flag m k = Panic \/ exists b, flag m k = Ret b.
Proof. destruct (flag m k); eauto. Qed.

Lemma buildProfile_demo (m : object) (demoErr : error) :
  m !! "demo" = Some (JBool true) ->
  buildProfile m demoErr = Ret (None, Some demoErr).
Proof.
  intros H. unfold buildProfile, flag. rewrite H. reflexivity.
Qed.

(** What [buildProfile] can do: panic, report the demo error without a
    profile, or return a profile without an error. *)
Lemma buildProfile_cases (m : object) (demoErr : error) :
  buildProfile m demoErr = Panic \/
  buildProfile m demoErr = Ret (None, Some demoErr) \/
  exists p, buildProfile m demoErr = Ret (Some p, None).
Proof.
  unfold buildProfile.
  destruct (flag m "demo") as [[|]|]; cbn [mbind outcome_bind]; auto.
  destruct (assertString (at_key m "id")) as [id|];
    cbn [mbind outcome_bind]; auto.
  destruct (assertString (at_key m "name")) as [name|];
    cbn [mbind outcome_bind]; auto.
  destruct (flag m "legacy") as [legacy|]; cbn [mbind outcome_bind]; eauto.
Qed.

Lemma assertString_at_key (m : object) (k s : string) :
  assertString (at_key m k) = Ret s -> m !! k = Some (JStr s).
Proof.
  unfold at_key. destruct (m !! k) as [[| | |s'| |]|]; simpl;
    try discriminate.
  intros [= ->]. reflexivity.
Qed.

(** A profile built from a document carries the document's ["id"] and
    ["name"] strings unchanged. *)
Lemma buildProfile_fields (m : object) (demoErr : error) (p : Profile)
    (err : option error) :
  buildProfile m demoErr = Ret (Some p, err) ->
  m !! "id" = Some (JStr (ID p)) /\ m !! "name" = Some (JStr (Name p)) /\
  err = None.
Proof.
  unfold buildProfile.
  destruct (flag m "demo") as [[|]|]; cbn [mbind outcome_bind];
    try discriminate.
  destruct (assertString (at_key m "id")) as [id|] eqn:Hid;
    cbn [mbind outcome_bind]; try discriminate.
  destruct (assertString (at_key m "name")) as [name|] eqn:Hname;
    cbn [mbind outcome_bind]; try discriminate.
  destruct (flag m "legacy") as [legacy|]; cbn [mbind outcome_bind];
    try discriminate.
  intros [= <- <-]. cbn [ID Name].
  auto using assertString_at_key.
Qed.

(** The batch loop either panics or returns the collected profiles
    without an error. *)
Lemma LoadMany_loop_cases (j : list (json float64)) :
  forall ps,
    LoadMany_loop j ps = Panic \/
    exists ps', LoadMany_loop j ps = Ret (Some ps', None).
Proof.
  induction j as [|v j IH]; intros ps; cbn [LoadMany_loop]; [eauto|].
  destruct (assertMap v) as [m|]; cbn [mbind outcome_bind]; auto.
  destruct (buildProfile_cases m ErrNoSuchProfile) as [->|[->|[p ->]]];
    cbn [mbind outcome_bind is_ErrNoSuchProfile]; auto.
Qed.

Lemma LoadMany_loop_demo (m : object) (j : list (json float64))
    (ps : list (option Profile)) :
  m !! "demo" = Some (JBool true) ->
  LoadMany_loop (JObj m :: j) ps = LoadMany_loop j ps.
Proof.
  intros H. cbn [LoadMany_loop assertMap mbind outcome_bind].
  rewrite (buildProfile_demo m ErrNoSuchProfile H). reflexivity.
Qed.

End Assembly.

(** The first loop of [LoadMany] stays within the array and leaves the
    non-empty names, in order, in its first [c] slots. *)
Lemma LoadMany_collect_spec (username : list string) :
  forall (users : list string) (c : Z),
    0 <= c ->
    c + Z.of_nat (length username) <= Z.of_nat (length users) ->
    exists users',
      LoadMany_collect username users c
      = Ret (users', c + Z.of_nat (length (nonempty_names username))) /\
      length users' = length users /\
      take (Z.to_nat (c + Z.of_nat (length (nonempty_names username)))) users'
      = take (Z.to_nat c) users ++ nonempty_names username.
Proof.
  induction username as [|u username IH]; intros users c Hc Hlen.
  - exists users. cbn [LoadMany_collect nonempty_names List.filter length].
    rewrite Z.add_0_r, app_nil_r. auto.
  - cbn [length] in Hlen. cbn [LoadMany_collect].
    unfold nonempty_names. cbn [List.filter].
    destruct (String.eqb u "") eqn:Hu; cbn [negb].
    + apply IH; lia.
    + destruct (lookup_lt_is_Some_2 users (Z.to_nat c)) as [x Hx]; [lia|].
      unfold slice_update.
      destruct (Z.leb_spec 0 c) as [_|?]; [|lia].
      destruct (Z.ltb_spec c (Z.of_nat (length users))) as [_|?]; [|lia].
      cbn [andb]. rewrite Hx. cbn [mbind outcome_bind].
      destruct (IH (<[Z.to_nat c := u]> users) (c + 1))
        as (users' & Heq & Hl & Htake);
        [lia | rewrite length_insert; lia |].
      exists users'. fold (nonempty_names username) in *.
      cbn [length]. rewrite length_insert in Hl.
      replace (c + Z.of_nat (S (length (nonempty_names username))))
        with (c + 1 + Z.of_nat (length (nonempty_names username))) by lia.
      split; [exact Heq|]. split; [exact Hl|].
      rewrite Htake.
      replace (Z.to_nat (c + 1)) with (S (Z.to_nat c)) by lia.
      rewrite (take_S_r _ _ u)
        by (apply list_lookup_insert_eq; apply lookup_lt_Some in Hx; lia).
      rewrite take_insert_ge by lia. rewrite <- app_assoc. reflexivity.
Qed.

(** ** The load operations *)

Section Loads.

Context {float64 : Type}.
Variable int64_of_float64 : float64 -> Z.
Variable base64_DecodeString : string -> list Byte.byte * option error.
Variable json_Decode :
  list Byte.byte -> gmap string (json float64) * option error.
Variable Model_zero : Model.
Variable UnwrapErrFailedRequest : error -> option ErrFailedRequest.
Variable loadURL loadWithNameHistoryURL loadWithPropertiesURL : string -> string.
Variable loadAtTimeURL : string -> Z -> string.
Variable loadManyURL : string.
Variable FetchJSON : string -> json float64 * option error.
Variable ExchangeJSON : string -> list string -> json float64 * option error.

Abbreviation object := (gmap string (json float64)).
Abbreviation loadByName' := (loadByName UnwrapErrFailedRequest FetchJSON).
Abbreviation Load' := (Load UnwrapErrFailedRequest loadURL FetchJSON).
Abbreviation LoadAtTime' :=
  (LoadAtTime UnwrapErrFailedRequest loadAtTimeURL FetchJSON).
Abbreviation LoadWithNameHistory' :=
  (LoadWithNameHistory int64_of_float64 UnwrapErrFailedRequest
     loadWithNameHistoryURL FetchJSON).
Abbreviation LoadByID' :=
  (LoadByID int64_of_float64 UnwrapErrFailedRequest
     loadWithNameHistoryURL FetchJSON).
Abbreviation LoadWithProperties' :=
  (LoadWithProperties base64_DecodeString json_Decode Model_zero
     UnwrapErrFailedRequest loadWithPropertiesURL FetchJSON).
Abbreviation LoadMany' :=
  (LoadMany UnwrapErrFailedRequest loadManyURL ExchangeJSON).

Lemma loadByName_result (endpoint : string) (log : list request) :
  fst (loadByName' endpoint log) =
  match FetchJSON endpoint with
  | (j, None) =>
      recovering (m ← assertMap j; buildProfile m ErrNoSuchProfile)
        (None, None)
        (fun '(p, _) => (p, Some (parseError endpoint)))
  | (_, Some e) => (None, Some (transformError UnwrapErrFailedRequest e))
  end.
Proof.
  unfold loadByName, fetchJSON. cbn [mbind IO_bind mret IO_ret fst].
  destruct (FetchJSON endpoint) as [j [e|]]; reflexivity.
Qed.


Lemma loadByName_atomic (endpoint : string) (log : list request)
    (p : option Profile) (e : error) :
  fst (loadByName' endpoint log) = (p, Some e) -> p = None.
Proof.
  rewrite loadByName_result.
  destruct (FetchJSON endpoint) as [j [e'|]]; [congruence|].
  destruct j as [| | | | |m]; cbn [assertMap mbind outcome_bind recovering];
    try congruence.
  destruct (buildProfile_cases m ErrNoSuchProfile) as [->|[->|[p' ->]]];
    cbn [recovering]; congruence.
Qed.

Lemma LoadWithNameHistory_result (id : string) (log : list request) :
  fst (LoadWithNameHistory' id log) =
  if String.eqb id "" then (None, Some ErrNoSuchProfile)
  else
    match FetchJSON (loadWithNameHistoryURL id) with
    | (j, None) =>
        recovering
          (a ← assertSlice j;
           '(name, hist) ← buildHistory int64_of_float64 a;
           Ret (Some (mkProfile id name hist None), None))
          (None, None)
          (fun '(p, _) => (p, Some (parseError (loadWithNameHistoryURL id))))
    | (_, Some e) => (None, Some (transformError UnwrapErrFailedRequest e))
    end.
Proof.
  unfold LoadWithNameHistory, fetchJSON.
  destruct (String.eqb id ""); [reflexivity|].
  cbn [mbind IO_bind mret IO_ret fst].
  destruct (FetchJSON (loadWithNameHistoryURL id)) as [j [e|]]; reflexivity.
Qed.

Lemma LoadWithNameHistory_atomic (id : string) (log : list request)
    (p : option Profile) (e : error) :
  fst (LoadWithNameHistory' id log) = (p, Some e) -> p = None.
Proof.
  rewrite LoadWithNameHistory_result.
  destruct (String.eqb id ""); [congruence|].
  destruct (FetchJSON (loadWithNameHistoryURL id)) as [j [e'|]];
    [congruence|].
  destruct j as [| | | |a|]; cbn [assertSlice mbind outcome_bind recovering];
    try congruence.
  destruct (buildHistory int64_of_float64 a) as [[name hist]|];
    cbn [mbind outcome_bind recovering]; congruence.
Qed.

Lemma LoadWithProperties_result (id : string) (log : list request) :
  fst (LoadWithProperties' id log) =
  if String.eqb id "" then (None, Some ErrNoSuchProfile)
  else
    let endpoint := loadWithPropertiesURL id in
    let h := fun _ : option Profile * option error =>
               (None, Some (parseError endpoint)) in
    match FetchJSON endpoint with
    | (j, None) =>
        recovering
          (m ← assertMap j;
           '(p, err) ← buildProfile m ErrNoSuchProfile;
           match err with
           | Some e => Ret (p, Some e)
           | None =>
               Ret (recovering
                      (a ← assertSlice (at_key m "properties");
                       '(props, err) ←
                         buildProperties base64_DecodeString json_Decode
                           Model_zero a;
                       match p with
                       | None => Panic
                       | Some pr =>
                           match err with
                           | Some e =>
                               Ret (None, Some (UrlError "Parse" endpoint e))
                           | None => Ret (Some (setProperties props pr), None)
                           end
                       end)
                      (p, None) h)
           end)
          (None, None) h
    | (_, Some e) => (None, Some (transformError UnwrapErrFailedRequest e))
    end.
Proof.
  unfold LoadWithProperties, fetchJSON.
  destruct (String.eqb id ""); [reflexivity|].
  cbn [mbind IO_bind mret IO_ret fst].
  destruct (FetchJSON (loadWithPropertiesURL id)) as [j [e|]]; reflexivity.
Qed.

Lemma LoadWithProperties_atomic (id : string) (log : list request)
    (p : option Profile) (e : error) :
  fst (LoadWithProperties' id log) = (p, Some e) -> p = None.
Proof.
  rewrite LoadWithProperties_result.
  destruct (String.eqb id ""); [congruence|].
  cbv zeta.
  destruct (FetchJSON (loadWithPropertiesURL id)) as [j [e'|]];
    [congruence|].
  destruct j as [| | | | |m]; cbn [assertMap mbind outcome_bind recovering];
    try congruence.
  destruct (buildProfile_cases m ErrNoSuchProfile) as [->|[->|[p' ->]]];
    cbn [mbind outcome_bind recovering]; try congruence.
  destruct (assertSlice (at_key m "properties")) as [a|];
    cbn [mbind outcome_bind recovering]; try congruence.
  destruct (buildProperties base64_DecodeString json_Decode Model_zero a)
    as [[props [e'|]]|];
    cbn [mbind outcome_bind recovering]; congruence.
Qed.


(** [LoadMany] below the size cap: the request carries the non-empty
    names, or nothing is sent when there is none. *)
Lemma LoadMany_result (username : list string) (log : list request) :
  Z.of_nat (length username) <= LoadManyMaxSize ->
  LoadMany' username log =
  match nonempty_names username with
  | [] => (Ret (None, None), log)
  | _ :: _ =>
      (Ret (match ExchangeJSON loadManyURL (nonempty_names username) with
            | (j, None) =>
                recovering (j ← assertSlice j; LoadMany_loop j [])
                  (None, None)
                  (fun _ => (None, Some (parseError loadManyURL)))
            | (_, Some e) =>
                (None, Some (transformError UnwrapErrFailedRequest e))
            end),
       log ++ [Exchange loadManyURL (nonempty_names username)])
  end.
Proof.
  intros Hlen. unfold LoadMany.
  destruct (Z.ltb_spec LoadManyMaxSize (Z.of_nat (length username)))
    as [?|_]; [lia|].
  destruct (LoadMany_collect_spec username
              (replicate (Z.to_nat LoadManyMaxSize) "") 0)
    as (users & -> & _ & Htake);
    [lia | rewrite length_replicate; lia |].
  rewrite Z.add_0_l in *. change (Z.to_nat 0) with 0%nat in Htake.
  rewrite take_0, app_nil_l in Htake.
  destruct (nonempty_names username) as [|u names] eqn:Hnames.
  - reflexivity.
  - destruct (Z.eqb_spec (Z.of_nat (length (u :: names))) 0) as [H0|_];
      [cbn [length] in H0; lia|].
    rewrite Htake. unfold exchangeJSON.
    cbn [mbind IO_bind mret IO_ret].
    destruct (ExchangeJSON loadManyURL (u :: names)) as [j [e|]];
      reflexivity.
Qed.


(** C8: more than [LoadManyMaxSize] names fail with [ErrMaxSizeExceeded]
    carrying their number and leave the request log as it was; otherwise
    the one request sent carries exactly the non-empty names, in order;
    and when no name is non-empty nothing is sent and the result is the
    nil slice without error. *)
Theorem LoadMany_requests (username : list string) (log : list request) :
  (LoadManyMaxSize < Z.of_nat (length username) ->
   LoadMany' username log
   = (Ret (None, Some (ErrMaxSizeExceeded (Z.of_nat (length username)))),
      log)) /\
  (Z.of_nat (length username) <= LoadManyMaxSize ->
   nonempty_names username <> [] ->
   exists r,
     LoadMany' username log
     = (Ret r, log ++ [Exchange loadManyURL (nonempty_names username)])) /\
  (Z.of_nat (length username) <= LoadManyMaxSize ->
   forallb (fun u => String.eqb u "") username = true ->
   LoadMany' username log = (Ret (None, None), log) /\
   elems (A := option Profile) None = []).
Proof.
  split; [|split].
  - intros Hbig. unfold LoadMany.
    destruct (Z.ltb_spec LoadManyMaxSize (Z.of_nat (length username)))
      as [_|?]; [reflexivity|lia].
  - intros Hok Hne. rewrite LoadMany_result by exact Hok.
    destruct (nonempty_names username) as [|u names]; [contradiction|].
    eexists. reflexivity.
  - intros Hok Hall. split; [|reflexivity].
    rewrite LoadMany_result by exact Hok.
    assert (Hnil : nonempty_names username = []).
    { clear Hok. induction username as [|u username IH]; [reflexivity|].
      cbn [forallb] in Hall. apply andb_prop in Hall as [Hu Hall].
      unfold nonempty_names. cbn [List.filter]. rewrite Hu. cbn [negb].
      apply IH. exact Hall. }
    rewrite Hnil. reflexivity.
Qed.

(** C9 (as amended): a profile built by [buildProfile] carries the
    document's ["id"] and ["name"] strings as they are; a profile built by
    [LoadWithNameHistory] has the requested identifier, which is not
    empty, and the name [buildHistory] reconstructs from the returned
    events: the empty name for no events, the last event's name
    otherwise. *)
Theorem profile_identity :
  (forall (m : object) demoErr p err,
     buildProfile m demoErr = Ret (Some p, err) ->
     m !! "id" = Some (JStr (ID p)) /\ m !! "name" = Some (JStr (Name p))) /\
  (forall id log p err,
     fst (LoadWithNameHistory' id log) = (Some p, err) ->
     id <> "" /\ ID p = id /\
     exists a,
       FetchJSON (loadWithNameHistoryURL id) = (JArr a, None) /\
       buildHistory int64_of_float64 a = Ret (Name p, NameHistory p) /\
       (a = [] -> Name p = "") /\
       (a <> [] -> wf_events a = true ->
        Name p = eventName (List.last a JNull))).
Proof.
  split.
  - intros m demoErr p err H.
    destruct (buildProfile_fields m demoErr p err H) as (? & ? & _). auto.
  - intros id log p err. rewrite LoadWithNameHistory_result.
    destruct (String.eqb_spec id "") as [->|Hid]; [discriminate|].
    destruct (FetchJSON (loadWithNameHistoryURL id)) as [j [e|]];
      [discriminate|].
    destruct j as [| | | |a|];
      cbn [assertSlice mbind outcome_bind recovering]; try discriminate.
    destruct (buildHistory int64_of_float64 a) as [[name hist]|] eqn:Hb;
      cbn [mbind outcome_bind recovering]; [|discriminate].
    intros [= <- <-]. cbn [ID Name NameHistory].
    split; [exact Hid|]. split; [reflexivity|].
    exists a. split; [reflexivity|]. split; [exact Hb|]. split.
    + intros ->. cbn in Hb. congruence.
    + intros Hne Hwf.
      rewrite (buildHistory_spec int64_of_float64 a Hne Hwf) in Hb.
      congruence.
Qed.

End Loads.


Lemma LoadMany_requests_witness :
  (exists r,
     LoadMany unwrapFailedRequest sample_loadManyURL
       (sample_exchange (JArr [JObj sample_profile_doc; JObj sample_demo_doc]))
       [""; "nergalic"; ""; "demo"] []
     = (Ret r, [Exchange sample_loadManyURL ["nergalic"; "demo"]])) /\
  LoadMany unwrapFailedRequest sample_loadManyURL
    (sample_exchange (JArr [JObj sample_profile_doc])) [""; ""] []
  = (Ret (None, None), []) /\
  LoadMany unwrapFailedRequest sample_loadManyURL
    (sample_exchange (JArr [JObj sample_profile_doc])) (replicate 101 "x") []
  = (Ret (None, Some (ErrMaxSizeExceeded 101)), []).
Proof.
  split; [|split].
  - refine (proj1 (proj2 (LoadMany_requests unwrapFailedRequest
                            sample_loadManyURL
                            (sample_exchange
                               (JArr [JObj sample_profile_doc;
                                      JObj sample_demo_doc]))
                            [""; "nergalic"; ""; "demo"] [])) _ _).
    + vm_compute. discriminate.
    + vm_compute. discriminate.
  - refine (proj1 (proj2 (proj2 (LoadMany_requests unwrapFailedRequest
                            sample_loadManyURL
                            (sample_exchange (JArr [JObj sample_profile_doc]))
                            [""; ""] [])) _ eq_refl)).
    vm_compute. discriminate.
  - refine (proj1 (LoadMany_requests unwrapFailedRequest
                     sample_loadManyURL
                     (sample_exchange (JArr [JObj sample_profile_doc]))
                     (replicate 101 "x") []) _).
    vm_compute. reflexivity.
Defined.

Lemma profile_identity_witness :
  buildProfile sample_profile_doc ErrNoSuchProfile
  = Ret (Some (mkProfile sample_id "Nergalic" None None), None) /\
  sample_profile_doc !! "id" = Some (JStr sample_id) /\
  sample_profile_doc !! "name" = Some (JStr "Nergalic").
Proof.
  split; [vm_compute; reflexivity|].
  refine (proj1 (profile_identity (fun z : Z => z) unwrapFailedRequest
                   sample_historyURL (sample_fetch (JArr sample_events)))
            sample_profile_doc ErrNoSuchProfile
            (mkProfile sample_id "Nergalic" None None) None _).
  vm_compute. reflexivity.
Defined.

(** C9 as worded fails: nothing checks the strings of a document or the
    length of an event list.  A document with empty ["id"] and ["name"]
    yields a profile with an empty identifier and an empty name, and an
    empty event list yields a profile with an empty name. *)
Lemma profile_identity_counterexample :
  buildProfile sample_blank_doc ErrNoSuchProfile
  = Ret (Some (mkProfile "" "" None None), None) /\
  fst (LoadWithNameHistory (fun z : Z => z) unwrapFailedRequest
         sample_historyURL (sample_fetch (JArr [])) sample_id [])
  = (Some (mkProfile sample_id "" None None), None).
Proof. split; vm_compute; reflexivity. Qed.

(** * Further properties of the package *)

(** ** [msToTime] *)

(** X1: for every [int64] count of milliseconds, negative ones included,
    [msToTime] is the instant with the floor of [ms / 1000] seconds and
    the remaining whole milliseconds as nanoseconds: the truncating
    division of the code and the carry of [time.Unix] add up to floor
    division.  The nanoseconds are within the second and distinct counts
    give distinct instants. *)
Theorem msToTime_floor (ms : Z) :
  - 2 ^ 63 <= ms < 2 ^ 63 ->
  msToTime ms = mkTime (ms / 1000) (ms mod 1000 * 1000000) /\
  0 <= nanos (msToTime ms) < 1000000000 /\
  (forall ms', - 2 ^ 63 <= ms' < 2 ^ 63 ->
     msToTime ms = msToTime ms' -> ms = ms').
Proof.
  intros Hms.
  assert (Hform : forall x, - 2 ^ 63 <= x < 2 ^ 63 ->
            msToTime x = mkTime (x / 1000) (x mod 1000 * 1000000)).
  { clear ms Hms. intros ms Hms. unfold msToTime.
    pose proof (Z.quot_rem' ms 1000) as Hqr.
    assert (Hr : -1000 < Z.rem ms 1000 < 1000 /\
                 (0 <= ms -> 0 <= Z.rem ms 1000) /\
                 (ms <= 0 -> Z.rem ms 1000 <= 0)).
    { destruct (Z.le_ge_cases 0 ms) as [Hp|Hn].
      - pose proof (Z.rem_bound_pos ms 1000 Hp ltac:(lia)). lia.
      - pose proof (Z.rem_bound_pos_neg ms 1000 ltac:(lia) Hn). lia. }
    set (q := Z.quot ms 1000) in *. set (r := Z.rem ms 1000) in *.
    clearbody q r.
    rewrite (wrap64_id (q * 1000)) by lia.
    replace (ms - q * 1000) with r by lia.
    rewrite (wrap64_id r) by lia.
    rewrite (wrap64_id (r * 1000000)) by lia.
    unfold time_Unix.
    destruct (Z.ltb_spec (r * 1000000) 0) as [Hneg|Hpos]; cbn [orb].
    - assert (Hn : Z.quot (r * 1000000) 1000000000 = 0).
      { pose proof (Z.quot_rem' (r * 1000000) 1000000000) as Hqr'.
        pose proof (Z.rem_bound_pos_neg (r * 1000000) 1000000000
                      ltac:(lia) ltac:(lia)). lia. }
      rewrite Hn. change (0 * 1000000000) with 0.
      rewrite (wrap64_id 0) by lia.
      rewrite Z.add_0_r, Z.sub_0_r.
      rewrite (wrap64_id q) by lia.
      rewrite (wrap64_id (r * 1000000)) by lia.
      destruct (Z.ltb_spec (r * 1000000) 0) as [_|Hc]; [|lia].
      rewrite (wrap64_id (q - 1)) by lia.
      rewrite (wrap64_id (r * 1000000 + 1000000000)) by lia.
      assert (Hd : ms / 1000 = q - 1)
        by (symmetry; apply (Z.div_unique ms 1000 (q - 1) (r + 1000)); lia).
      assert (Hm : ms mod 1000 = r + 1000)
        by (symmetry; apply (Z.mod_unique ms 1000 (q - 1) (r + 1000)); lia).
      rewrite Hd, Hm. f_equal. lia.
    - destruct (Z.leb_spec 1000000000 (r * 1000000)) as [Hc|_]; [lia|].
      assert (Hd : ms / 1000 = q)
        by (symmetry; apply (Z.div_unique ms 1000 q r); lia).
      assert (Hm : ms mod 1000 = r)
        by (symmetry; apply (Z.mod_unique ms 1000 q r); lia).
      rewrite Hd, Hm. reflexivity. }
  split; [apply Hform; exact Hms|]. split.
  - rewrite (Hform ms Hms). cbn [nanos].
    pose proof (Z.mod_pos_bound ms 1000 ltac:(lia)). lia.
  - intros ms' Hms' Heq. rewrite (Hform ms Hms), (Hform ms' Hms') in Heq.
    injection Heq as Hq Hr.
    rewrite (Z.div_mod ms 1000), (Z.div_mod ms' 1000) by lia. lia.
Qed.

Lemma msToTime_floor_witness :
  msToTime (-2500) = mkTime (-3) 500000000 /\
  0 <= nanos (msToTime (-2500)) < 1000000000.
Proof.
  destruct (msToTime_floor (-2500)) as (H1 & H2 & _); [lia|].
  split; [exact H1 | exact H2].
Defined.

(** ** The domain of [buildHistory] *)

Section HistoryDomain.

Context {float64 : Type}.
Variable int64_of_float64 : float64 -> Z.

Abbreviation value := (json float64).

(** A later event that is not well formed panics the loop, whatever the
    slice holds. *)
Lemma later_event_panics (v : value) (rest : list value) (i h : Z)
    (name0 : string) (hist : list PastName) :
  0 < i -> wf_event false v = false ->
  buildHistory_loop int64_of_float64 (v :: rest) i h name0 hist = Panic.
Proof.
  intros Hi Hwf. cbn [buildHistory_loop].
  destruct v as [| | | | |m]; try reflexivity.
  cbn [assertMap mbind outcome_bind]. cbn [wf_event] in Hwf.
  destruct (Z.ltb_spec 0 i) as [_|?]; [|lia].
  unfold at_key.
  destruct (m !! "name") as [[| |?| |?|?]|];
    destruct (m !! "changedToAt") as [[| |?| |?|?]|];
    cbn [assertFloat64 mbind outcome_bind default from_option id];
    try discriminate; try reflexivity;
    try (destruct (slice_update hist (h + 1) _) as [hist'|];
         cbn [mbind outcome_bind]; [|reflexivity]);
    try (destruct (i =? Z.of_nat (length hist')); reflexivity);
    try (destruct (i =? Z.of_nat (length hist)); reflexivity).
Qed.

(** One turn of the loop on a well-formed later event that is not the
    last. *)
Lemma later_event_turn (v : value) (rest : list value) (pn : string)
    (done : list PastName) (i : Z) (name0 : string) :
  rest <> [] ->
  wf_event false v = true ->
  i = 1 + Z.of_nat (length done) ->
  buildHistory_loop int64_of_float64 (v :: rest) i
    (Z.of_nat (length (v :: rest)) - 2) name0
    (replicate (length (v :: rest) - 1) PastName_zero
       ++ mkPastName pn Time_zero :: done)
  = buildHistory_loop int64_of_float64 rest (i + 1)
      (Z.of_nat (length rest) - 2) name0
      (replicate (length rest - 1) PastName_zero
         ++ mkPastName (eventName v) Time_zero
         :: pastNameOf int64_of_float64 pn v :: done).
Proof.
  intros Hne Hv Hi.
  destruct (later_event_inv v Hv) as (m & Hm & Hname & Hc).
  assert (Hassert : assertMap v = Ret m) by (rewrite Hm; reflexivity).
  assert (Hat : eventChangedToAt v =
                match m !! "changedToAt" with
                | Some (JNum f) => Some f
                | _ => None
                end) by (rewrite Hm; reflexivity).
  set (p' := pastNameOf int64_of_float64 pn v).
  assert (Hstep :
    match m !! "changedToAt" with
    | Some c =>
        if 0 <? i then
          f ← assertFloat64 c;
          slice_update
            (replicate (length (v :: rest) - 1) PastName_zero
               ++ mkPastName pn Time_zero :: done)
            (Z.of_nat (length (v :: rest)) - 2 + 1)
            (setUntil (msToTime (int64 int64_of_float64 f)))
        else Ret (replicate (length (v :: rest) - 1) PastName_zero
                    ++ mkPastName pn Time_zero :: done)
    | None => Ret (replicate (length (v :: rest) - 1) PastName_zero
                     ++ mkPastName pn Time_zero :: done)
    end = Ret (replicate (length rest) PastName_zero ++ p' :: done)).
  { cbn [length]. replace (S (length rest) - 1)%nat with (length rest) by lia.
    subst p'. unfold pastNameOf, untilOf. rewrite Hat.
    destruct Hc as [Hc|[f Hc]]; rewrite Hc; [reflexivity|].
    destruct (Z.ltb_spec 0 i) as [_|?]; [|lia].
    cbn [assertFloat64 mbind outcome_bind].
    rewrite slice_update_middle; [reflexivity|].
    rewrite length_replicate. lia. }
  cbn [buildHistory_loop]. rewrite Hassert.
  cbn [mbind outcome_bind].
  rewrite Hstep. cbn [mbind outcome_bind].
  rewrite Hname. cbn [assertString mbind outcome_bind].
  rewrite length_app, length_replicate, length_cons.
  destruct rest as [|v' rest]; [contradiction|].
  destruct (Z.eqb_spec i
             (Z.of_nat (length (v' :: rest) + S (length done))))
    as [Heq|_]; [cbn [length] in Heq; lia|].
  remember (v' :: rest) as rest' eqn:Hrest'.
  assert (Hlen : length rest' = S (length rest))
    by (subst rest'; reflexivity).
  rewrite Hlen at 1. rewrite replicate_snoc, <- app_assoc.
  cbn [app]. rewrite slice_update_middle
    by (rewrite length_replicate; cbn [length]; lia).
  cbn [mbind outcome_bind].
  change (setName (eventName v) PastName_zero)
    with (mkPastName (eventName v) Time_zero).
  replace (replicate (length rest) PastName_zero)
    with (replicate (length rest' - 1) PastName_zero)
    by (f_equal; lia).
  replace (Z.of_nat (length (v :: rest')) - 2 - 1)
    with (Z.of_nat (length rest') - 2) by (cbn [length]; lia).
  reflexivity.
Qed.

Lemma buildHistory_loop_panics (rest : list value) :
  forall (pn : string) (done : list PastName) (i : Z) (name0 : string),
  forallb (wf_event false) rest = false ->
  i = 1 + Z.of_nat (length done) ->
  buildHistory_loop int64_of_float64 rest i (Z.of_nat (length rest) - 2) name0
    (replicate (length rest - 1) PastName_zero
       ++ mkPastName pn Time_zero :: done)
  = Panic.
Proof.
  induction rest as [|v rest IH]; intros pn done i name0 Hwf Hi;
    [discriminate|].
  cbn [forallb] in Hwf. destruct (wf_event false v) eqn:Hv.
  - cbn [andb] in Hwf.
    assert (Hne : rest <> []) by (intros ->; discriminate).
    rewrite later_event_turn by assumption.
    apply IH; [exact Hwf | cbn [length]; lia].
  - apply later_event_panics; [lia | exact Hv].
Qed.

Lemma first_event_panics (v : value) (rest : list value) :
  wf_event true v = false ->
  buildHistory int64_of_float64 (v :: rest) = Panic.
Proof.
  intros Hwf. unfold buildHistory. cbn [buildHistory_loop].
  destruct v as [| | | | |m]; try reflexivity.
  cbn [assertMap mbind outcome_bind]. rewrite first_event_step.
  cbn [mbind outcome_bind]. cbn [wf_event] in Hwf. unfold at_key.
  destruct (m !! "name") as [[| |?| |?|?]|];
    cbn [default from_option id assertString mbind outcome_bind];
    try (destruct (0 =? _); reflexivity).
  destruct (m !! "changedToAt") as [[| |?| |?|?]|]; discriminate.
Qed.

Lemma first_event_turn (v : value) (rest : list value) :
  rest <> [] ->
  wf_event true v = true ->
  buildHistory int64_of_float64 (v :: rest)
  = ('(name, hist) ←
       buildHistory_loop int64_of_float64 rest 1
         (Z.of_nat (length rest) - 2) ""
         (replicate (length rest - 1) PastName_zero
            ++ [mkPastName (eventName v) Time_zero]);
     Ret (name, Some hist)).
Proof.
  intros Hne Hv.
  destruct (first_event_inv v Hv) as (m & Hm & Hname).
  assert (Hassert : assertMap v = Ret m) by (rewrite Hm; reflexivity).
  unfold buildHistory. cbn [buildHistory_loop].
  rewrite Hassert. cbn [mbind outcome_bind].
  rewrite first_event_step.
  cbn [mbind outcome_bind]. rewrite Hname.
  cbn [assertString mbind outcome_bind].
  replace (length (v :: rest) - 1)%nat with (length rest)
    by (cbn [length]; lia).
  rewrite !length_replicate.
  destruct rest as [|v' rest]; [contradiction|].
  remember (v' :: rest) as rest' eqn:Hrest'.
  assert (Hlen : length rest' = S (length rest))
    by (subst rest'; reflexivity).
  destruct (Z.eqb_spec 0 (Z.of_nat (length rest'))) as [?|_]; [lia|].
  rewrite Hlen at 1. rewrite replicate_snoc.
  rewrite slice_update_middle by (rewrite length_replicate; lia).
  cbn [mbind outcome_bind].
  change (setName (eventName v) PastName_zero)
    with (mkPastName (eventName v) Time_zero).
  replace (replicate (length rest) PastName_zero)
    with (replicate (length rest' - 1) PastName_zero)
    by (f_equal; lia).
  replace (Z.of_nat (length rest') - 1 - 1)
    with (Z.of_nat (length rest') - 2) by lia.
  reflexivity.
Qed.

Lemma buildHistory_not_wf (arr : list value) :
  wf_events arr = false -> buildHistory int64_of_float64 arr = Panic.
Proof.
  intros Hwf. destruct arr as [|v rest]; [discriminate|].
  cbn [wf_events] in Hwf. destruct (wf_event true v) eqn:Hv.
  - cbn [andb] in Hwf.
    assert (Hne : rest <> []) by (intros ->; discriminate).
    rewrite first_event_turn by assumption.
    change 1 with (1 + Z.of_nat (@length PastName [])).
    rewrite buildHistory_loop_panics; [reflexivity | exact Hwf | reflexivity].
  - apply first_event_panics. exact Hv.
Qed.

(** X2: [buildHistory] panics exactly on the event lists that are not
    well formed: some event is not an object or has no string ["name"],
    or an event after the first has a ["changedToAt"] that is not a
    number.  On every other list, the empty one included, it returns. *)
Theorem buildHistory_panics_iff (arr : list value) :
  buildHistory int64_of_float64 arr = Panic <-> wf_events arr = false.
Proof.
  split.
  - intros Hp. destruct (wf_events arr) eqn:Hwf; [|reflexivity].
    destruct arr as [|v rest]; [discriminate|].
    rewrite buildHistory_spec in Hp; [discriminate | discriminate | exact Hwf].
  - apply buildHistory_not_wf.
Qed.

(** X3: an entry whose following event carries no ["changedToAt"] keeps
    the zero [Time] as its valid-until instant, and every entry's name is
    a name of the input: nothing is invented. *)
Theorem buildHistory_unset_until (arr : list value) (name : string)
    (hist : list PastName) :
  buildHistory int64_of_float64 arr = Ret (name, Some hist) ->
  (forall j next, arr !! S j = Some next ->
     eventChangedToAt next = None ->
     Until <$> hist !! (length arr - 2 - j)%nat = Some Time_zero) /\
  (forall k p, hist !! k = Some p ->
     exists e, arr !! (length arr - 2 - k)%nat = Some e /\
               PastName_Name p = eventName e).
Proof.
  intros Hb.
  assert (Hwf : wf_events arr = true).
  { destruct (wf_events arr) eqn:Hwf; [reflexivity|].
    apply buildHistory_not_wf in Hwf. congruence. }
  assert (Hne : arr <> []) by (intros ->; discriminate).
  rewrite (buildHistory_spec int64_of_float64 arr Hne Hwf) in Hb.
  injection Hb as Hname Hhist. split.
  - intros j next Hnext Hnone.
    destruct (lookup_lt_is_Some_2 arr j) as [a Ha].
    { apply lookup_lt_Some in Hnext. lia. }
    rewrite <- Hhist, (rev_zip_lookup _ arr j a next Ha Hnext).
    unfold pastNameOf, untilOf. rewrite Hnone. reflexivity.
  - intros k p Hp.
    assert (Hlen : length hist = (length arr - 1)%nat).
    { rewrite <- Hhist, length_rev, length_zip_with.
      destruct arr; cbn [tail length]; lia. }
    pose proof (lookup_lt_Some _ _ _ Hp) as Hk.
    destruct (lookup_lt_is_Some_2 arr (length arr - 2 - k)) as [a Ha];
      [lia|].
    destruct (lookup_lt_is_Some_2 arr (S (length arr - 2 - k))) as [b Hb];
      [lia|].
    pose proof (rev_zip_lookup
                  (fun a b => pastNameOf int64_of_float64 (eventName a) b)
                  arr _ a b Ha Hb) as Hl.
    replace (length arr - 2 - (length arr - 2 - k))%nat with k in Hl by lia.
    rewrite Hhist, Hp in Hl. injection Hl as ->.
    exists a. split; [exact Ha | reflexivity].
Qed.

End HistoryDomain.

Lemma buildHistory_unset_until_witness :
  buildHistory (fun z : Z => z) sample_events_gap
  = Ret ("C", Some [mkPastName "B" (mkTime 1 500000000);
                    mkPastName "A" Time_zero]) /\
  forall j next, sample_events_gap !! S j = Some next ->
    eventChangedToAt next = None ->
    Until <$> [mkPastName "B" (mkTime 1 500000000);
               mkPastName "A" Time_zero]
              !! (length sample_events_gap - 2 - j)%nat
    = Some Time_zero.
Proof.
  assert (H : buildHistory (fun z : Z => z) sample_events_gap
              = Ret ("C", Some [mkPastName "B" (mkTime 1 500000000);
                                mkPastName "A" Time_zero]))
    by (vm_compute; reflexivity).
  split; [exact H|].
  exact (proj1 (buildHistory_unset_until (fun z : Z => z) sample_events_gap
                  _ _ H)).
Defined.

(** ** The domain of [defaultModel] *)

Lemma isEven_not_hex (c : Z) : is_hex c = false -> isEven c = Panic.
Proof.
  unfold is_hex, is_decimal, is_letter, isEven. intros H.
  apply orb_false_elim in H as [-> ->]. reflexivity.
Qed.

Lemma isEven_returns (c : Z) : is_hex c = true -> exists b, isEven c = Ret b.
Proof. intros H. rewrite (isEven_hex c H). eauto. Qed.

Lemma get_ge (s : string) (i : nat) :
  (String.length s <= i)%nat -> String.get i s = None.
Proof.
  revert i. induction s as [|a s IH]; intros i Hi; simpl in *;
    [reflexivity|].
  destruct i as [|i]; [lia|]. apply IH. lia.
Qed.

(** X4: [defaultModel] panics exactly when one of the four positions it
    reads (7, 15, 23, 31) is past the end of the identifier or holds a
    character outside [0-9a-f]; in particular on every identifier shorter
    than 32 characters, and on upper-case digits at those positions.  The
    other 28 characters are never looked at. *)
Theorem defaultModel_panics_iff (uuid : string) :
  (defaultModel uuid = Panic <-> inspectable uuid = false) /\
  ((String.length uuid < 32)%nat -> defaultModel uuid = Panic).
Proof.
  assert (Hiff : defaultModel uuid = Panic <-> inspectable uuid = false).
  { unfold inspectable, defaultModel, index. cbn [forallb].
    change (16 + 7)%nat with 23%nat. change (16 + 15)%nat with 31%nat.
    destruct (String.get 7 uuid) as [c7|];
      [|cbn [mbind outcome_bind andb]; tauto].
    cbn [mbind outcome_bind].
    destruct (is_hex (byte_of c7)) eqn:H7;
      [|rewrite (isEven_not_hex _ H7); cbn [mbind outcome_bind andb]; tauto].
    destruct (isEven_returns _ H7) as [e7 ->]. cbn [mbind outcome_bind andb].
    destruct (String.get 23 uuid) as [c23|];
      [|cbn [mbind outcome_bind andb]; tauto].
    cbn [mbind outcome_bind].
    destruct (is_hex (byte_of c23)) eqn:H23;
      [|rewrite (isEven_not_hex _ H23); cbn [mbind outcome_bind andb]; tauto].
    destruct (isEven_returns _ H23) as [e23 ->].
    cbn [mbind outcome_bind andb].
    destruct (String.get 15 uuid) as [c15|];
      [|cbn [mbind outcome_bind andb]; tauto].
    cbn [mbind outcome_bind].
    destruct (is_hex (byte_of c15)) eqn:H15;
      [|rewrite (isEven_not_hex _ H15); cbn [mbind outcome_bind andb]; tauto].
    destruct (isEven_returns _ H15) as [e15 ->].
    cbn [mbind outcome_bind andb].
    destruct (String.get 31 uuid) as [c31|];
      [|cbn [mbind outcome_bind andb]; tauto].
    cbn [mbind outcome_bind].
    destruct (is_hex (byte_of c31)) eqn:H31;
      [|rewrite (isEven_not_hex _ H31); cbn [mbind outcome_bind andb]; tauto].
    destruct (isEven_returns _ H31) as [e31 ->].
    cbn [mbind outcome_bind andb].
    destruct (xorb _ _); split; discriminate. }
  split; [exact Hiff|].
  intros Hlen. apply Hiff. unfold inspectable. cbn [forallb].
  rewrite (get_ge uuid 31) by lia.
  rewrite !andb_false_r. reflexivity.
Qed.

Lemma defaultModel_panics_iff_witness :
  defaultModel "087cc153c3434ff7" = Panic /\
  defaultModel "087CC15CC3434FF7AC497DE1569AFFA1" = Panic.
Proof.
  split.
  - apply (proj2 (defaultModel_panics_iff "087cc153c3434ff7")). simpl. lia.
  - apply (proj1 (defaultModel_panics_iff "087CC15CC3434FF7AC497DE1569AFFA1")).
    reflexivity.
Defined.

(** ** [defaultModel] and Java's [UUID.hashCode] *)

Lemma testbit_mod_congr (x y k n : Z) :
  0 <= n < k -> x mod 2 ^ k = y mod 2 ^ k -> Z.testbit x n = Z.testbit y n.
Proof.
  intros Hn H.
  rewrite <- (Z.mod_pow2_bits_low x k n), <- (Z.mod_pow2_bits_low y k n)
    by lia.
  rewrite H. reflexivity.
Qed.

Lemma testbit_wrap64 (z n : Z) :
  0 <= n < 64 -> Z.testbit (wrap64 z) n = Z.testbit z n.
Proof.
  intros Hn. apply (testbit_mod_congr _ _ 64); [exact Hn|].
  unfold wrap64. rewrite Zminus_mod_idemp_l. f_equal. lia.
Qed.

Lemma testbit_wrap32 (z n : Z) :
  0 <= n < 32 -> Z.testbit (wrap32 z) n = Z.testbit z n.
Proof.
  intros Hn. apply (testbit_mod_congr _ _ 32); [exact Hn|].
  unfold wrap32. rewrite Zminus_mod_idemp_l. f_equal. lia.
Qed.

Lemma fold_hex_acc (l : list Z) (acc : Z) :
  fold_left (fun acc d => acc * 16 + d) l acc
  = acc * 16 ^ Z.of_nat (length l)
    + fold_left (fun acc d => acc * 16 + d) l 0.
Proof.
  revert acc. induction l as [|d l IH]; intros acc; cbn [fold_left length].
  - change (16 ^ Z.of_nat 0) with 1. lia.
  - rewrite IH, (IH (0 * 16 + d)).
    rewrite Nat2Z.inj_succ, Z.pow_succ_r by lia. ring.
Qed.

Lemma fold_hex_range (l : list Z) :
  Forall (fun d => 0 <= d < 16) l ->
  0 <= fold_left (fun acc d => acc * 16 + d) l 0 < 16 ^ Z.of_nat (length l).
Proof.
  induction 1 as [|d l Hd Hl IH]; cbn [fold_left length].
  - change (16 ^ Z.of_nat 0) with 1. lia.
  - rewrite fold_hex_acc, Nat2Z.inj_succ, Z.pow_succ_r by lia.
    assert (0 < 16 ^ Z.of_nat (length l)) by (apply Z.pow_pos_nonneg; lia).
    nia.
Qed.

(** The bit of weight [16 ^ length l2] in a number written in
    hexadecimal is the low bit of the digit at that place. *)
Lemma fold_hex_bit (l1 l2 : list Z) (d : Z) :
  Forall (fun d => 0 <= d < 16) l2 ->
  Z.testbit (fold_left (fun acc d => acc * 16 + d) (l1 ++ d :: l2) 0)
    (4 * Z.of_nat (length l2))
  = Z.odd d.
Proof.
  intros Hl2. rewrite fold_left_app. cbn [fold_left].
  rewrite fold_hex_acc.
  pose proof (fold_hex_range l2 Hl2) as Hr.
  set (x := fold_left (fun acc d => acc * 16 + d) l1 0) in *.
  set (y := fold_left (fun acc d => acc * 16 + d) l2 0) in *.
  replace (16 ^ Z.of_nat (length l2)) with (2 ^ (4 * Z.of_nat (length l2))) in *
    by (rewrite Z.pow_mul_r by lia; reflexivity).
  set (n := 4 * Z.of_nat (length l2)) in *.
  assert (Hn : 0 <= n) by lia.
  replace n with (0 + n) at 2 by lia.
  rewrite <- Z.shiftr_spec by lia.
  rewrite Z.shiftr_div_pow2 by lia.
  rewrite Z.div_add_l by (apply Z.pow_nonzero; lia).
  rewrite Z.div_small by lia.
  rewrite Z.add_0_r, Z.bit0_odd, Z.odd_add, Z.odd_mul.
  change (Z.odd 16) with false. rewrite andb_false_r. reflexivity.
Qed.

Lemma hexval_range (c : Z) : is_hex c = true -> 0 <= hexval c < 16.
Proof.
  unfold is_hex, hexval, is_decimal, is_letter.
  change (byte_of "0") with 48. change (byte_of "9") with 57.
  change (byte_of "a") with 97. change (byte_of "f") with 102.
  destruct (Z.leb_spec 48 c), (Z.leb_spec c 57), (Z.leb_spec 97 c),
    (Z.leb_spec c 102); cbn [andb orb]; intros Hx; try discriminate; lia.
Qed.

Lemma hex16_bits (d0 d1 d2 d3 d4 d5 d6 d7 d8 d9 d10 d11 d12 d13 d14 d15 : Z) :
  Forall (fun d => 0 <= d < 16) [d8; d9; d10; d11; d12; d13; d14; d15] ->
  Z.testbit
    (fold_left (fun acc d => acc * 16 + d)
       [d0; d1; d2; d3; d4; d5; d6; d7; d8; d9; d10; d11; d12; d13; d14; d15]
       0) 32 = Z.odd d7 /\
  Z.testbit
    (fold_left (fun acc d => acc * 16 + d)
       [d0; d1; d2; d3; d4; d5; d6; d7; d8; d9; d10; d11; d12; d13; d14; d15]
       0) 0 = Z.odd d15.
Proof.
  intros H. split.
  - exact (fold_hex_bit [d0; d1; d2; d3; d4; d5; d6]
             [d8; d9; d10; d11; d12; d13; d14; d15] d7 H).
  - exact (fold_hex_bit
             [d0; d1; d2; d3; d4; d5; d6; d7; d8; d9; d10; d11; d12; d13; d14]
             [] d15 (List.Forall_nil _)).
Qed.

(** X5: on a 32-character lowercase hexadecimal identifier,
    [defaultModel] is Alex exactly when the low bit of Java's
    [UUID.hashCode()] of the identifier is 1, as the comment on the
    function says it compacts [uuid.hashCode() & 1]. *)
Theorem defaultModel_hashCode (uuid : string) :
  is_hex_id uuid = true ->
  defaultModel uuid =
  Ret (if Z.land (java_UUID_hashCode uuid) 1 =? 1 then Alex else Steve).
Proof.
  intros Hid. unfold is_hex_id in Hid. apply andb_prop in Hid as [Hlen Hall].
  do 32 (destruct uuid as [|? uuid]; [discriminate Hlen|]).
  destruct uuid; [|discriminate Hlen]. clear Hlen.
  cbn [list_ascii_of_string forallb] in Hall.
  repeat (apply andb_prop in Hall as [? Hall]).
  erewrite defaultModel_at;
    [| reflexivity | reflexivity | reflexivity | reflexivity
     | assumption | assumption | assumption | assumption].
  unfold java_UUID_hashCode, java_long_of_hex, parse_hex, hex_digits.
  cbn [String.substring list_ascii_of_string map].
  rewrite land_1_odd, <- Z.bit0_odd.
  rewrite testbit_wrap32, Z.lxor_spec, !testbit_wrap32 by lia.
  rewrite Z.shiftr_spec by lia. change (0 + 32) with 32.
  rewrite !Z.lxor_spec, !testbit_wrap64 by lia.
  repeat match goal with
  | |- context [Z.testbit (fold_left ?f [?d0; ?d1; ?d2; ?d3; ?d4; ?d5; ?d6;
                                         ?d7; ?d8; ?d9; ?d10; ?d11; ?d12;
                                         ?d13; ?d14; ?d15] 0) 32] =>
      rewrite (proj1 (hex16_bits d0 d1 d2 d3 d4 d5 d6 d7 d8 d9 d10 d11 d12
                        d13 d14 d15
                        ltac:(repeat constructor; apply hexval_range;
                              assumption)))
  | |- context [Z.testbit (fold_left ?f [?d0; ?d1; ?d2; ?d3; ?d4; ?d5; ?d6;
                                         ?d7; ?d8; ?d9; ?d10; ?d11; ?d12;
                                         ?d13; ?d14; ?d15] 0) 0] =>
      rewrite (proj2 (hex16_bits d0 d1 d2 d3 d4 d5 d6 d7 d8 d9 d10 d11 d12
                        d13 d14 d15
                        ltac:(repeat constructor; apply hexval_range;
                              assumption)))
  end.
  rewrite <- !Z.negb_odd.
  repeat match goal with
  | |- context [Z.odd ?x] => destruct (Z.odd x)
  end; reflexivity.
Qed.

Lemma defaultModel_hashCode_witness :
  defaultModel "cabefc91b5df4c87886a6c604da2e46f"
  = Ret (if Z.land (java_UUID_hashCode "cabefc91b5df4c87886a6c604da2e46f") 1
            =? 1
         then Alex else Steve).
Proof.
  apply defaultModel_hashCode. reflexivity.
Defined.

Example java_UUID_hashCode_ex :
  java_UUID_hashCode "cabefc91b5df4c87886a6c604da2e46f" = -1163315175 /\
  defaultModel "cabefc91b5df4c87886a6c604da2e46f" = Ret Alex.
Proof. split; vm_compute; reflexivity. Qed.

(** ** Profile assembly, in full *)

Section AssemblyExact.

Context {float64 : Type}.

Abbreviation object := (gmap string (json float64)).

Lemma buildProfile_accepts (m : object) (demoErr : error) :
  buildProfile m demoErr =
  if profile_doc_ok m then
    if flag_value m "demo" then Ret (None, Some demoErr)
    else Ret (Some (expected_profile m), None)
  else Panic.
Proof.
  unfold buildProfile, profile_doc_ok, expected_profile, flag, flag_ok,
    flag_value, string_ok, string_value, at_key.
  destruct (m !! "demo") as [[|[|]|?| |?|?]|];
    cbn [assertBool mbind outcome_bind andb orb]; try reflexivity;
    (destruct (m !! "id") as [[|?|?|?|?|?]|];
     cbn [default from_option id assertString mbind outcome_bind andb orb];
     try reflexivity;
     destruct (m !! "name") as [[|?|?|?|?|?]|];
     cbn [default from_option id assertString mbind outcome_bind andb orb];
     try reflexivity;
     destruct (m !! "legacy") as [[|[|]|?|?|?|?]|];
     cbn [assertBool mbind outcome_bind andb orb]; reflexivity).
Qed.

(** X6: [buildProfile] panics exactly on the documents whose ["demo"] flag
    is present but not a boolean or, when the account is not a demo one,
    whose ["id"] or ["name"] is not a string or whose ["legacy"] flag is
    present but not a boolean.  On the others it returns the demo error
    alone for a demo account, and otherwise the profile with the
    document's identifier and name, the empty non-nil history for a
    legacy account and a nil history for any other, and no properties. *)
Theorem buildProfile_exact (m : object) (demoErr : error) :
  buildProfile m demoErr =
  if profile_doc_ok m then
    if flag_value m "demo" then Ret (None, Some demoErr)
    else Ret (Some (expected_profile m), None)
  else Panic.
Proof. apply buildProfile_accepts. Qed.

End AssemblyExact.

(** ** The load operations, in full *)

Section LoadsExact.

Context {float64 : Type}.
Variable int64_of_float64 : float64 -> Z.
Variable base64_DecodeString : string -> list Byte.byte * option error.
Variable json_Decode :
  list Byte.byte -> gmap string (json float64) * option error.
Variable Model_zero : Model.
Variable UnwrapErrFailedRequest : error -> option ErrFailedRequest.
Variable loadURL loadWithNameHistoryURL loadWithPropertiesURL : string -> string.
Variable loadAtTimeURL : string -> Z -> string.
Variable loadManyURL : string.
Variable FetchJSON : string -> json float64 * option error.
Variable ExchangeJSON : string -> list string -> json float64 * option error.

Abbreviation object := (gmap string (json float64)).
Abbreviation loadByName' := (loadByName UnwrapErrFailedRequest FetchJSON).
Abbreviation Load' := (Load UnwrapErrFailedRequest loadURL FetchJSON).
Abbreviation LoadAtTime' :=
  (LoadAtTime UnwrapErrFailedRequest loadAtTimeURL FetchJSON).
Abbreviation LoadWithNameHistory' :=
  (LoadWithNameHistory int64_of_float64 UnwrapErrFailedRequest
     loadWithNameHistoryURL FetchJSON).
Abbreviation LoadByID' :=
  (LoadByID int64_of_float64 UnwrapErrFailedRequest
     loadWithNameHistoryURL FetchJSON).
Abbreviation LoadWithProperties' :=
  (LoadWithProperties base64_DecodeString json_Decode Model_zero
     UnwrapErrFailedRequest loadWithPropertiesURL FetchJSON).
Abbreviation LoadMany' :=
  (LoadMany UnwrapErrFailedRequest loadManyURL ExchangeJSON).
Abbreviation buildProperties' :=
  (buildProperties (float64 := float64) base64_DecodeString json_Decode
     Model_zero).

Lemma loadByName_requests (endpoint : string) (log : list request) :
  snd (loadByName' endpoint log) = log ++ [Fetch endpoint].
Proof.
  unfold loadByName, fetchJSON. cbn [mbind IO_bind mret IO_ret].
  destruct (FetchJSON endpoint) as [j err]. reflexivity.
Qed.

(** X7: a blank user name or identifier is answered [ErrNoSuchProfile]
    without contacting the transport; for any other argument [Load],
    [LoadAtTime], [LoadByID], [LoadWithNameHistory] and
    [LoadWithProperties] issue exactly one request, to the endpoint built
    from the argument, whatever the transport answers. *)
Theorem single_load_requests (arg : string) (tm : Time) (log : list request) :
  (arg = "" ->
   Load' arg log = ((None, Some ErrNoSuchProfile), log) /\
   LoadAtTime' arg tm log = ((None, Some ErrNoSuchProfile), log) /\
   LoadByID' arg log = ((None, Some ErrNoSuchProfile), log) /\
   LoadWithNameHistory' arg log = ((None, Some ErrNoSuchProfile), log) /\
   LoadWithProperties' arg log = ((None, Some ErrNoSuchProfile), log)) /\
  (arg <> "" ->
   snd (Load' arg log) = log ++ [Fetch (loadURL arg)] /\
   snd (LoadAtTime' arg tm log)
   = log ++ [Fetch (loadAtTimeURL arg (unixSec tm))] /\
   snd (LoadByID' arg log) = log ++ [Fetch (loadWithNameHistoryURL arg)] /\
   snd (LoadWithNameHistory' arg log)
   = log ++ [Fetch (loadWithNameHistoryURL arg)] /\
   snd (LoadWithProperties' arg log)
   = log ++ [Fetch (loadWithPropertiesURL arg)]).
Proof.
  split.
  - intros ->. repeat split; reflexivity.
  - intros Hne. apply String.eqb_neq in Hne.
    unfold Load, LoadAtTime, LoadByID, LoadWithNameHistory,
      LoadWithProperties.
    rewrite Hne. rewrite !loadByName_requests.
    unfold fetchJSON. cbn [mbind IO_bind mret IO_ret].
    destruct (FetchJSON (loadWithNameHistoryURL arg)) as [j1 e1].
    destruct (FetchJSON (loadWithPropertiesURL arg)) as [j2 e2].
    repeat split; reflexivity.
Qed.

(** X8: when the transport reports a failure, every load operation
    returns the classified failure and no profile; a document delivered
    along with the failure is not looked at. *)
Theorem transport_failure_classified (arg : string) (tm : Time)
    (log : list request) (e : error) :
  arg <> "" ->
  (forall j, FetchJSON (loadURL arg) = (j, Some e) ->
     fst (Load' arg log)
     = (None, Some (transformError UnwrapErrFailedRequest e))) /\
  (forall j, FetchJSON (loadAtTimeURL arg (unixSec tm)) = (j, Some e) ->
     fst (LoadAtTime' arg tm log)
     = (None, Some (transformError UnwrapErrFailedRequest e))) /\
  (forall j, FetchJSON (loadWithNameHistoryURL arg) = (j, Some e) ->
     fst (LoadWithNameHistory' arg log)
     = (None, Some (transformError UnwrapErrFailedRequest e))) /\
  (forall j, FetchJSON (loadWithPropertiesURL arg) = (j, Some e) ->
     fst (LoadWithProperties' arg log)
     = (None, Some (transformError UnwrapErrFailedRequest e))) /\
  (forall j usernames,
     Z.of_nat (length usernames) <= LoadManyMaxSize ->
     nonempty_names usernames <> [] ->
     ExchangeJSON loadManyURL (nonempty_names usernames) = (j, Some e) ->
     fst (LoadMany' usernames log)
     = Ret (None, Some (transformError UnwrapErrFailedRequest e))).
Proof.
  intros Hne. apply String.eqb_neq in Hne.
  split; [|split; [|split; [|split]]].
  - intros j H. unfold Load. rewrite Hne.
    rewrite (loadByName_result UnwrapErrFailedRequest FetchJSON), H.
    reflexivity.
  - intros j H. unfold LoadAtTime. rewrite Hne.
    rewrite (loadByName_result UnwrapErrFailedRequest FetchJSON), H.
    reflexivity.
  - intros j H.
    rewrite (LoadWithNameHistory_result int64_of_float64
               UnwrapErrFailedRequest loadWithNameHistoryURL FetchJSON),
      Hne, H.
    reflexivity.
  - intros j H.
    rewrite (LoadWithProperties_result base64_DecodeString json_Decode
               Model_zero UnwrapErrFailedRequest loadWithPropertiesURL
               FetchJSON), Hne.
    cbv zeta. rewrite H. reflexivity.
  - intros j usernames Hlen Hnames H.
    rewrite (LoadMany_result UnwrapErrFailedRequest loadManyURL ExchangeJSON)
      by exact Hlen.
    destruct (nonempty_names usernames) as [|u names]; [contradiction|].
    rewrite H. reflexivity.
Qed.

(** X9: what [Load] and [LoadAtTime] make of a delivered document: an
    accepted profile document gives its profile, or [ErrNoSuchProfile] for
    a demo account; anything else (not an object, or an object
    [buildProfile] panics on) gives the parse error
    [url.Error{"Parse", endpoint, ErrUnknownFormat}] and no profile. *)
Theorem Load_outcome (username : string) (tm : Time) (log : list request)
    (j : json float64) :
  username <> "" ->
  let outcome_at endpoint :=
    match j with
    | JObj m =>
        if profile_doc_ok m then
          if flag_value m "demo" then (None, Some ErrNoSuchProfile)
          else (Some (expected_profile m), None)
        else (None, Some (parseError endpoint))
    | _ => (None, Some (parseError endpoint))
    end in
  (FetchJSON (loadURL username) = (j, None) ->
   fst (Load' username log) = outcome_at (loadURL username)) /\
  (FetchJSON (loadAtTimeURL username (unixSec tm)) = (j, None) ->
   fst (LoadAtTime' username tm log)
   = outcome_at (loadAtTimeURL username (unixSec tm))).
Proof.
  intros Hne. apply String.eqb_neq in Hne. cbv zeta.
  assert (Hby : forall endpoint,
            FetchJSON endpoint = (j, None) ->
            fst (loadByName' endpoint log) =
            match j with
            | JObj m =>
                if profile_doc_ok m then
                  if flag_value m "demo" then (None, Some ErrNoSuchProfile)
                  else (Some (expected_profile m), None)
                else (None, Some (parseError endpoint))
            | _ => (None, Some (parseError endpoint))
            end).
  { intros endpoint H. rewrite loadByName_result, H.
    destruct j as [| | | | |m]; try reflexivity.
    cbn [assertMap mbind outcome_bind]. rewrite buildProfile_accepts.
    destruct (profile_doc_ok m); [|reflexivity].
    destruct (flag_value m "demo"); reflexivity. }
  split; intros H.
  - unfold Load. rewrite Hne. apply Hby. exact H.
  - unfold LoadAtTime. rewrite Hne. apply Hby. exact H.
Qed.

(** X10: what [LoadByID] and [LoadWithNameHistory] make of a delivered
    document: a well-formed event array gives the profile with the
    requested identifier, the last event's name (empty for no events),
    the reconstructed history (nil for no events) and no properties;
    anything else gives the parse error and no profile. *)
Theorem LoadWithNameHistory_outcome (id : string) (log : list request)
    (j : json float64) :
  id <> "" ->
  FetchJSON (loadWithNameHistoryURL id) = (j, None) ->
  fst (LoadWithNameHistory' id log) =
  match j with
  | JArr a =>
      if wf_events a then
        (Some (mkProfile id (eventName (List.last a JNull))
                 (expected_history int64_of_float64 a) None), None)
      else (None, Some (parseError (loadWithNameHistoryURL id)))
  | _ => (None, Some (parseError (loadWithNameHistoryURL id)))
  end /\
  fst (LoadByID' id log) = fst (LoadWithNameHistory' id log).
Proof.
  intros Hne H. apply String.eqb_neq in Hne. split; [|reflexivity].
  rewrite LoadWithNameHistory_result, Hne, H.
  destruct j as [| | | |a|]; try reflexivity.
  cbn [assertSlice mbind outcome_bind].
  destruct (wf_events a) eqn:Hwf.
  - destruct a as [|v a]; [reflexivity|].
    rewrite (buildHistory_spec int64_of_float64 (v :: a))
      by (discriminate || exact Hwf).
    reflexivity.
  - apply (buildHistory_not_wf int64_of_float64) in Hwf.
    rewrite Hwf. reflexivity.
Qed.

(** X13: [LoadWithProperties] on an accepted profile document of a
    non-demo account: with a ["properties"] array that
    [buildProperties] turns into properties, the profile carries them
    along with the document's identifier, name and history; an error of
    [buildProperties] is returned wrapped as
    [url.Error{"Parse", endpoint, err}] without a profile; and a missing
    or ill-typed ["properties"], or a panic while building them, gives
    the parse error with [ErrUnknownFormat] without a profile. *)
Theorem LoadWithProperties_outcome (id : string) (log : list request)
    (m : object) :
  id <> "" ->
  FetchJSON (loadWithPropertiesURL id) = (JObj m, None) ->
  profile_doc_ok m = true ->
  flag_value m "demo" = false ->
  (forall a ps,
     m !! "properties" = Some (JArr a) ->
     buildProperties' a = Ret (Some ps, None) ->
     fst (LoadWithProperties' id log)
     = (Some (mkProfile (string_value m "id") (string_value m "name")
                (if flag_value m "legacy" then Some emptyHist else None)
                (Some ps)), None)) /\
  (forall a r e,
     m !! "properties" = Some (JArr a) ->
     buildProperties' a = Ret (r, Some e) ->
     fst (LoadWithProperties' id log)
     = (None, Some (UrlError "Parse" (loadWithPropertiesURL id) e))) /\
  (assertSlice (at_key m "properties") = Panic \/
   (exists a, m !! "properties" = Some (JArr a) /\
              buildProperties' a = Panic) ->
   fst (LoadWithProperties' id log)
   = (None, Some (parseError (loadWithPropertiesURL id)))).
Proof.
  intros Hne H Hok Hdemo. apply String.eqb_neq in Hne.
  rewrite (LoadWithProperties_result base64_DecodeString json_Decode
             Model_zero UnwrapErrFailedRequest loadWithPropertiesURL
             FetchJSON), Hne.
  cbv zeta. rewrite H. cbn [assertMap mbind outcome_bind].
  rewrite buildProfile_accepts, Hok, Hdemo.
  cbn [mbind outcome_bind recovering].
  split; [|split].
  - intros a ps Ha Hb.
    assert (Hat : at_key m "properties" = JArr a)
      by (unfold at_key; rewrite Ha; reflexivity).
    rewrite Hat. cbn [assertSlice mbind outcome_bind]. rewrite Hb.
    reflexivity.
  - intros a r e Ha Hb.
    assert (Hat : at_key m "properties" = JArr a)
      by (unfold at_key; rewrite Ha; reflexivity).
    rewrite Hat. cbn [assertSlice mbind outcome_bind]. rewrite Hb.
    reflexivity.
  - intros [Hp|(a & Ha & Hb)].
    + rewrite Hp. reflexivity.
    + assert (Hat : at_key m "properties" = JArr a)
        by (unfold at_key; rewrite Ha; reflexivity).
      rewrite Hat. cbn [assertSlice mbind outcome_bind]. rewrite Hb.
      reflexivity.
Qed.

Lemma LoadMany_loop_exact (docs : list (json float64)) :
  forall ps,
    LoadMany_loop docs ps =
    if forallb batch_doc_ok docs then Ret (Some (ps ++ batch_profiles docs), None)
    else Panic.
Proof.
  induction docs as [|d docs IH]; intros ps.
  - cbn [LoadMany_loop forallb batch_profiles]. rewrite app_nil_r.
    reflexivity.
  - cbn [LoadMany_loop forallb].
    destruct d as [| | | | |m]; try reflexivity.
    cbn [assertMap mbind outcome_bind batch_doc_ok batch_profiles].
    rewrite buildProfile_accepts.
    destruct (profile_doc_ok m); [|reflexivity].
    destruct (flag_value m "demo");
      cbn [mbind outcome_bind is_ErrNoSuchProfile andb]; rewrite IH.
    + reflexivity.
    + destruct (forallb batch_doc_ok docs); [|reflexivity].
      rewrite <- app_assoc. reflexivity.
Qed.

(** X14: what [LoadMany] makes of a delivered batch: when every entry is
    an accepted profile document, the result is the profiles of the
    entries that are not demo accounts, in the order of the response,
    none of them nil, and no error; when the response is not an array or
    some entry is not accepted, the result is the nil slice and the parse
    error, however many entries were fine. *)
Theorem LoadMany_outcome (usernames : list string) (log : list request)
    (j : json float64) :
  Z.of_nat (length usernames) <= LoadManyMaxSize ->
  nonempty_names usernames <> [] ->
  ExchangeJSON loadManyURL (nonempty_names usernames) = (j, None) ->
  fst (LoadMany' usernames log) =
  Ret (match j with
       | JArr docs =>
           if forallb batch_doc_ok docs then (Some (batch_profiles docs), None)
           else (None, Some (parseError loadManyURL))
       | _ => (None, Some (parseError loadManyURL))
       end) /\
  (forall docs : list (json float64),
     Forall (fun p => p <> None) (batch_profiles docs)) /\
  (forall docs : list (json float64),
     (length (batch_profiles docs) <= length docs)%nat).
Proof.
  intros Hlen Hnames H. split; [|split].
  - rewrite (LoadMany_result UnwrapErrFailedRequest loadManyURL ExchangeJSON)
      by exact Hlen.
    destruct (nonempty_names usernames) as [|u names]; [contradiction|].
    rewrite H. cbn [fst]. f_equal.
    destruct j as [| | | |docs|]; try reflexivity.
    cbn [assertSlice mbind outcome_bind]. rewrite LoadMany_loop_exact.
    destruct (forallb batch_doc_ok docs); reflexivity.
  - intros docs. induction docs as [|d docs IH]; [constructor|].
    destruct d as [| | | | |m]; cbn [batch_profiles]; try exact IH.
    destruct (flag_value m "demo"); [exact IH|].
    constructor; [discriminate | exact IH].
  - intros docs. induction docs as [|d docs IH]; [reflexivity|].
    destruct d as [| | | | |m]; cbn [batch_profiles length]; try lia.
    destruct (flag_value m "demo"); cbn [length]; lia.
Qed.

Lemma nonempty_names_facts (usernames : list string) :
  Forall (fun u => u <> "") (nonempty_names usernames) /\
  nonempty_names usernames `sublist_of` usernames /\
  (length (nonempty_names usernames) <= length usernames)%nat.
Proof.
  unfold nonempty_names.
  induction usernames as [|u usernames (IH1 & IH2 & IH3)];
    cbn [List.filter length].
  - repeat split; [constructor | constructor | lia].
  - destruct (String.eqb_spec u "") as [->|Hu]; cbn [negb length].
    + repeat split; [exact IH1 | constructor; exact IH2 | lia].
    + repeat split;
        [constructor; assumption | constructor; exact IH2 | lia].
Qed.

(** X15: [LoadMany] contacts the transport at most once, and a request it
    sends carries between 1 and [LoadManyMaxSize] names, none of them
    empty, taken in order from the names it was given. *)
Theorem LoadMany_payload (usernames : list string) (log : list request) :
  snd (LoadMany' usernames log) = log \/
  exists payload,
    snd (LoadMany' usernames log) = log ++ [Exchange loadManyURL payload] /\
    (1 <= length payload)%nat /\
    Z.of_nat (length payload) <= LoadManyMaxSize /\
    Forall (fun u => u <> "") payload /\
    payload `sublist_of` usernames.
Proof.
  destruct (Z.ltb_spec LoadManyMaxSize (Z.of_nat (length usernames)))
    as [Hbig|Hok].
  - left. unfold LoadMany.
    destruct (Z.ltb_spec LoadManyMaxSize (Z.of_nat (length usernames)))
      as [_|?]; [reflexivity|lia].
  - rewrite (LoadMany_result UnwrapErrFailedRequest loadManyURL ExchangeJSON)
      by exact Hok.
    destruct (nonempty_names_facts usernames) as (Hne & Hsub & Hlen).
    destruct (nonempty_names usernames) as [|u names] eqn:Hn;
      [left; reflexivity|].
    right. exists (u :: names). cbn [snd].
    split; [reflexivity|]. split; [cbn [length]; lia|].
    split; [lia|]. split; assumption.
Qed.

Lemma batch_profiles_complete (docs : list (json float64)) (m : object) :
  In (JObj m) docs -> flag_value m "demo" = false ->
  In (Some (expected_profile m)) (batch_profiles docs).
Proof.
  intros Hin Hdemo. induction docs as [|d docs IH]; [destruct Hin|].
  destruct Hin as [->|Hin].
  - cbn [batch_profiles]. rewrite Hdemo. left. reflexivity.
  - destruct d as [| | | | |m']; cbn [batch_profiles]; auto.
    destruct (flag_value m' "demo"); [auto | right; auto].
Qed.

Lemma batch_profiles_sound (docs : list (json float64)) (p : option Profile) :
  In p (batch_profiles docs) ->
  exists m, In (JObj m) docs /\ flag_value m "demo" = false /\
            p = Some (expected_profile m).
Proof.
  induction docs as [|d docs IH]; intros Hin; [destruct Hin|].
  destruct d as [| | | | |m']; cbn [batch_profiles] in Hin;
    try (destruct (IH Hin) as (m & ? & ? & ?); exists m;
         split; [right; assumption | auto]).
  destruct (flag_value m' "demo") eqn:Hd.
  - destruct (IH Hin) as (m & ? & ? & ?). exists m.
    split; [right; assumption | auto].
  - destruct Hin as [<-|Hin].
    + exists m'. split; [left; reflexivity | auto].
    + destruct (IH Hin) as (m & ? & ? & ?). exists m.
      split; [right; assumption | auto].
Qed.

(** C7: a load operation that returns an error returns no profile:
    [Load], [LoadAtTime], [LoadByID], [LoadWithNameHistory] and
    [LoadWithProperties] have a nil profile whenever the error is not nil.
    [LoadMany] always returns (it never panics), with a nil slice whenever
    the error is not nil.  The batch rule: its loop over the response
    skips a demo entry, collects the profile of every other accepted
    entry, in order, and panics on an entry that is not accepted; so a
    delivered batch whose entries are all accepted gives exactly the
    profiles of its non-demo entries and no error, and a batch with one
    entry that is not accepted, or a response that is not an array, gives
    the nil slice and the parse error, whatever the other entries hold. *)
Theorem load_atomic_on_failure :
  (forall username log p e,
     fst (Load' username log) = (p, Some e) -> p = None) /\
  (forall username tm log p e,
     fst (LoadAtTime' username tm log) = (p, Some e) -> p = None) /\
  (forall id log p e,
     fst (LoadByID' id log) = (p, Some e) -> p = None) /\
  (forall id log p e,
     fst (LoadWithNameHistory' id log) = (p, Some e) -> p = None) /\
  (forall id log p e,
     fst (LoadWithProperties' id log) = (p, Some e) -> p = None) /\
  (forall username log,
     exists ps err log',
       LoadMany' username log = (Ret (ps, err), log') /\
       (err <> None -> ps = None)) /\
  (forall (m : object) j ps,
     m !! "demo" = Some (JBool true) ->
     LoadMany_loop (JObj m :: j) ps = LoadMany_loop j ps) /\
  (forall (j : list (json float64)) ps,
     LoadMany_loop j ps = Panic \/
     exists ps', LoadMany_loop j ps = Ret (Some ps', None)) /\
  (forall (docs : list (json float64)) ps,
     LoadMany_loop docs ps =
     if forallb batch_doc_ok docs
     then Ret (Some (ps ++ batch_profiles docs), None)
     else Panic) /\
  (forall usernames log j,
     Z.of_nat (length usernames) <= LoadManyMaxSize ->
     nonempty_names usernames <> [] ->
     ExchangeJSON loadManyURL (nonempty_names usernames) = (j, None) ->
     fst (LoadMany' usernames log) =
     Ret (match j with
          | JArr docs =>
              if forallb batch_doc_ok docs
              then (Some (batch_profiles docs), None)
              else (None, Some (parseError loadManyURL))
          | _ => (None, Some (parseError loadManyURL))
          end)) /\
  (forall (docs : list (json float64)) (m : object),
     In (JObj m) docs -> flag_value m "demo" = false ->
     In (Some (expected_profile m)) (batch_profiles docs)) /\
  (forall (docs : list (json float64)) (p : option Profile),
     In p (batch_profiles docs) ->
     exists m, In (JObj m) docs /\ flag_value m "demo" = false /\
               p = Some (expected_profile m)).
Proof.
  split; [|split; [|split; [|split; [|split; [|split; [|split;
    [|split; [|split; [|split; [|split]]]]]]]]]].
  - intros username log p e. unfold Load.
    destruct (String.eqb username ""); [cbn; congruence|].
    apply loadByName_atomic.
  - intros username tm log p e. unfold LoadAtTime.
    destruct (String.eqb username ""); [cbn; congruence|].
    apply loadByName_atomic.
  - intros id log p e. unfold LoadByID. apply LoadWithNameHistory_atomic.
  - intros id log p e. apply LoadWithNameHistory_atomic.
  - intros id log p e. apply LoadWithProperties_atomic.
  - intros username log.
    destruct (Z.ltb_spec LoadManyMaxSize (Z.of_nat (length username)))
      as [Hbig|Hok].
    + unfold LoadMany.
      destruct (Z.ltb_spec LoadManyMaxSize (Z.of_nat (length username)))
        as [_|?]; [|lia].
      eexists _, _, _. split; [reflexivity|]. reflexivity.
    + rewrite (LoadMany_result UnwrapErrFailedRequest loadManyURL
                 ExchangeJSON) by exact Hok.
      destruct (nonempty_names username) as [|u names].
      { eexists _, _, _. split; [reflexivity|]. reflexivity. }
      destruct (ExchangeJSON loadManyURL (u :: names)) as [j [e|]].
      { eexists _, _, _. split; [reflexivity|]. reflexivity. }
      destruct j as [| | | |a|];
        cbn [assertSlice mbind outcome_bind recovering];
        try (eexists _, _, _; split; reflexivity).
      destruct (LoadMany_loop_cases a []) as [->|[ps' ->]];
        cbn [recovering]; eexists _, _, _; (split; [reflexivity|]);
        [reflexivity | congruence].
  - intros m j ps. apply LoadMany_loop_demo.
  - intros j ps. apply LoadMany_loop_cases.
  - intros docs ps. apply LoadMany_loop_exact.
  - intros usernames log j Hlen Hnames H.
    rewrite (LoadMany_result UnwrapErrFailedRequest loadManyURL ExchangeJSON)
      by exact Hlen.
    destruct (nonempty_names usernames) as [|u names]; [contradiction|].
    rewrite H. cbn [fst]. f_equal.
    destruct j as [| | | |docs|]; try reflexivity.
    cbn [assertSlice mbind outcome_bind]. rewrite LoadMany_loop_exact.
    destruct (forallb batch_doc_ok docs); reflexivity.
  - apply batch_profiles_complete.
  - apply batch_profiles_sound.
Qed.

End LoadsExact.

(** ** Properties arrays *)

Section PropertiesExact.

Context {float64 : Type}.
Variable base64_DecodeString : string -> list Byte.byte * option error.
Variable json_Decode :
  list Byte.byte -> gmap string (json float64) * option error.
Variable Model_zero : Model.

Abbreviation object := (gmap string (json float64)).
Abbreviation populateTextures' :=
  (populateTextures (float64 := float64) base64_DecodeString json_Decode).
Abbreviation buildProperties_loop' :=
  (buildProperties_loop (float64 := float64) base64_DecodeString json_Decode).
Abbreviation buildProperties' :=
  (buildProperties (float64 := float64) base64_DecodeString json_Decode
     Model_zero).

Lemma other_property_skipped (p : json float64) (rest : list (json float64))
    (ps : Properties) :
  other_property p = true ->
  buildProperties_loop' (p :: rest) ps = buildProperties_loop' rest ps.
Proof.
  unfold other_property. intros H. cbn [buildProperties_loop].
  destruct p as [| | | | |prop]; try discriminate.
  cbn [assertMap mbind outcome_bind]. unfold at_key.
  destruct (prop !! "name") as [[| | |n| |]|]; try discriminate.
  destruct (prop !! "value") as [[| | |v| |]|]; try discriminate.
  cbn [default from_option id assertString mbind outcome_bind].
  unfold propertyPopulators.
  destruct (String.eqb n "textures"); [discriminate|]. reflexivity.
Qed.

Lemma other_properties_skipped (pre rest : list (json float64))
    (ps : Properties) :
  forallb other_property pre = true ->
  buildProperties_loop' (pre ++ rest) ps = buildProperties_loop' rest ps.
Proof.
  induction pre as [|p pre IH]; intros H; [reflexivity|].
  cbn [forallb] in H. apply andb_prop in H as [Hp Hpre].
  cbn [app]. rewrite other_property_skipped by exact Hp. auto.
Qed.

Lemma textures_entry_step (enc : string) (p : json float64)
    (rest : list (json float64)) (ps : Properties) :
  textures_entry enc p ->
  buildProperties_loop' (p :: rest) ps =
  ('(ps', err) ← populateTextures' enc ps;
   match err with
   | Some e => Ret (None, Some e)
   | None => buildProperties_loop' rest ps'
   end).
Proof.
  intros (prop & -> & Hn & Hv). cbn [buildProperties_loop].
  cbn [assertMap mbind outcome_bind]. unfold at_key. rewrite Hn, Hv.
  reflexivity.
Qed.

(** X11: [buildProperties] skips every entry whose name is not
    ["textures"], so an array without a textures entry gives the zero
    [Properties]; and a textures entry whose value does not decode (base64
    or JSON) ends the call with that decoder's error and no properties,
    without looking at the entries after it. *)
Theorem buildProperties_entries (pre rest : list (json float64))
    (p : json float64) (enc : string) (e : error) :
  forallb other_property pre = true ->
  buildProperties' pre = Ret (Some (mkProperties "" "" Model_zero), None) /\
  (textures_entry enc p ->
   (snd (base64_DecodeString enc) = Some e \/
    (snd (base64_DecodeString enc) = None /\
     snd (json_Decode (fst (base64_DecodeString enc))) = Some e)) ->
   buildProperties' (pre ++ p :: rest) = Ret (None, Some e)).
Proof.
  intros Hpre. unfold buildProperties. split.
  - rewrite <- (app_nil_r pre), other_properties_skipped by exact Hpre.
    reflexivity.
  - intros Hp Hdec.
    rewrite other_properties_skipped by exact Hpre.
    rewrite (textures_entry_step enc p rest _ Hp).
    unfold populateTextures.
    destruct (base64_DecodeString enc) as [bs [e1|]]; cbn [fst snd] in Hdec.
    + destruct Hdec as [[= ->]|[[=] _]]. reflexivity.
    + destruct Hdec as [[=]|[_ Hj]].
      destruct (json_Decode bs) as [j [e2|]]; cbn [snd] in Hj;
        [|discriminate].
      injection Hj as ->. reflexivity.
Qed.

(** X12: a textures document with well-formed entries sets the skin URL
    to the ["SKIN"] entry's and the cape URL to the ["CAPE"] entry's;
    without a ["SKIN"] entry the skin URL is left as it was, and without a
    ["CAPE"] entry the cape URL is. *)
Theorem populateTextures_urls (enc : string) (props : Properties)
    (bs : list Byte.byte) (j ts : object) :
  base64_DecodeString enc = (bs, None) ->
  json_Decode bs = (j, None) ->
  j !! "textures" = Some (JObj ts) ->
  cape_ok ts = true ->
  (forall skin url,
     ts !! "SKIN" = Some (JObj skin) ->
     skin !! "url" = Some (JStr url) ->
     skin_meta_ok skin = true ->
     populateTextures' enc props
     = Ret (mkProperties url (cape_url ts (CapeURL props))
              (if skin_is_slim skin then Alex else Steve), None)) /\
  (forall id mdl,
     ts !! "SKIN" = None ->
     j !! "profileId" = Some (JStr id) ->
     defaultModel id = Ret mdl ->
     populateTextures' enc props
     = Ret (mkProperties (SkinURL props) (cape_url ts (CapeURL props)) mdl,
            None)).
Proof.
  intros Hb Hj Hts Hcape.
  unfold populateTextures. rewrite Hb, Hj. unfold populateTextures_doc.
  assert (Hat : at_key j "textures" = JObj ts)
    by (unfold at_key; rewrite Hts; reflexivity).
  rewrite Hat. cbn [assertMap mbind outcome_bind].
  assert (Hc : forall q : Properties,
            match ts !! "CAPE" with
            | Some c =>
                cape ← assertMap c;
                url ← assertString (at_key cape "url");
                Ret (setCapeURL url q)
            | None => Ret q
            end
            = Ret (mkProperties (SkinURL q) (cape_url ts (CapeURL q))
                     (Properties_Model q))).
  { intros [su cu md]. unfold cape_ok, cape_url, string_value in *.
    destruct (ts !! "CAPE") as [[| | | | |cape]|]; try discriminate;
      [|reflexivity].
    cbn [assertMap mbind outcome_bind]. unfold at_key.
    destruct (cape !! "url") as [[| | |u| |]|]; try discriminate.
    reflexivity. }
  split.
  - intros skin url Hskin Hurl Hmeta. rewrite Hskin.
    cbn [assertMap mbind outcome_bind].
    assert (Hu : at_key skin "url" = JStr url)
      by (unfold at_key; rewrite Hurl; reflexivity).
    rewrite Hu. cbn [assertString mbind outcome_bind].
    unfold skin_meta_ok, skin_is_slim in *.
    destruct (skin !! "metadata") as [[| | | | |meta]|]; try discriminate.
    + cbn [assertMap mbind outcome_bind].
      destruct (meta !! "model") as [[| | |m| |]|]; try discriminate.
      * cbn [assertString mbind outcome_bind].
        destruct (String.eqb m "slim"); cbn [mbind outcome_bind];
          rewrite Hc; reflexivity.
      * cbn [mbind outcome_bind]. rewrite Hc. reflexivity.
    + cbn [mbind outcome_bind]. rewrite Hc. reflexivity.
  - intros id mdl Hskin Hid Hmdl. rewrite Hskin.
    assert (Hat' : at_key j "profileId" = JStr id)
      by (unfold at_key; rewrite Hid; reflexivity).
    rewrite Hat'. cbn [assertString mbind outcome_bind]. rewrite Hmdl.
    cbn [mbind outcome_bind]. rewrite Hc. reflexivity.
Qed.

End PropertiesExact.

Lemma single_load_requests_witness :
  Load unwrapFailedRequest sample_loadURL (sample_fetch JNull) "" []
  = ((None, Some ErrNoSuchProfile), []) /\
  snd (LoadWithProperties sample_base64 sample_json_Decode Steve
         unwrapFailedRequest sample_propertiesURL (sample_fetch JNull)
         sample_id [])
  = [Fetch (sample_propertiesURL sample_id)].
Proof.
  pose proof (single_load_requests (fun z : Z => z) sample_base64
                sample_json_Decode Steve unwrapFailedRequest sample_loadURL
                sample_historyURL sample_propertiesURL sample_loadAtTimeURL
                (sample_fetch JNull)) as H.
  split.
  - exact (proj1 (proj1 (H "" Time_zero []) eq_refl)).
  - refine (proj2 (proj2 (proj2 (proj2
              (proj2 (H sample_id Time_zero []) _))))).
    discriminate.
Defined.

Lemma transport_failure_classified_witness :
  fst (Load unwrapFailedRequest sample_loadURL sample_failing_fetch
         "nergalic" [])
  = (None, Some ErrTooManyRequests).
Proof.
  refine (proj1 (transport_failure_classified (fun z : Z => z) sample_base64
                   sample_json_Decode Steve unwrapFailedRequest
                   sample_loadURL sample_historyURL sample_propertiesURL
                   sample_loadAtTimeURL sample_loadManyURL
                   sample_failing_fetch sample_failing_exchange
                   "nergalic" Time_zero [] sample_rate_limited _)
            (JObj sample_profile_doc) eq_refl).
  discriminate.
Defined.

Lemma Load_outcome_witness :
  fst (Load unwrapFailedRequest sample_loadURL
         (sample_fetch (JObj sample_legacy_doc)) "nergalic" [])
  = (Some (mkProfile sample_id "Nergalic" (Some []) None), None).
Proof.
  refine (proj1 (Load_outcome unwrapFailedRequest sample_loadURL
                   sample_loadAtTimeURL
                   (sample_fetch (JObj sample_legacy_doc))
                   "nergalic" Time_zero [] (JObj sample_legacy_doc) _)
            eq_refl).
  discriminate.
Defined.

Lemma LoadWithNameHistory_outcome_witness :
  fst (LoadWithNameHistory (fun z : Z => z) unwrapFailedRequest
         sample_historyURL (sample_fetch (JArr sample_events)) sample_id [])
  = (Some (mkProfile sample_id "C"
             (Some [mkPastName "B" (mkTime (-3) 500000000);
                    mkPastName "A" (mkTime 1 500000000)]) None), None).
Proof.
  refine (proj1 (LoadWithNameHistory_outcome (fun z : Z => z)
                   unwrapFailedRequest sample_historyURL
                   (sample_fetch (JArr sample_events)) sample_id []
                   (JArr sample_events) _ eq_refl)).
  discriminate.
Defined.

Lemma buildProperties_entries_witness :
  buildProperties sample_failing_base64 sample_json_Decode Steve
    [sample_other_entry]
  = Ret (Some (mkProperties "" "" Steve), None) /\
  buildProperties sample_failing_base64 sample_json_Decode Steve
    ([sample_other_entry] ++ sample_textures_entry :: [JNull])
  = Ret (None, Some (OtherError "illegal base64 data at input byte 0")).
Proof.
  pose proof (buildProperties_entries sample_failing_base64
                sample_json_Decode Steve [sample_other_entry] [JNull]
                sample_textures_entry "e30="
                (OtherError "illegal base64 data at input byte 0")
                ltac:(vm_compute; reflexivity)) as [H1 H2].
  split; [exact H1|]. apply H2.
  - eexists. split; [reflexivity|]. split; vm_compute; reflexivity.
  - left. reflexivity.
Defined.

Lemma populateTextures_urls_witness :
  populateTextures sample_base64
    (fun _ => (sample_skin_cape_textures, None)) "e30="
    (mkProperties "" "" Alex)
  = Ret (mkProperties "http://textures.minecraft.net/texture/5b40"
           "http://textures.minecraft.net/texture/cape" Steve, None).
Proof.
  refine (proj1 (populateTextures_urls sample_base64
                   (fun _ => (sample_skin_cape_textures, None)) "e30="
                   (mkProperties "" "" Alex) [] sample_skin_cape_textures
                   (<["SKIN" := JObj {["url" := JStr "http://textures.minecraft.net/texture/5b40"]}]>
                    {["CAPE" := JObj {["url" := JStr "http://textures.minecraft.net/texture/cape"]}]})
                   eq_refl eq_refl _ _)
            {["url" := JStr "http://textures.minecraft.net/texture/5b40"]}
            "http://textures.minecraft.net/texture/5b40" _ _ _);
    vm_compute; reflexivity.
Defined.

Lemma LoadWithProperties_outcome_witness :
  fst (LoadWithProperties sample_failing_base64 sample_json_Decode Steve
         unwrapFailedRequest sample_propertiesURL
         (sample_fetch (JObj sample_legacy_doc)) sample_id [])
  = (None,
     Some (UrlError "Parse" (sample_propertiesURL sample_id)
             (OtherError "illegal base64 data at input byte 0"))).
Proof.
  refine (proj1 (proj2 (LoadWithProperties_outcome sample_failing_base64
                          sample_json_Decode Steve unwrapFailedRequest
                          sample_propertiesURL
                          (sample_fetch (JObj sample_legacy_doc))
                          sample_id [] sample_legacy_doc _ eq_refl _ _))
            [sample_other_entry; sample_textures_entry] None
            (OtherError "illegal base64 data at input byte 0") _ _);
    try discriminate; vm_compute; reflexivity.
Defined.

Lemma LoadMany_outcome_witness :
  fst (LoadMany unwrapFailedRequest sample_loadManyURL
         (sample_exchange (JArr [JObj sample_demo_doc; JObj sample_legacy_doc]))
         [""; "nergalic"; "demo"] [])
  = Ret (Some [Some (mkProfile sample_id "Nergalic" (Some []) None)], None).
Proof.
  refine (proj1 (LoadMany_outcome unwrapFailedRequest sample_loadManyURL
                   (sample_exchange
                      (JArr [JObj sample_demo_doc; JObj sample_legacy_doc]))
                   [""; "nergalic"; "demo"] []
                   (JArr [JObj sample_demo_doc; JObj sample_legacy_doc])
                   _ _ eq_refl)).
  - vm_compute. discriminate.
  - vm_compute. discriminate.
Defined.

(** Either some entry of a list carries the id [k], or none does. *)
Lemma id_occurs_or_not {float64 : Type} (vs : list (json float64))
    (k : string) :
  (exists mv, In (JObj mv) vs /\ string_value mv "id" = k) \/
  (forall mv, In (JObj mv) vs -> string_value mv "id" <> k).
Proof.
  induction vs as [|v vs [(mv & Hin & Hid)|Hnone]].
  - right. intros mv [].
  - left. exists mv. split; [right; exact Hin | exact Hid].
  - destruct v as [| | | | |m];
      try (right; intros mv [Heq|Hin]; [discriminate | eauto]).
    destruct (decide (string_value m "id" = k)) as [Heq|Hne].
    + left. exists m. split; [left; reflexivity | exact Heq].
    + right. intros mv [Heq|Hin]; [injection Heq as <-; exact Hne | eauto].
Qed.

(** * Package [versions] *)

Section VersionsListing.

Import versions.

Context {float64 : Type}.
Variable versionsURL : string.
Variable time_Parse : string -> string -> Time * option versions.error.
Variable client_Do : string -> response + versions.error.
Variable json_Decode :
  list Byte.byte -> gmap string (json float64) * option versions.error.

Abbreviation value := (json float64).
Abbreviation object := (gmap string (json float64)).
Abbreviation perr := (uerr versionsURL "Parse" errUnknownFormat).
Abbreviation version_of' := (version_of (float64 := float64) time_Parse).
Abbreviation store_entry' := (store_entry (float64 := float64) time_Parse).
Abbreviation versions_map' := (versions_map (float64 := float64) time_Parse).
Abbreviation initialize' :=
  (initialize (float64 := float64) versionsURL time_Parse).
Abbreviation initialize_loop' :=
  (initialize_loop (float64 := float64) versionsURL time_Parse).
Abbreviation Load' :=
  (versions.Load (float64 := float64) versionsURL time_Parse client_Do
     json_Decode).

Lemma assertString_string (m : object) (k : string) :
  assertString (at_key m k) =
  if string_ok m k then Ret (string_value m k) else Panic.
Proof.
  unfold at_key, string_ok, string_value.
  destruct (m !! k) as [[| | |s| |]|]; reflexivity.
Qed.

Lemma buildVersion_exact (v : value) :
  (m ← assertMap v; buildVersion time_Parse m Version_zero) =
  if version_entry_ok v then
    match v with JObj m => Ret (version_of' m) | _ => Panic end
  else Panic.
Proof.
  destruct v as [| | | | |m]; try reflexivity.
  cbn [assertMap mbind outcome_bind version_entry_ok].
  unfold buildVersion, version_of. rewrite !assertString_string.
  destruct (string_ok m "id"); [|reflexivity].
  cbn [mbind outcome_bind andb].
  destruct (string_ok m "releaseTime"); [|reflexivity].
  cbn [mbind outcome_bind andb].
  destruct (string_ok m "type"); reflexivity.
Qed.

Lemma initialize_loop_ok (vs : list value) :
  forall (vm : gmap string Version) (s r : string),
    forallb version_entry_ok vs = true ->
    initialize_loop' vs (mkListing (Some vm) s r)
    = (mkListing (Some (fold_left store_entry' vs vm)) s r, None).
Proof.
  induction vs as [|v vs IH]; intros vm s r Hok; [reflexivity|].
  cbn [forallb] in Hok. apply andb_prop in Hok as [Hv Hvs].
  cbn [initialize_loop]. rewrite buildVersion_exact, Hv.
  destruct v as [| | | | |m]; try discriminate.
  cbn [Versions fold_left].
  change (store (version_of' m) (mkListing (Some vm) s r))
    with (mkListing (Some (store_entry' vm (JObj m))) s r).
  rewrite IH by exact Hvs. reflexivity.
Qed.

Lemma initialize_loop_fails (vs : list value) :
  forall (vm : gmap string Version) (s r : string),
    forallb version_entry_ok vs = false ->
    exists vm',
      initialize_loop' vs (mkListing (Some vm) s r)
      = (mkListing (Some vm') s r, Some perr).
Proof.
  induction vs as [|v vs IH]; intros vm s r Hok; [discriminate|].
  cbn [forallb] in Hok. cbn [initialize_loop]. rewrite buildVersion_exact.
  destruct (version_entry_ok v) eqn:Hv; [|eauto].
  destruct v as [| | | | |m]; try discriminate.
  cbn [Versions].
  change (store (version_of' m) (mkListing (Some vm) s r))
    with (mkListing (Some (store_entry' vm (JObj m))) s r).
  apply IH. exact Hok.
Qed.

Lemma initialize_ok (l : Listing) (m : object) :
  listing_doc_ok m = true ->
  initialize' l m = (listing_of time_Parse m, None).
Proof.
  unfold listing_doc_ok, listing_of, initialize, at_key. intros Hok.
  destruct (m !! "latest") as [[| | | | |latest]|]; try discriminate.
  destruct (m !! "versions") as [[| | | |vs|]|]; try discriminate.
  apply andb_prop in Hok as [Hok Hvs]. apply andb_prop in Hok as [Hs Hr].
  cbn [default from_option id assertMap assertSlice].
  fold (at_key latest "snapshot"). fold (at_key latest "release").
  rewrite !assertString_string, Hs, Hr.
  cbn [Versions Latest_Snapshot Latest_Release].
  rewrite initialize_loop_ok by exact Hvs. reflexivity.
Qed.

Lemma initialize_fails (l : Listing) (m : object) :
  listing_doc_ok m = false ->
  exists vm s r, initialize' l m = (mkListing (Some vm) s r, Some perr).
Proof.
  unfold listing_doc_ok, initialize, at_key. intros Hok.
  destruct (m !! "latest") as [[| | | | |latest]|];
    cbn [default from_option id assertMap]; eauto.
  fold (at_key latest "snapshot"). fold (at_key latest "release").
  rewrite !assertString_string.
  destruct (string_ok latest "snapshot");
    cbn [Versions Latest_Snapshot Latest_Release]; eauto.
  destruct (string_ok latest "release");
    cbn [Versions Latest_Snapshot Latest_Release]; eauto.
  destruct (m !! "versions") as [[| | | |vs|]|];
    cbn [default from_option id assertSlice]; eauto.
  cbn [andb] in Hok.
  destruct (initialize_loop_fails vs ∅ (string_value latest "snapshot")
              (string_value latest "release") Hok) as [vm' ->].
  eauto.
Qed.

(** X16: [versions.Load], case by case.  A failure of the HTTP client is
    returned as it is; a status other than 200 (another 2xx included) is
    [url.Error{"Get", versionsURL, errHttpStatus(status)}] and the body is
    not decoded; a body that does not decode is
    [url.Error{"Parse", versionsURL, err}]; a document [initialize] does
    not accept is [url.Error{"Parse", versionsURL, errUnknownFormat}]; in
    each of these the listing returned is the zero [Listing].  An accepted
    document gives its listing and no error. *)
Theorem versions_Load_exact :
  Load' =
  match client_Do versionsURL with
  | inr err => (Listing_zero, Some err)
  | inl resp =>
      if StatusCode resp =? 200 then
        match json_Decode (Body resp) with
        | (_, Some e) => (Listing_zero, Some (uerr versionsURL "Parse" e))
        | (m, None) =>
            if listing_doc_ok m then (listing_of time_Parse m, None)
            else (Listing_zero, Some perr)
        end
      else
        (Listing_zero,
         Some (uerr versionsURL "Get" (errHttpStatus (StatusCode resp))))
  end.
Proof.
  unfold versions.Load, fetchJSON.
  destruct (client_Do versionsURL) as [resp|err]; [|reflexivity].
  destruct (StatusCode resp =? 200); [|reflexivity].
  cbn [negb]. destruct (json_Decode (Body resp)) as [m [e|]]; [reflexivity|].
  cbn [default from_option id].
  destruct (listing_doc_ok m) eqn:Hok.
  - rewrite initialize_ok by exact Hok. reflexivity.
  - destruct (initialize_fails Listing_zero m Hok) as (vm & s & r & ->).
    reflexivity.
Qed.

Lemma fold_store_other (vs : list value) :
  forall (vm : gmap string Version) (k : string),
    (forall mv, In (JObj mv) vs -> string_value mv "id" <> k) ->
    fold_left store_entry' vs vm !! k = vm !! k.
Proof.
  induction vs as [|v vs IH]; intros vm k Hno; [reflexivity|].
  cbn [fold_left]. rewrite IH by (intros mv Hin; apply Hno; right; exact Hin).
  destruct v as [| | | | |m]; try reflexivity.
  cbn [store_entry]. apply lookup_insert_ne. apply Hno. left. reflexivity.
Qed.

Lemma fold_store_from (vs : list value) :
  forall (vm : gmap string Version) (k : string) (v : Version),
    fold_left store_entry' vs vm !! k = Some v ->
    vm !! k = Some v \/
    exists mv, In (JObj mv) vs /\ string_value mv "id" = k /\
               v = version_of' mv.
Proof.
  induction vs as [|x vs IH]; intros vm k v H; [left; exact H|].
  cbn [fold_left] in H. apply IH in H as [H|(mv & Hin & Hk & Hv)].
  - destruct x as [| | | | |m]; cbn [store_entry] in H; auto.
    destruct (decide (string_value m "id" = k)) as [Heq|Hne].
    + subst k. rewrite lookup_insert_eq in H. injection H as <-.
      right. exists m. split; [left; reflexivity|]. auto.
    + rewrite lookup_insert_ne in H by exact Hne. auto.
  - right. exists mv. split; [right; exact Hin|]. auto.
Qed.

Lemma initialize_success (l l' : Listing) (m : object) :
  initialize' l m = (l', None) ->
  exists latest vs vm,
    m !! "latest" = Some (JObj latest) /\
    m !! "versions" = Some (JArr vs) /\
    l' = mkListing (Some vm) (string_value latest "snapshot")
           (string_value latest "release") /\
    (forall k v, vm !! k = Some v ->
       Version_ID v = k /\
       exists mv, In (JObj mv) vs /\ v = version_of' mv) /\
    (forall pre mv post,
       vs = pre ++ JObj mv :: post ->
       (forall mv', In (JObj mv') post ->
          string_value mv' "id" <> string_value mv "id") ->
       vm !! string_value mv "id" = Some (version_of' mv)).
Proof.
  intros H. destruct (listing_doc_ok m) eqn:Hok.
  - rewrite initialize_ok in H by exact Hok. injection H as <-.
    unfold listing_doc_ok, listing_of in *.
    destruct (m !! "latest") as [[| | | | |latest]|]; try discriminate.
    destruct (m !! "versions") as [[| | | |vs|]|]; try discriminate.
    exists latest, vs, (versions_map' vs).
    split; [reflexivity|]. split; [reflexivity|]. split; [reflexivity|].
    split.
    + intros k v Hv. unfold versions_map in Hv.
      apply fold_store_from in Hv as [Hv|(mv & Hin & Hk & ->)].
      { rewrite lookup_empty in Hv. discriminate. }
      split; [exact Hk | eauto].
    + intros pre mv post -> Hlast. unfold versions_map.
      rewrite fold_left_app. cbn [fold_left store_entry].
      rewrite fold_store_other by exact Hlast.
      apply lookup_insert_eq.
  - destruct (initialize_fails l m Hok) as (vm & s & r & Hf).
    rewrite Hf in H. discriminate.
Qed.

(** X17: after a successful [initialize] the listing holds the document's
    two latest ids and a map in which every version is stored under its
    own ID and is the version built from an entry of the document; of
    several entries with the same id the last one is the one kept.  What
    the listing held before is gone. *)
Theorem initialize_versions (l l' : Listing) (m : object) :
  initialize' l m = (l', None) ->
  exists latest vs vm,
    m !! "latest" = Some (JObj latest) /\
    m !! "versions" = Some (JArr vs) /\
    l' = mkListing (Some vm) (string_value latest "snapshot")
           (string_value latest "release") /\
    (forall k v, vm !! k = Some v ->
       Version_ID v = k /\
       exists mv, In (JObj mv) vs /\ v = version_of' mv) /\
    (forall pre mv post,
       vs = pre ++ JObj mv :: post ->
       (forall mv', In (JObj mv') post ->
          string_value mv' "id" <> string_value mv "id") ->
       vm !! string_value mv "id" = Some (version_of' mv)).
Proof. apply initialize_success. Qed.

(** X18: a failed [initialize] has already written to the listing it was
    given: the error is the parse error with [errUnknownFormat], and the
    listing is left with a non-nil [Versions] map, so it is not the zero
    [Listing] that [versions.Load] returns in its place. *)
Theorem initialize_failure_state (l l' : Listing) (m : object)
    (e : versions.error) :
  initialize' l m = (l', Some e) ->
  e = perr /\ Versions l' <> None /\ l' <> Listing_zero /\
  listing_doc_ok m = false.
Proof.
  intros H. destruct (listing_doc_ok m) eqn:Hok.
  - rewrite initialize_ok in H by exact Hok. discriminate.
  - destruct (initialize_fails l m Hok) as (vm & s & r & Hf).
    rewrite Hf in H. injection H as <- <-.
    repeat split; discriminate.
Qed.

(** X19: [LatestRelease] on a listing that [initialize] filled returns a
    version whose ID is the latest release id, and panics exactly when
    no entry of the document's ["versions"] has that id: a successful
    load does not rule the panic out. *)
Theorem LatestRelease_after_initialize (l l' : Listing) (m : object)
    (vs : list value) :
  initialize' l m = (l', None) ->
  m !! "versions" = Some (JArr vs) ->
  (forall v, LatestRelease l' = Ret v -> Version_ID v = Latest_Release l') /\
  (LatestRelease l' = Panic <->
   forall mv, In (JObj mv) vs -> string_value mv "id" <> Latest_Release l').
Proof.
  intros H Hvs.
  destruct (initialize_success l l' m H)
    as (latest & vs' & vm & Hl & Hvs' & -> & Hkey & Hlast).
  rewrite Hvs in Hvs'. injection Hvs' as <-.
  unfold LatestRelease, Versions_get.
  cbn [Versions Latest_Release].
  set (k := string_value latest "release").
  split.
  - intros v Hv. destruct (vm !! k) as [v'|] eqn:Hk; [|discriminate].
    injection Hv as <-. apply (Hkey k v' Hk).
  - split.
    + intros Hp mv Hin Hid.
      destruct (vm !! k) as [v'|] eqn:Hk; [discriminate|].
      assert (Hex : exists pre mv' post,
                vs = pre ++ JObj mv' :: post /\
                string_value mv' "id" = k /\
                forall mv'', In (JObj mv'') post ->
                  string_value mv'' "id" <> k).
      { clear -Hin Hid. revert mv Hin Hid.
        induction vs as [|x vs IH]; intros mv Hin Hid; [destruct Hin|].
        destruct (id_occurs_or_not vs k) as [Hlater|Hnone].
        - destruct Hlater as (mv1 & Hin1 & Hid1).
          destruct (IH mv1 Hin1 Hid1) as (pre & mv' & post & -> & Hk & Hp).
          exists (x :: pre), mv', post. auto.
        - destruct Hin as [->|Hin].
          + exists [], mv, vs. auto.
          + exfalso. apply (Hnone mv Hin Hid). }
      destruct Hex as (pre & mv' & post & Hsplit & Hk' & Hpost).
      rewrite <- Hk' in Hk.
      rewrite (Hlast pre mv' post Hsplit) in Hk; [discriminate|].
      intros mv'' Hin''. rewrite Hk'. apply Hpost. exact Hin''.
    + intros Hno. destruct (vm !! k) as [v'|] eqn:Hk; [|reflexivity].
      destruct (Hkey k v' Hk) as (Hid & mv & Hin & ->).
      exfalso. apply (Hno mv Hin). exact Hid.
Qed.

End VersionsListing.

Lemma initialize_versions_witness :
  versions.initialize "https://launchermeta.mojang.com/mc/game/version_manifest.json"
    sample_time_Parse versions.Listing_zero sample_listing_doc
  = (versions.listing_of sample_time_Parse sample_listing_doc, None) /\
  versions.Versions_get
    (versions.listing_of sample_time_Parse sample_listing_doc) "1.12.1"
  = Some (versions.mkVersion "1.12.1" (mkTime 1501592400 0) "release").
Proof.
  assert (H : versions.initialize
                "https://launchermeta.mojang.com/mc/game/version_manifest.json"
                sample_time_Parse versions.Listing_zero sample_listing_doc
              = (versions.listing_of sample_time_Parse sample_listing_doc,
                 None))
    by (vm_compute; reflexivity).
  split; [exact H|].
  destruct (initialize_versions _ sample_time_Parse _ _ _ H)
    as (latest & vs & vm & _ & Hvs & Hl & _ & Hlast).
  rewrite Hl. unfold versions.Versions_get. cbn [versions.Versions].
  assert (Hvs' : vs = [sample_version "17w31a" "snapshot";
                       sample_version "1.12.1" "old_beta"]
                      ++ sample_version "1.12.1" "release" :: [])
    by (vm_compute in Hvs; injection Hvs as <-; reflexivity).
  exact (Hlast _ _ _ Hvs' ltac:(intros ? [])).
Defined.

Lemma initialize_failure_state_witness :
  versions.initialize "https://launchermeta.mojang.com/mc/game/version_manifest.json"
    sample_time_Parse versions.Listing_zero sample_profile_doc
  = (versions.mkListing (Some ∅) "" "",
     Some (versions.UrlError "Parse"
             "https://launchermeta.mojang.com/mc/game/version_manifest.json"
             versions.errUnknownFormat)) /\
  versions.mkListing (Some ∅) "" "" <> versions.Listing_zero.
Proof.
  assert (H : versions.initialize
                "https://launchermeta.mojang.com/mc/game/version_manifest.json"
                sample_time_Parse versions.Listing_zero sample_profile_doc
              = (versions.mkListing (Some ∅) "" "",
                 Some (versions.UrlError "Parse"
                         "https://launchermeta.mojang.com/mc/game/version_manifest.json"
                         versions.errUnknownFormat)))
    by (vm_compute; reflexivity).
  split; [exact H|].
  exact (proj1 (proj2 (proj2 (initialize_failure_state _ sample_time_Parse
                                _ _ _ _ H)))).
Defined.

Lemma LatestRelease_after_initialize_witness :
  versions.LatestRelease
    (versions.listing_of sample_time_Parse sample_listing_doc)
  = Ret (versions.mkVersion "1.12.1" (mkTime 1501592400 0) "release") /\
  versions.Version_ID
    (versions.mkVersion "1.12.1" (mkTime 1501592400 0) "release")
  = versions.Latest_Release
      (versions.listing_of sample_time_Parse sample_listing_doc).
Proof.
  assert (H : versions.LatestRelease
                (versions.listing_of sample_time_Parse sample_listing_doc)
              = Ret (versions.mkVersion "1.12.1" (mkTime 1501592400 0)
                       "release"))
    by (vm_compute; reflexivity).
  split; [exact H|].
  refine (proj1 (LatestRelease_after_initialize
                   "https://launchermeta.mojang.com/mc/game/version_manifest.json"
                   sample_time_Parse versions.Listing_zero
                   (versions.listing_of sample_time_Parse sample_listing_doc)
                   sample_listing_doc
                   [sample_version "17w31a" "snapshot";
                    sample_version "1.12.1" "old_beta";
                    sample_version "1.12.1" "release"] _ _) _ H);
    vm_compute; reflexivity.
Defined.

(** ** [Type.String] *)

(** X20: [Type.String] never returns the empty string, returns every type
    other than ["old_alpha"], ["old_beta"] and the empty one as it is, and
    applying it twice changes nothing more. *)
Theorem Type_String_total (t : string) :
  versions.Type_String t <> "" /\
  versions.Type_String (versions.Type_String t) = versions.Type_String t /\
  (t <> versions.Alpha -> t <> versions.Beta -> t <> "" ->
   versions.Type_String t = t).
Proof.
  unfold versions.Type_String, versions.Release, versions.Snapshot,
    versions.Alpha, versions.Beta.
  destruct (String.eqb_spec t "release") as [->|H1];
    [repeat split; discriminate || reflexivity|].
  destruct (String.eqb_spec t "snapshot") as [->|H2];
    [repeat split; discriminate || reflexivity|].
  destruct (String.eqb_spec t "old_alpha") as [->|H3];
    [repeat split; try discriminate; try reflexivity; congruence|].
  destruct (String.eqb_spec t "old_beta") as [->|H4];
    [repeat split; try discriminate; try reflexivity; congruence|].
  destruct (String.eqb_spec t "") as [->|H5];
    [repeat split; try discriminate; try reflexivity; congruence|].
  split; [exact H5|]. split; [|reflexivity].
  destruct (String.eqb_spec t "release"); [contradiction|].
  destruct (String.eqb_spec t "snapshot"); [contradiction|].
  destruct (String.eqb_spec t "old_alpha"); [contradiction|].
  destruct (String.eqb_spec t "old_beta"); [contradiction|].
  destruct (String.eqb_spec t ""); [contradiction|]. reflexivity.
Qed.

Lemma Type_String_total_witness :
  versions.Type_String "pending" = "pending".
Proof.
  apply (proj2 (proj2 (Type_String_total "pending"))); discriminate.
Defined.

(** ** [getJsonError] *)

(** X21: [getJsonError] reports no error exactly for the values that are
    not an object with an ["error"] key, so such a key is never dropped
    silently; the code ["TooManyRequestsException"] gives the rate-limit
    error whether or not a message comes with it; any other code panics
    exactly when ["errorMessage"] is missing or not a string, and
    otherwise gives an error whose text joins code and message. *)
Theorem getJsonError_cases {float64 : Type} (j : json float64) :
  (errors.getJsonError j = Ret None <->
   forall m, j = JObj m -> m !! "error" = None) /\
  (forall m, j = JObj m ->
     m !! "error" = Some (JStr "TooManyRequestsException") ->
     errors.getJsonError j = Ret (Some errors.errTooManyRequests)) /\
  (forall m code, j = JObj m -> m !! "error" = Some (JStr code) ->
     code <> "TooManyRequestsException" ->
     (errors.getJsonError j = Panic <-> string_ok m "errorMessage" = false) /\
     (string_ok m "errorMessage" = true ->
      errors.getJsonError j
      = Ret (Some (errors.errors_New
                     (String.append "Mojang API error: "
                        (String.append code
                           (String.append "; message: "
                              (string_value m "errorMessage")))))))).
Proof.
  split; [|split].
  - destruct j as [| | | | |m];
      try (split; [intros _ m' Hm; discriminate Hm | reflexivity]).
    unfold errors.getJsonError. split.
    + intros H m' [= <-].
      destruct (m !! "error") as [e|]; [|reflexivity].
      destruct e as [| | |code| |]; cbn [assertString mbind outcome_bind] in H;
        try discriminate.
      destruct (String.eqb code "TooManyRequestsException");
        [discriminate|].
      destruct (assertString (at_key m "errorMessage"));
        cbn [mbind outcome_bind] in H; discriminate.
    + intros H. rewrite (H m eq_refl). reflexivity.
  - intros m -> He. unfold errors.getJsonError. rewrite He. reflexivity.
  - intros m code -> He Hc. unfold errors.getJsonError. rewrite He.
    cbn [assertString mbind outcome_bind].
    apply String.eqb_neq in Hc. rewrite Hc.
    unfold at_key, string_ok, string_value.
    destruct (m !! "errorMessage") as [[| | |msg| |]|];
      cbn [default from_option id assertString mbind outcome_bind];
      (split; [split; intros; (reflexivity || discriminate)
              | intros; (reflexivity || discriminate)]).
Qed.

Lemma getJsonError_cases_witness :
  errors.getJsonError
    (JObj (<["error" := JStr "TooManyRequestsException"]>
           (∅ : gmap string (json Z))))
  = Ret (Some errors.errTooManyRequests).
Proof.
  refine (proj1 (proj2 (getJsonError_cases _)) _ eq_refl _).
  vm_compute. reflexivity.
Defined.

(** ** [transformError], applied twice *)

Section ClassifierTwice.

Variable UnwrapErrFailedRequest : error -> option ErrFailedRequest.

(** X22: when the two sentinel errors are not themselves transport
    failures, classifying an error a second time changes nothing: a
    classified error is never a transport failure with status 204 or with
    the rate-exhaustion code. *)
Theorem transformError_idempotent (src : error) :
  UnwrapErrFailedRequest ErrNoSuchProfile = None ->
  UnwrapErrFailedRequest ErrTooManyRequests = None ->
  transformError UnwrapErrFailedRequest
    (transformError UnwrapErrFailedRequest src)
  = transformError UnwrapErrFailedRequest src /\
  (forall e,
     UnwrapErrFailedRequest (transformError UnwrapErrFailedRequest src)
     = Some e ->
     StatusCode e <> 204 /\ ErrorCode e <> "TooManyRequestsException").
Proof.
  intros Hn Ht. unfold transformError at 2 3 4.
  destruct (UnwrapErrFailedRequest src) as [e|] eqn:Hsrc.
  - destruct (Z.eqb_spec (StatusCode e) 204) as [Hs|Hs].
    + split; [unfold transformError; rewrite Hn; reflexivity|].
      intros e'. rewrite Hn. discriminate.
    + destruct (String.eqb_spec (ErrorCode e) "TooManyRequestsException")
        as [Hc|Hc].
      * split; [unfold transformError; rewrite Ht; reflexivity|].
        intros e'. rewrite Ht. discriminate.
      * split.
        -- unfold transformError. rewrite Hsrc.
           destruct (Z.eqb_spec (StatusCode e) 204); [contradiction|].
           destruct (String.eqb_spec (ErrorCode e)
                       "TooManyRequestsException"); [contradiction|].
           reflexivity.
        -- intros e'. rewrite Hsrc. intros [= <-]. auto.
  - split; [unfold transformError; rewrite Hsrc; reflexivity|].
    intros e'. rewrite Hsrc. discriminate.
Qed.

End ClassifierTwice.

Lemma transformError_idempotent_witness :
  transformError unwrapFailedRequest
    (transformError unwrapFailedRequest sample_transport_failure)
  = transformError unwrapFailedRequest sample_transport_failure.
Proof.
  exact (proj1 (transformError_idempotent unwrapFailedRequest
                  sample_transport_failure eq_refl eq_refl)).
Defined.

Lemma load_atomic_on_failure_witness :
  fst (LoadWithProperties sample_base64 sample_json_Decode Steve
         unwrapFailedRequest sample_propertiesURL
         (sample_fetch (JObj sample_profile_doc)) sample_id [])
  = (None, Some (parseError (sample_propertiesURL sample_id))) /\
  (None : option Profile) = None /\
  fst (LoadMany unwrapFailedRequest sample_loadManyURL
         (sample_exchange
            (JArr [JObj sample_profile_doc; JObj sample_blank_doc; JNull]))
         ["nergalic"; ""; "x"] [])
  = Ret (None, Some (parseError sample_loadManyURL)) /\
  fst (LoadMany unwrapFailedRequest sample_loadManyURL
         (sample_exchange
            (JArr [JObj sample_demo_doc; JObj sample_profile_doc;
                   JObj sample_blank_doc]))
         ["nergalic"; ""; "x"] [])
  = Ret (Some [Some (mkProfile sample_id "Nergalic" None None);
               Some (mkProfile "" "" None None)], None).
Proof.
  split; [vm_compute; reflexivity|]. split; [|split].
  - destruct (load_atomic_on_failure (fun z : Z => z) sample_base64
                sample_json_Decode Steve unwrapFailedRequest sample_loadURL
                sample_historyURL sample_propertiesURL sample_loadAtTimeURL
                sample_loadManyURL (sample_fetch (JObj sample_profile_doc))
                (sample_exchange (JArr [])))
      as (_ & _ & _ & _ & H & _).
    apply (H sample_id [] None
             (parseError (sample_propertiesURL sample_id))).
    vm_compute. reflexivity.
  - destruct (load_atomic_on_failure (fun z : Z => z) sample_base64
                sample_json_Decode Steve unwrapFailedRequest sample_loadURL
                sample_historyURL sample_propertiesURL sample_loadAtTimeURL
                sample_loadManyURL (sample_fetch (JObj sample_profile_doc))
                (sample_exchange
                   (JArr [JObj sample_profile_doc; JObj sample_blank_doc;
                          JNull])))
      as (_ & _ & _ & _ & _ & _ & _ & _ & _ & H & _).
    apply (H ["nergalic"; ""; "x"] []
             (JArr [JObj sample_profile_doc; JObj sample_blank_doc; JNull]));
      [vm_compute; discriminate | vm_compute; discriminate | reflexivity].
  - destruct (load_atomic_on_failure (fun z : Z => z) sample_base64
                sample_json_Decode Steve unwrapFailedRequest sample_loadURL
                sample_historyURL sample_propertiesURL sample_loadAtTimeURL
                sample_loadManyURL (sample_fetch (JObj sample_profile_doc))
                (sample_exchange
                   (JArr [JObj sample_demo_doc; JObj sample_profile_doc;
                          JObj sample_blank_doc])))
      as (_ & _ & _ & _ & _ & _ & _ & _ & _ & H & _).
    apply (H ["nergalic"; ""; "x"] []
             (JArr [JObj sample_demo_doc; JObj sample_profile_doc;
                    JObj sample_blank_doc]));
      [vm_compute; discriminate | vm_compute; discriminate | reflexivity].
Defined.
